(** * mlx_server: simulated thermal foot sensor and its streaming session

    A shallow embedding of [mlx_server.py]: the [SimulatedSensor] class
    (image loading, configuration, frame generation) and the WebSocket
    handler [frame_producer] with its two cooperative loops
    [send_frames] and [receive_messages].

    Python floats are IEEE 754 binary64 and NumPy's [float32] arrays are
    binary32; both are modelled with the executable specification of
    floating-point arithmetic of the standard library ([SpecFloat]). *)

From Stdlib Require Import ZArith Ascii String Bool Lia List.
From Stdlib Require Import SpecFloat.
Import ListNotations.
Open Scope string_scope.
Set Warnings "-register-all".

(** ** Floating-point numbers *)

Module IEEE.

Definition float := spec_float.

(** Python [float] and [np.float64]: precision 53, [emax] 1024. *)
Definition f64_add : float -> float -> float := SFadd 53 1024.
Definition f64_sub : float -> float -> float := SFsub 53 1024.
Definition f64_mul : float -> float -> float := SFmul 53 1024.
Definition f64_div : float -> float -> float := SFdiv 53 1024.

(** [np.float32]: precision 24, [emax] 128. *)
Definition f32_add : float -> float -> float := SFadd 24 128.
Definition f32_sub : float -> float -> float := SFsub 24 128.
Definition f32_mul : float -> float -> float := SFmul 24 128.
Definition f32_div : float -> float -> float := SFdiv 24 128.

(** Conversion of a double to single precision (round to nearest even),
    as done by [astype(np.float32)], by [fill] on a [float32] array and
    when a Python scalar meets a [float32] array. *)
Definition to_f32 (x : float) : float :=
  match x with
  | S754_finite s m e => binary_round 24 128 s m e
  | _ => x
  end.

(** Conversion of a single to double precision, as done by [float(x)]
    and [astype(float)]: exact, the number is written again with a
    53-bit mantissa. *)
Definition to_f64 (x : float) : float :=
  match x with
  | S754_finite s m e => binary_round 53 1024 s m e
  | _ => x
  end.

(** An integer as a double and as a single. *)
Definition of_Z (z : Z) : float := binary_normalize 53 1024 z 0 false.
Definition f32_of_Z (z : Z) : float := binary_normalize 24 128 z 0 false.

(** The double denoted by the decimal literal [p/q]. *)
Definition decimal (p q : Z) : float := f64_div (of_Z p) (of_Z q).

Definition zero : float := S754_zero false.

Definition eqb : float -> float -> bool := SFeqb.
Definition ltb : float -> float -> bool := SFltb.

Definition is_nan (x : float) : bool :=
  match x with S754_nan => true | _ => false end.

Definition signbit (x : float) : bool :=
  match x with
  | S754_zero s | S754_infinity s | S754_finite s _ _ => s
  | S754_nan => false
  end.

(** Neither infinite nor NaN. *)
Definition is_finite (x : float) : bool :=
  match x with
  | S754_zero _ | S754_finite _ _ _ => true
  | _ => false
  end.

(** Python's builtin [max(a, b)]: [b] when [b > a], otherwise [a]. *)
Definition py_max (a b : float) : float := if ltb a b then b else a.

(** [np.minimum] / [np.maximum] as used by the reductions [min()] and
    [max()]: a NaN operand propagates. *)
Definition np_minimum (a b : float) : float :=
  if is_nan a then a else if is_nan b then b else if ltb b a then b else a.
Definition np_maximum (a b : float) : float :=
  if is_nan a then a else if is_nan b then b else if ltb a b then b else a.

End IEEE.
Import IEEE.

(** ** Python exceptions and outcomes *)

Inductive exn : Set :=
  | FileNotFoundError
  | ValueError
  | JSONDecodeError
  | TimeoutError
  | ConnectionClosed
  | UnicodeDecodeError
  | UnicodeEncodeError
  | UnidentifiedImageError
  | OtherException.

Inductive outcome (A : Type) : Type :=
  | Return (a : A)
  | Raise (e : exn).
Arguments Return {A} a.
Arguments Raise {A} e.

(** Exception classes named in [except] clauses. *)
Definition is_FileNotFoundError (e : exn) : bool :=
  match e with FileNotFoundError => true | _ => false end.

(** ** Arrays

    A two-dimensional array is the list of its rows. *)

Definition matrix := list (list float).

(** [m] has [r] rows of [c] cells. *)
Definition has_shape (r c : nat) (m : matrix) : bool :=
  (length m =? r)%nat && forallb (fun row => (length row =? c)%nat) m.

(** [m[i, j]] *)
Definition pixel (m : matrix) (i j : nat) : option float :=
  match nth_error m i with
  | Some row => nth_error row j
  | None => None
  end.

(** [np.full((rows, cols), v)] *)
Definition np_full (r c : nat) (v : float) : matrix := repeat (repeat v c) r.

(** [np.zeros((rows, cols), dtype=np.float32)] *)
Definition np_zeros (r c : nat) : matrix := np_full r c zero.

(** [np.zeros_like(arr)] *)
Definition np_zeros_like (m : matrix) : matrix := map (map (fun _ => zero)) m.

(** [arr.fill(v)] on a [float32] array: every cell receives [v] converted
    to single precision. *)
Definition fill (m : matrix) (v : float) : matrix :=
  map (map (fun _ => to_f32 v)) m.

(** [arr.shape] *)
Definition shape (m : matrix) : nat * nat := (length m, length (hd [] m)).

(** [arr.ravel()]: row-major flattening. *)
Definition ravel (m : matrix) : list float := concat m.

(** Elementwise operations. *)
Definition map_matrix (f : float -> float) (m : matrix) : matrix :=
  map (map f) m.

Definition zip_with {A B C} (f : A -> B -> C) (a : list A) (b : list B) : list C :=
  map (fun p => f (fst p) (snd p)) (combine a b).

Definition map2_matrix (f : float -> float -> float) (a b : matrix) : matrix :=
  zip_with (zip_with f) a b.

(** [arr.min()] and [arr.max()]; NumPy raises [ValueError] on an array
    without elements. *)
Definition np_min (m : matrix) : outcome float :=
  match ravel m with
  | [] => Raise ValueError
  | x :: xs => Return (fold_left np_minimum xs x)
  end.

Definition np_max (m : matrix) : outcome float :=
  match ravel m with
  | [] => Raise ValueError
  | x :: xs => Return (fold_left np_maximum xs x)
  end.

(** ** Collaborators

    What the program obtains from its libraries and its environment:
    the image files and Pillow's decoding and resampling, NumPy's sine and
    random generator, NumPy's promotion rule and the JSON decoder. *)

Inductive json : Type :=
  | JNull
  | JBool (b : bool)
  | JInt (z : Z)
  | JFloat (f : float)
  | JStr (s : string)
  | JList (l : list json)
  | JDict (d : list (string * json)).

(** A WebSocket message: a text frame or a binary frame. *)
Inductive message : Type :=
  | Text (s : string)
  | Binary (b : list Byte.byte).

Class Env : Type := {
  (** decoded image files *)
  image : Type;
  (** [Image.open(path).convert("L")]: the decoded image, or the
      exception raised: [FileNotFoundError] when the file is absent,
      [UnidentifiedImageError] or another one when the file is there and
      cannot be decoded *)
  Image_open : string -> outcome image;
  (** [img.resize((cols, rows), Image.BILINEAR)], read as the 8-bit gray
      level at row [r] and column [c] of the resampled image *)
  resize : image -> nat -> nat -> nat -> nat -> Byte.byte;
  (** [np.sin] on a double *)
  np_sin : float -> float;
  (** state of NumPy's global random generator, and one normal draw with
      the given mean and standard deviation *)
  rng : Type;
  normal : float -> float -> rng -> float * rng;
  (** how a [float32] array and a [np.float64] scalar combine: in double
      precision under NEP 50 (NumPy 2), in single precision under the
      value-based casting of NumPy 1 *)
  nep50 : bool;
  (** [json.loads]: the decoded value, or the exception raised:
      [json.JSONDecodeError] on text that is not JSON, [UnicodeDecodeError]
      on a binary frame that is not UTF-8, or another one *)
  json_loads : message -> outcome json;
  (** whether the standard output can encode the text of a decoded
      value: [print(f"...: {value}")] raises [UnicodeEncodeError] when it
      cannot, as for a string with a lone surrogate on an output in UTF-8.
      The standard output is taken to be open and to encode what cannot
      hold a lone surrogate: the texts of the program, the names checked
      against the lists of valid names, the file names and the messages
      received, so that the other calls of [print] return. *)
  printable : json -> bool
}.

(** ** The sensor *)

(** The attributes of a [SimulatedSensor] object.  [load_log] is a ghost
    field, absent from the Python object: the paths passed to
    [_load_image] so far, most recent first. *)
Record SimulatedSensor : Type := {
  rows : nat;
  cols : nat;
  temp_min : float;
  temp_max : float;
  noise_std : float;
  t : float;
  image_path : string;
  simulation_mode : string;
  foot : string;
  base : matrix;
  load_log : list string
}.

Definition set_t (self : SimulatedSensor) (v : float) : SimulatedSensor :=
  {| rows := rows self; cols := cols self; temp_min := temp_min self;
     temp_max := temp_max self; noise_std := noise_std self; t := v;
     image_path := image_path self; simulation_mode := simulation_mode self;
     foot := foot self; base := base self; load_log := load_log self |}.

Definition set_image_path (self : SimulatedSensor) (v : string) : SimulatedSensor :=
  {| rows := rows self; cols := cols self; temp_min := temp_min self;
     temp_max := temp_max self; noise_std := noise_std self; t := t self;
     image_path := v; simulation_mode := simulation_mode self;
     foot := foot self; base := base self; load_log := load_log self |}.

Definition set_simulation_mode (self : SimulatedSensor) (v : string) : SimulatedSensor :=
  {| rows := rows self; cols := cols self; temp_min := temp_min self;
     temp_max := temp_max self; noise_std := noise_std self; t := t self;
     image_path := image_path self; simulation_mode := v;
     foot := foot self; base := base self; load_log := load_log self |}.

Definition set_foot (self : SimulatedSensor) (v : string) : SimulatedSensor :=
  {| rows := rows self; cols := cols self; temp_min := temp_min self;
     temp_max := temp_max self; noise_std := noise_std self; t := t self;
     image_path := image_path self; simulation_mode := simulation_mode self;
     foot := v; base := base self; load_log := load_log self |}.

Definition set_base (self : SimulatedSensor) (v : matrix) : SimulatedSensor :=
  {| rows := rows self; cols := cols self; temp_min := temp_min self;
     temp_max := temp_max self; noise_std := noise_std self; t := t self;
     image_path := image_path self; simulation_mode := simulation_mode self;
     foot := foot self; base := v; load_log := load_log self |}.

Definition log_load (self : SimulatedSensor) (path : string) : SimulatedSensor :=
  {| rows := rows self; cols := cols self; temp_min := temp_min self;
     temp_max := temp_max self; noise_std := noise_std self; t := t self;
     image_path := image_path self; simulation_mode := simulation_mode self;
     foot := foot self; base := base self; load_log := path :: load_log self |}.

(** Truth value of an optional string argument: [None] and the empty
    string are false. *)
Definition truthy (x : option string) : bool :=
  match x with
  | Some s => negb (s =? "")
  | None => false
  end.

(** [x in l] for a string [x] and a list of strings [l]. *)
Definition str_in (x : string) (l : list string) : bool :=
  existsb (String.eqb x) l.

Definition VALID_SIMULATION_MODES : list string :=
  ["baja_diferencia"; "alta_diferencia"].
Definition VALID_FEET : list string := ["izquierdo"; "derecho"].

(** The dictionary [image_map] of [set_config], with the default of its
    [get]. *)
Definition image_map (foot : string) : string :=
  if foot =? "izquierdo" then "pie_izquierdo.png"
  else if foot =? "derecho" then "pie_derecho.png"
  else "pie_izquierdo.png".

Section Sensor.
Context {E : Env}.

(** [np.asarray(img_resized, dtype=np.float32)]: [rows] rows of [cols]
    gray levels. *)
Definition asarray (px : nat -> nat -> Byte.byte) (r c : nat) : matrix :=
  map (fun i => map (fun j => f32_of_Z (Z.of_N (Byte.to_N (px i j)))) (seq 0 c))
      (seq 0 r).

(** [SimulatedSensor._load_image].  A request for an image without
    pixels is refused by Pillow with a [ValueError], the exception that
    [min()] raises here on the array without elements.  [except_] is the
    clause [except FileNotFoundError] of the [try] block: any other
    exception leaves the method. *)
Definition _load_image (path : string) (self : SimulatedSensor)
  : outcome unit * SimulatedSensor :=
  let self := log_load self path in
  let except_ (e : exn) :=
    if is_FileNotFoundError e then
      (Return tt,
       set_base self
         (np_full (rows self) (cols self)
            (to_f32 (f64_div (f64_add (temp_min self) (temp_max self))
                       (of_Z 2)))))
    else (Raise e, self) in
  match Image_open path with
  | Return img =>
      let arr := asarray (resize img (cols self) (rows self)) (rows self) (cols self) in
      match np_min arr with
      | Raise e => except_ e
      | Return amin =>
          let amin := to_f64 amin in
          match np_max arr with
          | Raise e => except_ e
          | Return amax =>
              let amax := to_f64 amax in
              let norm :=
                if eqb amax amin then np_zeros_like arr
                else map_matrix
                       (fun x => f32_div (f32_sub x (to_f32 amin))
                                         (to_f32 (f64_sub amax amin))) arr in
              let span := f64_sub (temp_max self) (temp_min self) in
              (Return tt,
               set_base self
                 (map_matrix
                    (fun x => f32_add (to_f32 (temp_min self))
                                      (f32_mul (to_f32 span) x)) norm))
          end
      end
  | Raise e => except_ e
  end.

(** The file at [path] is absent or it decodes: a load raises nothing on
    its account. *)
Definition loadable (path : string) : bool :=
  match Image_open path with
  | Return _ => true
  | Raise e => is_FileNotFoundError e
  end.

(** [SimulatedSensor.__init__]; the primed names are the arguments. *)
Definition __init__ (image_path' : string) (rows' cols' : nat)
    (temp_min' temp_max' noise_std' : float) : outcome SimulatedSensor :=
  let self :=
    {| rows := rows'; cols := cols'; temp_min := temp_min';
       temp_max := temp_max'; noise_std := noise_std'; t := zero;
       image_path := image_path';
       simulation_mode := "baja_diferencia"; foot := "izquierdo";
       base := []; load_log := [] |} in
  match _load_image image_path' self with
  | (Return _, self) => Return self
  | (Raise e, _) => Raise e
  end.

(** [SimulatedSensor.set_config]; the primed names are the arguments. *)
Definition set_config (simulation_mode' foot' : option string)
    (self : SimulatedSensor) : outcome bool * SimulatedSensor :=
  let changed := false in
  let '(changed, self) :=
    match simulation_mode' with
    | Some m =>
        if truthy simulation_mode'
           && str_in m ["baja_diferencia"; "alta_diferencia"]
        then
          if negb (simulation_mode self =? m)
          then (true, set_simulation_mode self m)
          else (changed, self)
        else (changed, self)
    | None => (changed, self)
    end in
  match foot' with
  | Some f =>
      if truthy foot' && str_in f ["izquierdo"; "derecho"]
      then
        if negb (foot self =? f)
        then
          let self := set_foot self f in
          let changed := true in
          let path := image_map f in
          if negb (path =? image_path self)
          then
            let self := set_image_path self path in
            match _load_image path self with
            | (Return _, self) => (Return changed, self)
            | (Raise e, self) => (Raise e, self)
            end
          else (Return changed, self)
        else (Return changed, self)
      else (Return changed, self)
  | None => (Return changed, self)
  end.

(** [SimulatedSensor._calculate_temperature_offset] *)
Definition _calculate_temperature_offset (self : SimulatedSensor) : matrix :=
  let '(rows, cols) := shape (base self) in
  let offset_map := np_zeros rows cols in
  if simulation_mode self =? "baja_diferencia" then
    let uniform_offset :=
      if foot self =? "izquierdo" then SFopp (decimal 3 10) else decimal 3 10 in
    fill offset_map uniform_offset
  else
    if foot self =? "izquierdo" then fill offset_map (SFopp (decimal 15 10))
    else offset_map.

(** [n] successive draws. *)
Fixpoint draw_list (loc scale : float) (n : nat) (g : rng) : list float * rng :=
  match n with
  | O => ([], g)
  | S n =>
      let (x, g) := normal loc scale g in
      let (xs, g) := draw_list loc scale n g in
      (x :: xs, g)
  end.

Fixpoint draw_matrix (loc scale : float) (r c : nat) (g : rng) : matrix * rng :=
  match r with
  | O => ([], g)
  | S r =>
      let (row, g) := draw_list loc scale c g in
      let (m, g) := draw_matrix loc scale r c g in
      (row :: m, g)
  end.

(** [np.random.normal(loc, scale, shape)]: an array of the given shape
    filled in row-major order; a negative [scale] is refused. *)
Definition np_random_normal (loc scale : float) (shp : nat * nat) (g : rng)
  : outcome matrix * rng :=
  if negb (is_nan scale) && signbit scale then (Raise ValueError, g)
  else
    let (m, g) := draw_matrix loc scale (fst shp) (snd shp) g in
    (Return m, g).

(** [array + scalar] for a [float32] array and a [np.float64] scalar. *)
Definition add_scalar (x d : float) : float :=
  if nep50 then f64_add (to_f64 x) d else f32_add x (to_f32 d).

(** [array + array] where the right operand is a [float32] array and the
    left one has the type produced by [add_scalar]. *)
Definition add_array (x y : float) : float :=
  if nep50 then f64_add x (to_f64 y) else f32_add x y.

(** [SimulatedSensor.get_frame] *)
Definition get_frame (self : SimulatedSensor) (g : rng)
  : outcome matrix * SimulatedSensor * rng :=
  let self := set_t self (f64_add (t self) (decimal 5 100)) in
  let drift := f64_mul (decimal 3 10) (np_sin (t self)) in
  match np_random_normal zero (noise_std self) (shape (base self)) g with
  | (Raise e, g) => (Raise e, self, g)
  | (Return sample, g) =>
      let noise := map_matrix to_f32 sample in
      let temp_offset := _calculate_temperature_offset self in
      let frame :=
        map2_matrix add_array
          (map2_matrix add_array
             (map_matrix (fun x => add_scalar x drift) (base self))
             noise)
          temp_offset in
      (Return frame, self, g)
  end.

End Sensor.

(** ** The connection handler [frame_producer] *)

Definition FPS : float := of_Z 4.
Definition INTERVAL : float := f64_div (of_Z 1) FPS.

(** Where the coroutine [send_frames] is suspended. *)
Inductive sender_pc : Type :=
  | SenderReady                    (* about to test [while running] *)
  | SenderSending (t0 : float)     (* in [await websocket.send(...)] *)
  | SenderSleeping (delay : float) (* in [await asyncio.sleep(delay)] *)
  | SenderDone.

(** Where the coroutine [receive_messages] is suspended. *)
Inductive receiver_pc : Type :=
  | ReceiverReady                  (* about to test [while running] *)
  | ReceiverWaiting                (* in [await asyncio.wait_for(recv, 0.1)] *)
  | ReceiverDone.

Inductive phase : Type := Handshake | Streaming | Closed.

Section Session.
Context {E : Env}.

(** The local variables of one call of [frame_producer], shared by its two
    nested coroutines, together with the control state of the coroutines.
    [gen] is the state of the random generator and [sent] the messages
    handed to [websocket.send], most recent first. *)
Record session : Type := {
  sensor : SimulatedSensor;
  current_simulation_mode : string;
  current_foot : string;
  running : bool;
  gen : rng;
  sent : list json;
  sender : sender_pc;
  receiver : receiver_pc;
  stage : phase
}.

Definition set_sensor (st : session) (v : SimulatedSensor) : session :=
  {| sensor := v; current_simulation_mode := current_simulation_mode st;
     current_foot := current_foot st; running := running st; gen := gen st;
     sent := sent st; sender := sender st; receiver := receiver st;
     stage := stage st |}.

Definition set_current_simulation_mode (st : session) (v : string) : session :=
  {| sensor := sensor st; current_simulation_mode := v;
     current_foot := current_foot st; running := running st; gen := gen st;
     sent := sent st; sender := sender st; receiver := receiver st;
     stage := stage st |}.

Definition set_current_foot (st : session) (v : string) : session :=
  {| sensor := sensor st; current_simulation_mode := current_simulation_mode st;
     current_foot := v; running := running st; gen := gen st;
     sent := sent st; sender := sender st; receiver := receiver st;
     stage := stage st |}.

Definition set_running (st : session) (v : bool) : session :=
  {| sensor := sensor st; current_simulation_mode := current_simulation_mode st;
     current_foot := current_foot st; running := v; gen := gen st;
     sent := sent st; sender := sender st; receiver := receiver st;
     stage := stage st |}.

Definition set_gen (st : session) (v : rng) : session :=
  {| sensor := sensor st; current_simulation_mode := current_simulation_mode st;
     current_foot := current_foot st; running := running st; gen := v;
     sent := sent st; sender := sender st; receiver := receiver st;
     stage := stage st |}.

Definition push_sent (st : session) (v : json) : session :=
  {| sensor := sensor st; current_simulation_mode := current_simulation_mode st;
     current_foot := current_foot st; running := running st; gen := gen st;
     sent := v :: sent st; sender := sender st; receiver := receiver st;
     stage := stage st |}.

Definition set_sender (st : session) (v : sender_pc) : session :=
  {| sensor := sensor st; current_simulation_mode := current_simulation_mode st;
     current_foot := current_foot st; running := running st; gen := gen st;
     sent := sent st; sender := v; receiver := receiver st;
     stage := stage st |}.

Definition set_receiver (st : session) (v : receiver_pc) : session :=
  {| sensor := sensor st; current_simulation_mode := current_simulation_mode st;
     current_foot := current_foot st; running := running st; gen := gen st;
     sent := sent st; sender := sender st; receiver := v;
     stage := stage st |}.

Definition set_stage (st : session) (v : phase) : session :=
  {| sensor := sensor st; current_simulation_mode := current_simulation_mode st;
     current_foot := current_foot st; running := running st; gen := gen st;
     sent := sent st; sender := sender st; receiver := receiver st;
     stage := v |}.

(** *** Code that reads and writes the session and may raise *)

Definition M (A : Type) : Type := session -> outcome A * session.

Definition ret {A} (a : A) : M A := fun st => (Return a, st).

Definition raise {A} (e : exn) : M A := fun st => (Raise e, st).

Definition bind {A B} (m : M A) (k : A -> M B) : M B :=
  fun st =>
    match m st with
    | (Return a, st') => k a st'
    | (Raise e, st') => (Raise e, st')
    end.

(** [try: body except ...: handler ...]: the handler of the first clause
    that matches the exception runs; without a match the exception
    propagates. *)
Fixpoint dispatch {A} (clauses : list ((exn -> bool) * M A)) (e : exn) : M A :=
  match clauses with
  | [] => raise e
  | (catches, handler) :: rest =>
      if catches e then handler else dispatch rest e
  end.

Definition try_except {A} (body : M A) (clauses : list ((exn -> bool) * M A))
  : M A :=
  fun st =>
    match body st with
    | (Raise e, st') => dispatch clauses e st'
    | r => r
    end.

(** The result of an [await], delivered when the coroutine resumes. *)
Definition await {A} (r : outcome A) : M A := fun st => (r, st).

(** The result of a call of a library function, which does not touch the
    session. *)
Definition library {A} (r : outcome A) : M A := fun st => (r, st).

Definition modify (f : session -> session) : M unit := fun st => (Return tt, f st).

(** [sensor.set_config(...)] *)
Definition sensor_set_config (simulation_mode' foot' : option string) : M bool :=
  fun st =>
    let (r, sensor') := set_config simulation_mode' foot' (sensor st) in
    (r, set_sensor st sensor').

End Session.

Declare Scope py_scope.
Delimit Scope py_scope with py.
Notation "x <- m ;; k" := (bind m (fun x => k))
  (at level 61, m at next level, right associativity) : py_scope.
Notation "m ;; k" := (bind m (fun _ => k))
  (at level 61, right associativity) : py_scope.

Open Scope py_scope.

(** [Exception] catches every exception of the model. *)
Definition is_JSONDecodeError (e : exn) : bool :=
  match e with JSONDecodeError => true | _ => false end.
Definition is_TimeoutError (e : exn) : bool :=
  match e with TimeoutError => true | _ => false end.
Definition is_ConnectionClosed (e : exn) : bool :=
  match e with ConnectionClosed => true | _ => false end.
Definition is_Exception (e : exn) : bool := true.

(** [msg_data[key]], with [None] when [key in msg_data] is false. *)
Fixpoint dict_get (key : string) (d : list (string * json)) : option json :=
  match d with
  | [] => None
  | (k, v) :: rest => if k =? key then Some v else dict_get key rest
  end.

(** [value in valid] for a decoded JSON value and a list of strings: only
    a string can be equal to a member; the string is returned. *)
Definition valid_enum (value : json) (valid : list string) : option string :=
  match value with
  | JStr s => if str_in s valid then Some s else None
  | _ => None
  end.

Inductive loop_control : Type := NextIteration | BreakLoop.

Section Handler.
Context {E : Env}.

(** [sensor.get_frame()] *)
Definition sensor_get_frame : M matrix :=
  fun st =>
    let '(r, sensor', g') := get_frame (sensor st) (gen st) in
    (r, set_gen (set_sensor st sensor') g').

(** [json.loads(message)] *)
Definition decode (message : message) : M json :=
  library (json_loads message).

(** [print(f"...: {value}")] for a rejected value. *)
Definition print (value : json) : M unit :=
  if printable value then ret tt else raise UnicodeEncodeError.

(** Lines 245-249: the key ["simulation_mode"] of the initial object. *)
Definition initial_mode (msg_data : list (string * json)) : M unit :=
  match dict_get "simulation_mode" msg_data with
  | Some sim_mode =>
      match valid_enum sim_mode VALID_SIMULATION_MODES with
      | Some sim_mode =>
          modify (fun st => set_current_simulation_mode st sim_mode) ;;
          sensor_set_config (Some sim_mode) None ;;
          ret tt
      | None => ret tt
      end
  | None => ret tt
  end.

(** Lines 251-255: the key ["foot"] of the initial object. *)
Definition initial_foot (msg_data : list (string * json)) : M unit :=
  match dict_get "foot" msg_data with
  | Some foot =>
      match valid_enum foot VALID_FEET with
      | Some foot =>
          modify (fun st => set_current_foot st foot) ;;
          sensor_set_config None (Some foot) ;;
          ret tt
      | None => ret tt
      end
  | None => ret tt
  end.

(** The handshake: the first [try] block of [frame_producer], resumed with
    the result of [asyncio.wait_for(websocket.recv(), timeout=1.0)]. *)
Definition handshake (r : outcome message) : M unit :=
  try_except
    (initial_message <- await r ;;
     try_except
       (msg_data <- decode initial_message ;;
        match msg_data with
        | JDict d => initial_mode d ;; initial_foot d
        | _ => ret tt
        end)
       [(is_JSONDecodeError, ret tt)])
    [(is_TimeoutError, ret tt)].

(** Lines 203-210: the key ["simulation_mode"] of a received object; the
    result is the value of [changed] afterwards.  The [else] branch
    prints the rejected value. *)
Definition receive_mode (msg_data : list (string * json)) (changed : bool)
  : M bool :=
  match dict_get "simulation_mode" msg_data with
  | Some sim_mode =>
      match valid_enum sim_mode VALID_SIMULATION_MODES with
      | Some sim_mode =>
          modify (fun st => set_current_simulation_mode st sim_mode) ;;
          sensor_set_config (Some sim_mode) None ;;
          ret true
      | None => print sim_mode ;; ret changed
      end
  | None => ret changed
  end.

(** Lines 213-220: the key ["foot"] of a received object. *)
Definition receive_foot (msg_data : list (string * json)) (changed : bool)
  : M bool :=
  match dict_get "foot" msg_data with
  | Some foot =>
      match valid_enum foot VALID_FEET with
      | Some foot =>
          modify (fun st => set_current_foot st foot) ;;
          sensor_set_config None (Some foot) ;;
          ret true
      | None => print foot ;; ret changed
      end
  | None => ret changed
  end.

(** The inner [try] block of [receive_messages], applied to a received
    message.  The result is the final value of the local [changed]
    ([False] where the variable is never assigned). *)
Definition receive_message (message : message) : M bool :=
  try_except
    (msg_data <- decode message ;;
     match msg_data with
     | JDict d =>
         let changed := false in
         changed <- receive_mode d changed ;;
         receive_foot d changed
     | _ => ret false
     end)
    [(is_JSONDecodeError, ret false)].

(** One iteration of the body of [while running] in [receive_messages],
    resumed with the result of
    [asyncio.wait_for(websocket.recv(), timeout=0.1)]. *)
Definition receive_iteration (r : outcome message) : M loop_control :=
  try_except
    (message <- await r ;;
     receive_message message ;;
     ret NextIteration)
    [(is_TimeoutError, ret NextIteration);
     (is_ConnectionClosed,
      modify (fun st => set_running st false) ;; ret BreakLoop);
     (is_Exception,
      modify (fun st => set_running st false) ;; ret BreakLoop)].

(** The [except] clauses of [send_frames]. *)
Definition send_clauses : list ((exn -> bool) * M loop_control) :=
  [(is_ConnectionClosed,
    modify (fun st => set_running st false) ;; ret BreakLoop);
   (is_Exception,
    modify (fun st => set_running st false) ;; ret BreakLoop)].

(** The dictionary [payload] of [send_frames]. *)
Definition payload (st : session) (timestamp : float) (frame : matrix) : json :=
  JDict
    [("simulation_mode", JStr (current_simulation_mode st));
     ("foot", JStr (current_foot st));
     ("timestamp", JFloat timestamp);
     ("rows", JInt (Z.of_nat (rows (sensor st))));
     ("cols", JInt (Z.of_nat (cols (sensor st))));
     ("data", JList (map JFloat (ravel (map_matrix to_f64 frame))))].

(** The body of [while running] in [send_frames] up to
    [await websocket.send(...)]; [now] and [now'] are the two readings of
    [time.time()]. *)
Definition send_begin (now now' : float) : M loop_control :=
  try_except
    (let t0 := now in
     frame <- sensor_get_frame ;;
     modify (fun st => push_sent st (payload st now' frame)) ;;
     modify (fun st => set_sender st (SenderSending t0)) ;;
     ret NextIteration)
    send_clauses.

(** The wait computed at the end of a tick. *)
Definition wait (elapsed : float) : float :=
  py_max zero (f64_sub INTERVAL elapsed).

(** The rest of the body, resumed with the result of the [send]; [now] is
    the third reading of [time.time()]. *)
Definition send_end (t0 : float) (r : outcome unit) (now : float)
  : M loop_control :=
  try_except
    (await r ;;
     let elapsed := f64_sub now t0 in
     modify (fun st => set_sender st (SenderSleeping (wait elapsed))) ;;
     ret NextIteration)
    send_clauses.

(** [SimulatedSensor(image_path)] with the default values of the other
    arguments. *)
Definition new_sensor (image_path' : string) : outcome SimulatedSensor :=
  __init__ image_path' 32 24 (of_Z 28) (of_Z 38) (decimal 15 100).

(** The prologue of [frame_producer], before its [try] block. *)
Definition connect (g0 : rng) : outcome session :=
  let current_simulation_mode' := "baja_diferencia" in
  let current_foot' := "izquierdo" in
  match new_sensor "pie_izquierdo.png" with
  | Raise e => Raise e
  | Return sensor' =>
      match set_config (Some current_simulation_mode') (Some current_foot') sensor' with
      | (Raise e, _) => Raise e
      | (Return _, sensor') =>
          Return {| sensor := sensor';
                    current_simulation_mode := current_simulation_mode';
                    current_foot := current_foot';
                    running := true;
                    gen := g0;
                    sent := [];
                    sender := SenderReady;
                    receiver := ReceiverReady;
                    stage := Handshake |}
      end
  end.

(** What the event loop delivers to the handler. *)
Inductive event : Type :=
  (* the initial [wait_for(recv, 1.0)] completes *)
  | InitialMessage (r : outcome message)
  (* [send_frames] is scheduled at its loop test, when it starts or when
     its sleep ends; the two clock readings of the tick *)
  | SenderWakes (now now' : float)
  (* [websocket.send] completes; the clock reading that follows *)
  | SendCompletes (r : outcome unit) (now : float)
  (* [receive_messages] starts *)
  | ReceiverStarts
  (* [wait_for(recv, 0.1)] completes *)
  | RecvCompletes (r : outcome message).

(** The test of [while running] of [send_frames], followed by the first
    part of the body. *)
Definition sender_wakes (now now' : float) (st : session) : session :=
  if running st then
    match send_begin now now' st with
    | (Return NextIteration, st') => st'
    | (_, st') => set_sender st' SenderDone
    end
  else set_sender st SenderDone.

Definition send_completes (t0 : float) (r : outcome unit) (now : float)
    (st : session) : session :=
  match send_end t0 r now st with
  | (Return NextIteration, st') => st'
  | (_, st') => set_sender st' SenderDone
  end.

(** The test of [while running] of [receive_messages]. *)
Definition receiver_test (st : session) : session :=
  if running st then set_receiver st ReceiverWaiting
  else set_receiver st ReceiverDone.

Definition recv_completes (r : outcome message) (st : session) : session :=
  match receive_iteration r st with
  | (Return NextIteration, st') => receiver_test st'
  | (_, st') => set_receiver st' ReceiverDone
  end.

(** [asyncio.gather] returns when both coroutines have finished; the
    [finally] clause of [frame_producer] follows. *)
Definition settle (st : session) : session :=
  match sender st, receiver st with
  | SenderDone, ReceiverDone => set_stage (set_running st false) Closed
  | _, _ => st
  end.

(** One step of the handler.  An event that does not match the point
    where its coroutine is suspended is not delivered. *)
Definition step (ev : event) (st : session) : session :=
  match stage st, ev with
  | Handshake, InitialMessage r =>
      match handshake r st with
      | (Return _, st') => set_stage st' Streaming
      | (Raise _, st') => set_stage (set_running st' false) Closed
      end
  | Streaming, SenderWakes now now' =>
      match sender st with
      | SenderReady | SenderSleeping _ => settle (sender_wakes now now' st)
      | _ => st
      end
  | Streaming, SendCompletes r now =>
      match sender st with
      | SenderSending t0 => settle (send_completes t0 r now st)
      | _ => st
      end
  | Streaming, ReceiverStarts =>
      match receiver st with
      | ReceiverReady => settle (receiver_test st)
      | _ => st
      end
  | Streaming, RecvCompletes r =>
      match receiver st with
      | ReceiverWaiting => settle (recv_completes r st)
      | _ => st
      end
  | _, _ => st
  end.

(** The session after a sequence of events. *)
Definition run (evs : list event) (st : session) : session :=
  fold_left (fun st ev => step ev st) evs st.

End Handler.

(** ** Notions used in the statements *)

(** A sensor whose base matrix has the declared shape and whose noise
    level is accepted by the generator. *)
Definition scale_ok (scale : float) : bool :=
  negb (negb (is_nan scale) && signbit scale).

Definition well_formed (self : SimulatedSensor) : bool :=
  has_shape (rows self) (cols self) (base self) && scale_ok (noise_std self).

(** The configuration of the specification and its wire names. *)
Inductive Mode : Set := LowDiff | HighDiff.
Inductive Foot : Set := Left | Right.

Definition mode_name (m : Mode) : string :=
  match m with
  | LowDiff => "baja_diferencia"
  | HighDiff => "alta_diferencia"
  end.

Definition foot_name (f : Foot) : string :=
  match f with
  | Left => "izquierdo"
  | Right => "derecho"
  end.

(** The offset rule table of the specification, its entries being the
    single-precision numbers that a [float32] map holds. *)
Definition spec_offset (m : Mode) (f : Foot) : float :=
  match m, f with
  | LowDiff, Left => to_f32 (decimal (-3) 10)
  | LowDiff, Right => to_f32 (decimal 3 10)
  | HighDiff, Left => to_f32 (decimal (-15) 10)
  | HighDiff, Right => zero
  end.

(** The value that [_calculate_temperature_offset] writes in every cell. *)
Definition offset_value (self : SimulatedSensor) : float :=
  if simulation_mode self =? "baja_diferencia" then
    to_f32 (if foot self =? "izquierdo" then SFopp (decimal 3 10) else decimal 3 10)
  else
    if foot self =? "izquierdo" then to_f32 (SFopp (decimal 15 10)) else zero.

Section FrameNotions.
Context {E : Env}.

(** The generator after [k] draws, and the [k]-th draw counted from 0. *)
Definition after_draws (loc scale : float) (k : nat) (g : rng) : rng :=
  Nat.iter k (fun g => snd (normal loc scale g)) g.

Definition nth_draw (loc scale : float) (k : nat) (g : rng) : float :=
  fst (normal loc scale (after_draws loc scale k g)).

(** [base + drift + noise + offset] for one cell, added from left to
    right: in double precision under NEP 50, where the drift, a
    [np.float64], promotes the sum, and in single precision otherwise.
    The noise is the draw converted to single precision. *)
Definition spec_pixel (b drift n off : float) : float :=
  if nep50 then
    SFadd 53 1024
      (SFadd 53 1024 (SFadd 53 1024 (to_f64 b) drift) (to_f64 (to_f32 n)))
      (to_f64 off)
  else
    SFadd 24 128 (SFadd 24 128 (SFadd 24 128 b (to_f32 drift)) (to_f32 n)) off.

End FrameNotions.

(** The number of calls of [_load_image] between two states of a sensor. *)
Definition reloads (before after : SimulatedSensor) : nat :=
  length (load_log after) - length (load_log before).

(** The first [if] of [set_config]: it yields the value of [changed] that
    the second [if] starts from. *)
Definition mode_part (simulation_mode' : option string) (self : SimulatedSensor)
  : bool * SimulatedSensor :=
  match simulation_mode' with
  | Some m =>
      if truthy simulation_mode'
         && str_in m ["baja_diferencia"; "alta_diferencia"]
      then
        if negb (simulation_mode self =? m)
        then (true, set_simulation_mode self m)
        else (false, self)
      else (false, self)
  | None => (false, self)
  end.

(** A sensor as the handler keeps it: at least one pixel, well formed,
    a valid configuration and the image of its foot in place. *)
Definition sensor_ok (self : SimulatedSensor) : Prop :=
  0 < rows self /\ 0 < cols self
  /\ well_formed self = true
  /\ str_in (simulation_mode self) VALID_SIMULATION_MODES = true
  /\ str_in (foot self) VALID_FEET = true
  /\ image_path self = image_map (foot self).

(** The image file of each foot, as the specification gives it. *)
Definition spec_image (f : Foot) : string :=
  match f with
  | Left => "pie_izquierdo.png"
  | Right => "pie_derecho.png"
  end.

(** *** Sessions *)

(** The valid value that a decoded message asks for under [key], if any. *)
Definition requested (key : string) (valid : list string)
    (d : list (string * json)) : option string :=
  match dict_get key d with
  | Some v => valid_enum v valid
  | None => None
  end.

Definition is_some {A} (o : option A) : bool :=
  match o with Some _ => true | None => false end.

(** The outcome of a block that ends with a call of [set_config] whose
    result is dropped. *)
Definition after_load {A} (r : outcome bool) (x : A) : outcome A :=
  match r with
  | Return _ => Return x
  | Raise e => Raise e
  end.

(** The value under [key] that a decoded message carries and that is not
    a valid one, if any. *)
Definition rejected (key : string) (valid : list string)
    (d : list (string * json)) : option json :=
  match dict_get key d with
  | Some v =>
      match valid_enum v valid with
      | Some _ => None
      | None => Some v
      end
  | None => None
  end.

Section SessionNotions.
Context {E : Env}.

(** [current_simulation_mode = s; sensor.set_config(simulation_mode=s)] *)
Definition apply_mode (s : string) (st : session) : session :=
  set_sensor (set_current_simulation_mode st s)
    (snd (set_config (Some s) None (sensor st))).

(** [current_foot = f; sensor.set_config(foot=f)] *)
Definition apply_foot (f : string) (st : session) : session :=
  set_sensor (set_current_foot st f)
    (snd (set_config None (Some f) (sensor st))).

(** The two assignments in the order of the handler, each one only when
    its field is requested. *)
Definition apply_request (rm rf : option string) (st : session) : session :=
  let st1 := match rm with Some s => apply_mode s st | None => st end in
  match rf with Some f => apply_foot f st1 | None => st1 end.

(** The sensor is in order and agrees with the configuration that the
    handler puts in its messages. *)
Definition config_ok (st : session) : Prop :=
  sensor_ok (sensor st)
  /\ simulation_mode (sensor st) = current_simulation_mode st
  /\ foot (sensor st) = current_foot st.

(** The flag [running] is down once a coroutine has left its loop and
    once the handler has finished; it is up during the handshake. *)
Definition control_ok (st : session) : Prop :=
  (sender st = SenderDone -> running st = false)
  /\ (receiver st = ReceiverDone -> running st = false)
  /\ (stage st = Closed -> running st = false)
  /\ (stage st = Handshake -> running st = true).

(** The handler has not started its coroutines before the end of the
    handshake, and it finishes as soon as both have left their loops. *)
Definition settled (st : session) : Prop :=
  (stage st = Handshake ->
   sender st = SenderReady /\ receiver st = ReceiverReady)
  /\ (stage st = Streaming ->
      sender st = SenderDone -> receiver st = ReceiverDone -> False).

(** Both coroutines have left their loops and the handler has finished. *)
Definition finished (st : session) : Prop :=
  stage st = Closed /\ sender st = SenderDone /\ receiver st = ReceiverDone.

Definition session_ok (st : session) : Prop := config_ok st /\ control_ok st.

(** The standard output takes the rejected value, if there is one. *)
Definition prints (v : option json) : bool :=
  match v with
  | Some v => printable v
  | None => true
  end.

(** The image file of the requested foot, if there is one, is absent or
    decodes. *)
Definition loads (rf : option string) : bool :=
  match rf with
  | Some f => loadable (image_map f)
  | None => true
  end.

(** The handling of what the event delivers lowers [running] although the
    transport did not fail: an exception other than a timeout leaves the
    handshake, or the inner [try] block of the receiver. *)
Definition handling_fails (ev : event) (st : session) : bool :=
  match ev with
  | InitialMessage (Return m) =>
      match fst (handshake (Return m) st) with
      | Raise _ => true
      | Return _ => false
      end
  | RecvCompletes (Return m) =>
      match fst (receive_message m st) with
      | Raise e => negb (is_TimeoutError e)
      | Return _ => false
      end
  | _ => false
  end.

(** The results of the transport that end a session: an exception other
    than a timeout raised by a receive, any exception raised by a send. *)
Definition transport_failure (ev : event) : bool :=
  match ev with
  | InitialMessage (Raise e) => negb (is_TimeoutError e)
  | RecvCompletes (Raise e) => negb (is_TimeoutError e)
  | SendCompletes (Raise _) _ => true
  | _ => false
  end.

(** The sender is suspended at its loop test: at its start or in its
    sleep. *)
Definition at_loop_test (pc : sender_pc) : bool :=
  match pc with
  | SenderReady | SenderSleeping _ => true
  | _ => false
  end.

(** A handshake after which the defaults stay: no message in time, a
    message that is not JSON, JSON that is not an object. *)
Inductive no_config : outcome message -> Prop :=
  | no_message : no_config (Raise TimeoutError)
  | not_json (m : message) :
      json_loads m = Raise JSONDecodeError -> no_config (Return m)
  | not_object (m : message) (v : json) :
      json_loads m = Return v -> (forall d, v <> JDict d) ->
      no_config (Return m).

End SessionNotions.

(** ** Sequences of calls and what a session has sent *)

(** A call of a public method of the sensor. *)
Inductive call : Type :=
  | CallSetConfig (simulation_mode' foot' : option string)
  | CallGetFrame.

Section Calls.
Context {E : Env}.

(** The sensor and the generator after a call, whether the call returned
    or raised. *)
Definition do_call (c : call) (sg : SimulatedSensor * rng)
  : SimulatedSensor * rng :=
  match c with
  | CallSetConfig m f => (snd (set_config m f (fst sg)), snd sg)
  | CallGetFrame =>
      let '(_, self, g) := get_frame (fst sg) (snd sg) in (self, g)
  end.

Definition do_calls (cs : list call) (sg : SimulatedSensor * rng)
  : SimulatedSensor * rng :=
  fold_left (fun sg c => do_call c sg) cs sg.

(** Loading the file in place once more leaves the matrix as it is: the
    matrix is the one that the file gives, or the file does not load and
    the matrix is the one from before. *)
Definition coherent (self : SimulatedSensor) : Prop :=
  base (snd (_load_image (image_path self) self)) = base self.

(** What the constructor establishes and every call keeps. *)
Definition kept (path : string) (r c : nat) (tmin tmax std : float)
    (self : SimulatedSensor) : Prop :=
  rows self = r /\ cols self = c
  /\ temp_min self = tmin /\ temp_max self = tmax /\ noise_std self = std
  /\ has_shape r c (base self) = true
  /\ str_in (simulation_mode self) VALID_SIMULATION_MODES = true
  /\ str_in (foot self) VALID_FEET = true
  /\ coherent self
  /\ hd_error (load_log self) = Some (image_path self)
  /\ (image_path self = path \/ image_path self = image_map (foot self)).

(** Two sessions with the same sensor, configuration, generator and sent
    messages: they differ by the control state at most. *)
Definition same_data (a b : session) : Prop :=
  sensor a = sensor b
  /\ current_simulation_mode a = current_simulation_mode b
  /\ current_foot a = current_foot b
  /\ gen a = gen b
  /\ sent a = sent b.

(** The data of a session after the first part of a tick of the sender
    that produced [frame]. *)
Definition ticked (now' : float) (frame : matrix) (st : session) : session :=
  push_sent
    (set_gen
       (set_sensor st
          (set_t (sensor st) (f64_add (t (sensor st)) (decimal 5 100))))
       (snd (draw_matrix zero (noise_std (sensor st)) (rows (sensor st))
               (cols (sensor st)) (gen st))))
    (payload st now' frame).

End Calls.

(** The phase after [n] frames: [n] additions of 0.05 to 0.0. *)
Definition phase_after (n : nat) : float :=
  Nat.iter n (fun t => f64_add t (decimal 5 100)) zero.

Definition is_float (j : json) : bool :=
  match j with JFloat _ => true | _ => false end.

(** A frame message of the server: the six keys in their order, a valid
    mode and a valid foot, 32 rows, 24 columns and 768 numbers. *)
Definition is_frame (j : json) : bool :=
  match j with
  | JDict [(k1, JStr mode); (k2, JStr foot); (k3, JFloat _);
           (k4, JInt r); (k5, JInt c); (k6, JList data)] =>
      (k1 =? "simulation_mode") && (k2 =? "foot") && (k3 =? "timestamp")
      && (k4 =? "rows") && (k5 =? "cols") && (k6 =? "data")
      && str_in mode VALID_SIMULATION_MODES && str_in foot VALID_FEET
      && (r =? 32)%Z && (c =? 24)%Z
      && (length data =? 768)%nat && forallb is_float data
  | _ => false
  end.

Section SessionData.
Context {E : Env}.

(** The sensor of a session is the one that the handler built, with the
    calls made since; every message sent is a frame; the phase counts the
    frames. *)
Definition session_data_ok (st : session) : Prop :=
  kept "pie_izquierdo.png" 32 24 (of_Z 28) (of_Z 38) (decimal 15 100) (sensor st)
  /\ forallb is_frame (sent st) = true
  /\ t (sensor st) = phase_after (length (sent st)).

End SessionData.

(** ** Gray levels and the thermal range *)

(** The gray levels of a resampled image of [r] rows and [c] columns, row
    after row. *)
Definition gray_levels (px : nat -> nat -> Byte.byte) (r c : nat) : list Z :=
  concat
    (map (fun i => map (fun j => Z.of_N (Byte.to_N (px i j))) (seq 0 c))
       (seq 0 r)).

(** The lowest and the highest of a list of levels. *)
Definition darkest (levels : list Z) : Z :=
  fold_left Z.min (tl levels) (hd 0%Z levels).
Definition brightest (levels : list Z) : Z :=
  fold_left Z.max (tl levels) (hd 0%Z levels).

(** The temperature of a pixel of gray level [g] in an image whose levels
    go from [lo] to [hi]: [temp_min + (temp_max - temp_min) * norm] with
    [norm = (g - lo) / (hi - lo)], in single precision. *)
Definition stretch (tmin tmax : float) (lo hi g : Z) : float :=
  f32_add (to_f32 tmin)
    (f32_mul (to_f32 (f64_sub tmax tmin))
       (f32_div (f32_of_Z (g - lo)) (f32_of_Z (hi - lo)))).

(** [lo <= x <= hi]; false when a NaN is involved. *)
Definition in_range (lo hi x : float) : bool := SFleb lo x && SFleb x hi.

(** Every cell of an array of [r] rows and [c] columns is a temperature
    between 28 and 38 degrees. *)
Definition ranged (r c : nat) (m : matrix) : Prop :=
  forall i j, i < r -> j < c ->
  exists x,
    pixel m i j = Some x /\ in_range (f32_of_Z 28) (f32_of_Z 38) x = true.

(** Facts on the 256 gray levels are established by running the
    operations of the code on all of them. *)
Definition same_float (a b : float) : bool :=
  match a, b with
  | S754_zero s, S754_zero s' => Bool.eqb s s'
  | S754_infinity s, S754_infinity s' => Bool.eqb s s'
  | S754_nan, S754_nan => true
  | S754_finite s m e, S754_finite s' m' e' =>
      Bool.eqb s s' && Pos.eqb m m' && Z.eqb e e'
  | _, _ => false
  end.

Definition byte_levels : list Z := map Z.of_nat (seq 0 256).

Definition all_pairs (P : Z -> Z -> bool) : bool :=
  forallb (fun a => forallb (P a) byte_levels) byte_levels.

(** [min()] and [max()] on gray levels are those of the integers. *)
Definition extremes_exact (a b : Z) : bool :=
  same_float (np_minimum (f32_of_Z a) (f32_of_Z b)) (f32_of_Z (Z.min a b))
  && same_float (np_maximum (f32_of_Z a) (f32_of_Z b)) (f32_of_Z (Z.max a b)).

(** [arr - amin] and [amax - amin] are the differences of the integers,
    and [amax == amin] is their equality. *)
Definition differences_exact (a b : Z) : bool :=
  if (b <=? a)%Z then
    same_float (f32_sub (f32_of_Z a) (to_f32 (to_f64 (f32_of_Z b))))
      (f32_of_Z (a - b))
    && same_float
         (to_f32 (f64_sub (to_f64 (f32_of_Z a)) (to_f64 (f32_of_Z b))))
         (f32_of_Z (a - b))
    && Bool.eqb (eqb (to_f64 (f32_of_Z a)) (to_f64 (f32_of_Z b))) (a =? b)%Z
  else true.

(** The quotient is 0.0 at the darkest pixel and 1.0 at the brightest. *)
Definition ends_exact (k : Z) : bool :=
  if (0 <? k)%Z then
    same_float (f32_div (f32_of_Z 0) (f32_of_Z k)) zero
    && same_float (f32_div (f32_of_Z k) (f32_of_Z k)) (f32_of_Z 1)
  else true.

(** With the range of the handler, from 28 to 38 degrees, every level
    lands in the range. *)
Definition stretch_in_range (d k : Z) : bool :=
  if (d <=? k)%Z && (0 <? k)%Z then
    in_range (f32_of_Z 28) (f32_of_Z 38) (stretch (of_Z 28) (of_Z 38) 0 k d)
  else true.

(** ** An environment to run the model on examples

    Two image files, already of the requested size: a gradient for the left
    foot and a uniformly gray image for the right foot.  The generator
    returns its mean and its deviation in turn, the sine is replaced by
    the identity and the decoder knows a handful of messages. *)

Module Example.

Definition gray (n : nat) : Byte.byte :=
  match Byte.of_N (N.of_nat (n mod 256)) with
  | Some b => b
  | None => Byte.x00
  end.

Definition quoted (s : string) : string :=
  String (ascii_of_nat 34) (s ++ String (ascii_of_nat 34) EmptyString).

(** [{"key": "value"}] *)
Definition object1 (key value : string) : string :=
  "{" ++ quoted key ++ ": " ++ quoted value ++ "}".

(** [{"key1": "value1", "key2": "value2"}] *)
Definition object2 (key1 value1 key2 value2 : string) : string :=
  "{" ++ quoted key1 ++ ": " ++ quoted value1 ++ ", "
      ++ quoted key2 ++ ": " ++ quoted value2 ++ "}".

Definition msg_empty : message := Text "{}".
Definition msg_list : message := Text "[1]".
Definition msg_garbage : message := Text "hola".
Definition msg_right : message := Text (object1 "foot" "derecho").
Definition msg_high : message :=
  Text (object1 "simulation_mode" "alta_diferencia").
Definition msg_bad_mode : message :=
  Text (object2 "simulation_mode" "turbo" "foot" "derecho").
Definition msg_bad_foot : message :=
  Text (object2 "simulation_mode" "alta_diferencia" "foot" "ambos").

(** The string that JSON writes ["\ud800"]: one lone surrogate, here as
    the three bytes of its code point. *)
Definition lone_surrogate : string :=
  String (ascii_of_nat 237)
    (String (ascii_of_nat 160) (String (ascii_of_nat 128) EmptyString)).

(** [{"simulation_mode": "\ud800", "foot": "derecho"}] *)
Definition msg_surrogate : message :=
  Text (object2 "simulation_mode" "\ud800" "foot" "derecho").

(** The binary frame [b'\xff'], which is not UTF-8. *)
Definition msg_binary : message := Binary [Byte.xff].

Definition text_of (m : message) : string :=
  match m with
  | Text s => s
  | Binary _ => ""
  end.

Definition decoder (m : message) : outcome json :=
  match m with
  | Binary [Byte.xff] => Raise UnicodeDecodeError
  | Binary _ => Raise JSONDecodeError
  | Text s =>
      if s =? text_of msg_empty then Return (JDict [])
      else if s =? text_of msg_list then Return (JList [JInt 1])
      else if s =? text_of msg_right then
        Return (JDict [("foot", JStr "derecho")])
      else if s =? text_of msg_high then
        Return (JDict [("simulation_mode", JStr "alta_diferencia")])
      else if s =? text_of msg_bad_mode then
        Return (JDict [("simulation_mode", JStr "turbo");
                       ("foot", JStr "derecho")])
      else if s =? text_of msg_bad_foot then
        Return (JDict [("simulation_mode", JStr "alta_diferencia");
                       ("foot", JStr "ambos")])
      else if s =? text_of msg_surrogate then
        Return (JDict [("simulation_mode", JStr lone_surrogate);
                       ("foot", JStr "derecho")])
      else Raise JSONDecodeError
  end.

(** A standard output in UTF-8: it refuses the lone surrogate. *)
Definition printer (v : json) : bool :=
  match v with
  | JStr s => negb (s =? lone_surrogate)
  | _ => true
  end.

(** The image files: a gradient, a uniformly gray image and a file that
    is no image. *)
Definition files (path : string) : outcome (nat -> nat -> Byte.byte) :=
  if path =? "pie_izquierdo.png" then Return (fun i j => gray (i + j))
  else if path =? "pie_derecho.png" then Return (fun _ _ => gray 128)
  else if path =? "corrupt.png" then Raise UnidentifiedImageError
  else Raise FileNotFoundError.

(** The same directory with a file [pie_derecho.png] that is no image. *)
Definition damaged_files (path : string) : outcome (nat -> nat -> Byte.byte) :=
  if path =? "pie_derecho.png" then Raise UnidentifiedImageError
  else files path.

(** The draws are [loc] and [scale] in turn. *)
Definition env_with (store : string -> outcome (nat -> nat -> Byte.byte))
  : Env :=
  {| image := nat -> nat -> Byte.byte;
     Image_open := store;
     resize := fun img _ _ i j => img i j;
     np_sin := fun x => x;
     rng := nat;
     normal := fun loc scale n => (if Nat.even n then loc else scale, S n);
     nep50 := true;
     json_loads := decoder;
     printable := printer |}.

Definition env : Env := env_with files.

Definition damaged : Env := env_with damaged_files.

(** A sensor of two rows and three columns. *)
Definition small (path : string) : outcome SimulatedSensor :=
  __init__ (E := env) path 2 3 (of_Z 28) (of_Z 38) (decimal 15 100).

(** The object before [__init__] has filled it. *)
Definition blank : SimulatedSensor :=
  {| rows := 0; cols := 0; temp_min := zero; temp_max := zero;
     noise_std := zero; t := zero; image_path := "";
     simulation_mode := ""; foot := ""; base := []; load_log := [] |}.

Definition built (o : outcome SimulatedSensor) : SimulatedSensor :=
  match o with
  | Return self => self
  | Raise _ => blank
  end.

(** [SimulatedSensor("pie_izquierdo.png", 2, 3)] *)
Definition left_sensor : SimulatedSensor := built (small "pie_izquierdo.png").

(** [SimulatedSensor("pie_derecho.png", 2, 3)]: the image of the right
    foot in place, the foot still at its default. *)
Definition right_image_sensor : SimulatedSensor :=
  built (small "pie_derecho.png").

(** The session that [connect] starts, with the generator at 0. *)
Definition session0 : session (E := env) :=
  match connect (E := env) 0 with
  | Return st => st
  | Raise _ =>
      @Build_session env blank "" "" false O [] SenderDone ReceiverDone Closed
  end.

End Example.

(** * Properties *)

(** ** Arrays *)

Section MatrixFacts.

Lemma has_shape_spec (r c : nat) (m : matrix) :
  has_shape r c m = true <->
  length m = r /\ (forall row, In row m -> length row = c).
Proof.
  unfold has_shape. rewrite andb_true_iff, Nat.eqb_eq, forallb_forall.
  split; intros [Hr Hc]; split; trivial; intros row Hin.
  - apply Nat.eqb_eq, Hc, Hin.
  - apply Nat.eqb_eq, Hc, Hin.
Qed.

Lemma has_shape_row (r c : nat) (m : matrix) (i : nat) (row : list float) :
  has_shape r c m = true -> nth_error m i = Some row -> length row = c.
Proof.
  intros Hs Hi. apply has_shape_spec in Hs as [_ Hc].
  apply Hc. eapply nth_error_In, Hi.
Qed.

Lemma pixel_defined (r c : nat) (m : matrix) (i j : nat) :
  has_shape r c m = true -> i < r -> j < c -> exists v, pixel m i j = Some v.
Proof.
  intros Hs Hi Hj. unfold pixel.
  destruct (nth_error m i) as [row|] eqn:Hrow.
  - pose proof (has_shape_row _ _ _ _ _ Hs Hrow) as Hlen.
    destruct (nth_error row j) as [v|] eqn:Hv; [now exists v|].
    apply nth_error_None in Hv. lia.
  - apply nth_error_None in Hrow.
    apply has_shape_spec in Hs as [Hr _]. lia.
Qed.

Lemma shape_of_has_shape (r c : nat) (m : matrix) :
  has_shape r c m = true -> 0 < r -> shape m = (r, c).
Proof.
  intros Hs Hr. pose proof Hs as Hs'. apply has_shape_spec in Hs' as [Hlen _].
  unfold shape. rewrite Hlen. f_equal.
  destruct m as [|row m]; simpl in *; [lia|].
  eapply has_shape_row with (i := 0); [exact Hs|reflexivity].
Qed.

Lemma length_ravel (r c : nat) (m : matrix) :
  has_shape r c m = true -> length (ravel m) = r * c.
Proof.
  revert r. induction m as [|row m IH]; intros r Hs.
  - apply has_shape_spec in Hs as [Hr _]. simpl in Hr. subst r. reflexivity.
  - apply has_shape_spec in Hs as [Hr Hc]. simpl in Hr. subst r.
    unfold ravel in *. simpl. rewrite length_app.
    rewrite (Hc row) by (left; reflexivity).
    rewrite (IH (length m)); [lia|].
    apply has_shape_spec. split; [reflexivity|].
    intros row' Hin. apply Hc. now right.
Qed.

Lemma has_shape_np_full (r c : nat) (v : float) :
  has_shape r c (np_full r c v) = true.
Proof.
  apply has_shape_spec. unfold np_full. split.
  - apply repeat_length.
  - intros row Hin. apply repeat_spec in Hin. subst row. apply repeat_length.
Qed.

Lemma pixel_np_full (r c : nat) (v : float) (i j : nat) :
  i < r -> j < c -> pixel (np_full r c v) i j = Some v.
Proof.
  intros Hi Hj. unfold pixel, np_full.
  rewrite nth_error_repeat by exact Hi. now apply nth_error_repeat.
Qed.

Lemma has_shape_map_matrix (f : float -> float) (r c : nat) (m : matrix) :
  has_shape r c (map_matrix f m) = has_shape r c m.
Proof.
  unfold has_shape, map_matrix. rewrite length_map. f_equal.
  induction m as [|row m IH]; simpl; [reflexivity|].
  now rewrite length_map, IH.
Qed.

Lemma pixel_map_matrix (f : float -> float) (m : matrix) (i j : nat) :
  pixel (map_matrix f m) i j = option_map f (pixel m i j).
Proof.
  unfold pixel, map_matrix. rewrite nth_error_map.
  destruct (nth_error m i) as [row|]; simpl; [|reflexivity].
  apply nth_error_map.
Qed.

Lemma length_zip_with {A B C} (f : A -> B -> C) (a : list A) (b : list B) :
  length (zip_with f a b) = Nat.min (length a) (length b).
Proof. unfold zip_with. now rewrite length_map, length_combine. Qed.

Lemma nth_error_zip_with {A B C} (f : A -> B -> C) (a : list A) (b : list B)
    (n : nat) :
  nth_error (zip_with f a b) n =
  match nth_error a n, nth_error b n with
  | Some x, Some y => Some (f x y)
  | _, _ => None
  end.
Proof.
  revert b n. induction a as [|x a IH]; intros b n.
  - destruct n; reflexivity.
  - destruct b as [|y b].
    + destruct n; simpl; [reflexivity|]. now destruct (nth_error a n).
    + destruct n; simpl; [reflexivity|]. apply IH.
Qed.

Lemma pixel_map2_matrix (f : float -> float -> float) (a b : matrix) (i j : nat) :
  pixel (map2_matrix f a b) i j =
  match pixel a i j, pixel b i j with
  | Some x, Some y => Some (f x y)
  | _, _ => None
  end.
Proof.
  unfold pixel, map2_matrix. rewrite nth_error_zip_with.
  destruct (nth_error a i) as [ra|], (nth_error b i) as [rb|]; trivial.
  - apply nth_error_zip_with.
  - now destruct (nth_error ra j).
Qed.

Lemma has_shape_map2_matrix (f : float -> float -> float) (r c : nat)
    (a b : matrix) :
  has_shape r c a = true -> has_shape r c b = true ->
  has_shape r c (map2_matrix f a b) = true.
Proof.
  intros Ha Hb. apply has_shape_spec. split.
  - unfold map2_matrix. rewrite length_zip_with.
    apply has_shape_spec in Ha as [Ha _]. apply has_shape_spec in Hb as [Hb _].
    lia.
  - intros row Hin. apply In_nth_error in Hin as [i Hi].
    unfold map2_matrix in Hi. rewrite nth_error_zip_with in Hi.
    destruct (nth_error a i) as [ra|] eqn:Hra; [|discriminate].
    destruct (nth_error b i) as [rb|] eqn:Hrb; [|discriminate].
    injection Hi as <-. rewrite length_zip_with.
    rewrite (has_shape_row _ _ _ _ _ Ha Hra), (has_shape_row _ _ _ _ _ Hb Hrb).
    lia.
Qed.

Lemma has_shape_asarray (px : nat -> nat -> Byte.byte) (r c : nat) :
  has_shape r c (asarray px r c) = true.
Proof.
  apply has_shape_spec. unfold asarray. split.
  - now rewrite length_map, length_seq.
  - intros row Hin. apply in_map_iff in Hin as [i [<- _]].
    now rewrite length_map, length_seq.
Qed.

End MatrixFacts.

(** ** The sensor *)

Section SensorFacts.
Context {E : Env}.

Lemma fill_np_full (r c : nat) (z v : float) :
  fill (np_full r c z) v = np_full r c (to_f32 v).
Proof.
  unfold fill, np_full. now rewrite !map_repeat.
Qed.

Lemma offset_uniform (self : SimulatedSensor) :
  _calculate_temperature_offset self =
  np_full (fst (shape (base self))) (snd (shape (base self))) (offset_value self).
Proof.
  unfold _calculate_temperature_offset, offset_value, np_zeros.
  destruct (shape (base self)) as [r c]. simpl.
  destruct (simulation_mode self =? "baja_diferencia").
  - apply fill_np_full.
  - destruct (foot self =? "izquierdo"); [apply fill_np_full|reflexivity].
Qed.

Lemma offset_value_spec (self : SimulatedSensor) (m : Mode) (f : Foot) :
  simulation_mode self = mode_name m -> foot self = foot_name f ->
  offset_value self = spec_offset m f.
Proof.
  unfold offset_value. intros -> ->. destruct m, f; vm_compute; reflexivity.
Qed.

(** The entries of the rule table, written out: the single-precision
    numbers nearest to -0.3, 0.3 and -1.5, and zero. *)
Lemma spec_offset_values :
  spec_offset LowDiff Left = S754_finite true 10066330 (-25)
  /\ spec_offset LowDiff Right = S754_finite false 10066330 (-25)
  /\ spec_offset HighDiff Left = S754_finite true 12582912 (-23)
  /\ spec_offset HighDiff Right = S754_zero false.
Proof. repeat split; vm_compute; reflexivity. Qed.

Lemma offset_shape (self : SimulatedSensor) :
  has_shape (rows self) (cols self) (base self) = true ->
  has_shape (rows self) (cols self) (_calculate_temperature_offset self) = true.
Proof.
  intros Hs. rewrite offset_uniform.
  destruct (rows self) as [|r] eqn:Hr.
  - apply has_shape_spec in Hs as [Hlen _].
    destruct (base self); [reflexivity|discriminate].
  - rewrite (shape_of_has_shape (S r) (cols self)) by (trivial; lia).
    apply has_shape_np_full.
Qed.

Lemma offset_pixel (self : SimulatedSensor) (i j : nat) :
  has_shape (rows self) (cols self) (base self) = true ->
  i < rows self -> j < cols self ->
  pixel (_calculate_temperature_offset self) i j = Some (offset_value self).
Proof.
  intros Hs Hi Hj. rewrite offset_uniform.
  rewrite (shape_of_has_shape (rows self) (cols self)) by (trivial; lia).
  now apply pixel_np_full.
Qed.

(** C1.  Whatever the configuration, the offset map has the shape of the
    sensor and holds in every cell the entry of the rule table: -0.3 for
    the low difference and the left foot, +0.3 for the low difference and
    the right foot, -1.5 for the high difference and the left foot, 0.0
    for the high difference and the right foot. *)
Theorem offset_map_exact (self : SimulatedSensor) (m : Mode) (f : Foot)
    (i j : nat) :
  simulation_mode self = mode_name m ->
  foot self = foot_name f ->
  has_shape (rows self) (cols self) (base self) = true ->
  i < rows self -> j < cols self ->
  has_shape (rows self) (cols self) (_calculate_temperature_offset self) = true
  /\ pixel (_calculate_temperature_offset self) i j = Some (spec_offset m f).
Proof.
  intros Hm Hf Hs Hi Hj. split.
  - now apply offset_shape.
  - rewrite offset_pixel by assumption. f_equal. now apply offset_value_spec.
Qed.

Lemma length_draw_list (loc scale : float) (n : nat) (g : rng) :
  length (fst (draw_list loc scale n g)) = n.
Proof.
  revert g. induction n as [|n IH]; intros g; simpl; [reflexivity|].
  destruct (normal loc scale g) as [x g1].
  specialize (IH g1). destruct (draw_list loc scale n g1) as [xs g2].
  simpl in *. now rewrite IH.
Qed.

Lemma has_shape_draw_matrix (loc scale : float) (r c : nat) (g : rng) :
  has_shape r c (fst (draw_matrix loc scale r c g)) = true.
Proof.
  revert g. induction r as [|r IH]; intros g; simpl; [reflexivity|].
  pose proof (length_draw_list loc scale c g) as Hrow.
  destruct (draw_list loc scale c g) as [row g1].
  specialize (IH g1). destruct (draw_matrix loc scale r c g1) as [m g2].
  simpl in *. unfold has_shape in *. simpl.
  apply andb_true_iff in IH as [Hl Hc].
  rewrite Hrow, Nat.eqb_refl, Hc.
  apply Nat.eqb_eq in Hl. rewrite Hl, Nat.eqb_refl. reflexivity.
Qed.

Lemma draw_matrix_shape (loc scale : float) (r c : nat) (m : matrix) (g : rng) :
  has_shape r c m = true ->
  draw_matrix loc scale (fst (shape m)) (snd (shape m)) g =
  draw_matrix loc scale r c g.
Proof.
  intros Hs. destruct r as [|r].
  - apply has_shape_spec in Hs as [Hlen _].
    destruct m; [reflexivity|discriminate].
  - now rewrite (shape_of_has_shape (S r) c) by (trivial; lia).
Qed.

(** What [get_frame] returns for a well-formed sensor. *)
Lemma get_frame_returns (self : SimulatedSensor) (g : rng) :
  well_formed self = true ->
  let self' := set_t self (f64_add (t self) (decimal 5 100)) in
  let drift := f64_mul (decimal 3 10) (np_sin (t self')) in
  let drawn := draw_matrix zero (noise_std self) (rows self) (cols self) g in
  get_frame self g =
  (Return
     (map2_matrix add_array
        (map2_matrix add_array
           (map_matrix (fun x => add_scalar x drift) (base self))
           (map_matrix to_f32 (fst drawn)))
        (_calculate_temperature_offset self)),
   self', snd drawn).
Proof.
  intros Hwf. apply andb_true_iff in Hwf as [Hs Hn].
  unfold get_frame, np_random_normal. simpl.
  unfold scale_ok in Hn. apply negb_true_iff in Hn. rewrite Hn.
  rewrite (draw_matrix_shape _ _ _ _ _ _ Hs).
  destruct (draw_matrix zero (noise_std self) (rows self) (cols self) g)
    as [sample g']. reflexivity.
Qed.

Lemma after_draws_add (loc scale : float) (k c : nat) (g : rng) :
  after_draws loc scale k (after_draws loc scale c g)
  = after_draws loc scale (k + c) g.
Proof. unfold after_draws. now rewrite Nat.iter_add. Qed.

(** The draws of a row, and the generator after them. *)
Lemma draw_list_spec (loc scale : float) (n : nat) (g : rng) :
  snd (draw_list loc scale n g) = after_draws loc scale n g
  /\ forall j, j < n ->
     nth_error (fst (draw_list loc scale n g)) j = Some (nth_draw loc scale j g).
Proof.
  revert g. induction n as [|n IH]; intros g; [split; [reflexivity|lia]|].
  cbn [draw_list].
  destruct (normal loc scale g) as [x g1] eqn:Hx.
  destruct (IH g1) as [Hg Hnth].
  destruct (draw_list loc scale n g1) as [xs g2]. cbn [fst snd] in *.
  assert (Hg1 : g1 = after_draws loc scale 1 g)
    by (unfold after_draws; simpl; now rewrite Hx).
  split.
  - rewrite Hg, Hg1, after_draws_add. f_equal. lia.
  - intros [|j] Hj.
    + cbn [nth_error]. unfold nth_draw, after_draws. simpl.
      now rewrite Hx.
    + cbn [nth_error]. rewrite Hnth by lia.
      unfold nth_draw. rewrite Hg1, after_draws_add. repeat f_equal; lia.
Qed.

(** The draws of an array are made row after row. *)
Lemma draw_matrix_spec (loc scale : float) (r c : nat) (g : rng) :
  snd (draw_matrix loc scale r c g) = after_draws loc scale (r * c) g
  /\ forall i j, i < r -> j < c ->
     pixel (fst (draw_matrix loc scale r c g)) i j
     = Some (nth_draw loc scale (i * c + j) g).
Proof.
  revert g. induction r as [|r IH]; intros g; [split; [reflexivity|lia]|].
  cbn [draw_matrix].
  destruct (draw_list_spec loc scale c g) as [Hg1 Hrow].
  destruct (draw_list loc scale c g) as [row g1]. cbn [fst snd] in *.
  destruct (IH g1) as [Hg2 Hpix].
  destruct (draw_matrix loc scale r c g1) as [m g2]. cbn [fst snd] in *.
  split.
  - rewrite Hg2, Hg1, after_draws_add. f_equal. lia.
  - intros [|i] j Hi Hj.
    + unfold pixel. cbn [nth_error]. now apply Hrow.
    + unfold pixel in *. cbn [nth_error]. rewrite (Hpix i j) by lia.
      unfold nth_draw. rewrite Hg1, after_draws_add.
      now replace (i * c + j + c) with (S i * c + j) by lia.
Qed.

(** One cell of the sum, written with the additions of IEEE 754. *)
Lemma add_cells (b drift n off : float) :
  add_array (add_array (add_scalar b drift) (to_f32 n)) off
  = spec_pixel b drift n off.
Proof.
  unfold add_array, add_scalar, spec_pixel, f64_add, f32_add.
  now destruct nep50.
Qed.

(** With a negative noise level the generator refuses the draw: the call
    raises after it has advanced the phase. *)
Lemma get_frame_raises (self : SimulatedSensor) (g : rng) :
  scale_ok (noise_std self) = false ->
  get_frame self g
  = (Raise ValueError, set_t self (f64_add (t self) (decimal 5 100)), g).
Proof.
  intros Hn. unfold get_frame, np_random_normal. cbn [noise_std set_t base].
  unfold scale_ok in Hn. apply negb_false_iff in Hn. now rewrite Hn.
Qed.

(** C2, as the code has it.  A call of [get_frame] adds 0.05 to the phase
    [t] and changes nothing else in the sensor, whatever its outcome.
    When the noise level is not negative it returns a matrix of [rows]
    by [cols] values, the value of the cell in row [i] and column [j] being
    [base + 0.3*sin(t) + noise + offset] for the new [t], added from left
    to right, where the noise is the draw number [i * cols + j] of the
    generator, with mean 0 and the noise level as deviation, and the
    offset is the one of the rule table; the generator has then made
    [rows * cols] draws.  When the noise level is negative the call
    raises [ValueError] and the generator is not used. *)
Theorem get_frame_spec (self : SimulatedSensor) (g : rng) :
  has_shape (rows self) (cols self) (base self) = true ->
  let t' := f64_add (t self) (decimal 5 100) in
  let drift := f64_mul (decimal 3 10) (np_sin t') in
  let std := noise_std self in
  snd (fst (get_frame self g)) = set_t self t'
  /\ (forall m f, simulation_mode self = mode_name m ->
      foot self = foot_name f -> offset_value self = spec_offset m f)
  /\ (scale_ok std = true ->
      exists frame,
        get_frame self g
        = (Return frame, set_t self t',
           after_draws zero std (rows self * cols self) g)
        /\ has_shape (rows self) (cols self) frame = true
        /\ length (ravel frame) = rows self * cols self
        /\ (forall i j, i < rows self -> j < cols self ->
            exists b,
              pixel (base self) i j = Some b
              /\ pixel frame i j
                 = Some (spec_pixel b drift
                           (nth_draw zero std (i * cols self + j) g)
                           (offset_value self))))
  /\ (scale_ok std = false ->
      get_frame self g = (Raise ValueError, set_t self t', g)).
Proof.
  intros Hs t' drift std.
  assert (Hok : scale_ok std = true ->
            get_frame self g
            = (Return
                 (map2_matrix add_array
                    (map2_matrix add_array
                       (map_matrix (fun x => add_scalar x drift) (base self))
                       (map_matrix to_f32
                          (fst (draw_matrix zero std (rows self) (cols self) g))))
                    (_calculate_temperature_offset self)),
               set_t self t',
               snd (draw_matrix zero std (rows self) (cols self) g))).
  { intros Hn. apply (get_frame_returns self g). unfold well_formed.
    now rewrite Hs. }
  destruct (draw_matrix_spec zero std (rows self) (cols self) g) as [Hg Hdraw].
  split; [|split; [|split]].
  - destruct (scale_ok std) eqn:Hn.
    + now rewrite (Hok eq_refl).
    + now rewrite (get_frame_raises self g Hn).
  - intros m f. apply offset_value_spec.
  - intros Hn. specialize (Hok Hn). rewrite Hg in Hok.
    eexists. split; [exact Hok|].
    assert (Hshape : has_shape (rows self) (cols self)
              (map2_matrix add_array
                 (map2_matrix add_array
                    (map_matrix (fun x => add_scalar x drift) (base self))
                    (map_matrix to_f32
                       (fst (draw_matrix zero std (rows self) (cols self) g))))
                 (_calculate_temperature_offset self)) = true).
    { apply has_shape_map2_matrix; [apply has_shape_map2_matrix|].
      - now rewrite has_shape_map_matrix.
      - rewrite has_shape_map_matrix. apply has_shape_draw_matrix.
      - now apply offset_shape. }
    split; [exact Hshape|]. split; [now apply length_ravel|].
    intros i j Hi Hj.
    destruct (pixel_defined _ _ _ i j Hs Hi Hj) as [b Hb].
    exists b. split; [exact Hb|].
    rewrite !pixel_map2_matrix, !pixel_map_matrix.
    rewrite Hb, (Hdraw i j Hi Hj). cbn [option_map].
    rewrite offset_pixel by assumption. now rewrite add_cells.
  - intros Hn. now apply get_frame_raises.
Qed.

(** *** Loading the base image *)

Lemma eqb_refl_finite (x : float) : is_finite x = true -> eqb x x = true.
Proof.
  destruct x as [s|s| |s m e]; simpl; try discriminate; intros _.
  - reflexivity.
  - unfold eqb, SFeqb, SFcompare.
    destruct s; rewrite Z.compare_refl, Pos.compare_cont_refl; reflexivity.
Qed.

(** Adding a zero to a finite single leaves it as it is, up to the sign
    of a zero. *)
Lemma f32_add_zero (x : float) (s : bool) :
  is_finite x = true ->
  forall y, SFcompare (f32_add x (S754_zero s)) y = SFcompare x y.
Proof.
  destruct x as [sx|sx| |sx m e]; simpl; try discriminate; intros _ y.
  - destruct sx, s; now destruct y.
  - reflexivity.
Qed.

Lemma f32_mul_zero (x : float) :
  is_finite x = true -> exists s, f32_mul x zero = S754_zero s.
Proof.
  destruct x as [sx|sx| |sx m e]; simpl; try discriminate; intros _;
    eexists; reflexivity.
Qed.

Lemma np_minimum_same (v : float) : np_minimum v v = v.
Proof. unfold np_minimum. destruct (is_nan v), (ltb v v); reflexivity. Qed.

Lemma np_maximum_same (v : float) : np_maximum v v = v.
Proof. unfold np_maximum. destruct (is_nan v), (ltb v v); reflexivity. Qed.

Lemma fold_left_same (f : float -> float -> float) (v : float) (n : nat) :
  f v v = v -> fold_left f (repeat v n) v = v.
Proof.
  intros Hf. induction n as [|n IH]; simpl; [reflexivity|]. now rewrite Hf.
Qed.

Lemma ravel_np_full (r c : nat) (v : float) :
  ravel (np_full r c v) = repeat v (r * c).
Proof.
  unfold ravel, np_full. induction r as [|r IH]; simpl; [reflexivity|].
  now rewrite IH, repeat_app.
Qed.

Lemma np_min_np_full (r c : nat) (v : float) :
  0 < r -> 0 < c -> np_min (np_full r c v) = Return v.
Proof.
  intros Hr Hc. unfold np_min. rewrite ravel_np_full.
  destruct (r * c) as [|n] eqn:Hn; [nia|]. simpl.
  f_equal. apply fold_left_same, np_minimum_same.
Qed.

Lemma np_max_np_full (r c : nat) (v : float) :
  0 < r -> 0 < c -> np_max (np_full r c v) = Return v.
Proof.
  intros Hr Hc. unfold np_max. rewrite ravel_np_full.
  destruct (r * c) as [|n] eqn:Hn; [nia|]. simpl.
  f_equal. apply fold_left_same, np_maximum_same.
Qed.

Lemma map_constant {A B} (f : A -> B) (v : B) (l : list A) :
  (forall x, In x l -> f x = v) -> map f l = repeat v (length l).
Proof.
  induction l as [|x l IH]; intros H; simpl; [reflexivity|].
  rewrite (H x) by now left. f_equal. apply IH. intros y Hy. apply H. now right.
Qed.

Lemma asarray_constant (px : nat -> nat -> Byte.byte) (r c : nat) (b : Byte.byte) :
  (forall i j, i < r -> j < c -> px i j = b) ->
  asarray px r c = np_full r c (f32_of_Z (Z.of_N (Byte.to_N b))).
Proof.
  intros Hpx. unfold asarray, np_full.
  rewrite <- (length_seq r 0) at 2. apply map_constant.
  intros i Hi. apply in_seq in Hi.
  rewrite <- (length_seq c 0) at 2. apply map_constant.
  intros j Hj. apply in_seq in Hj. rewrite Hpx by lia. reflexivity.
Qed.

Lemma gray_level_finite (b : Byte.byte) :
  is_finite (to_f64 (f32_of_Z (Z.of_N (Byte.to_N b)))) = true.
Proof. destruct b; reflexivity. Qed.

Lemma ravel_asarray_nonempty (px : nat -> nat -> Byte.byte) (r c : nat) :
  0 < r -> 0 < c -> ravel (asarray px r c) <> [].
Proof.
  intros Hr Hc Hnil. apply (f_equal (@length float)) in Hnil.
  rewrite (length_ravel r c) in Hnil by apply has_shape_asarray.
  simpl in Hnil. nia.
Qed.

(** [min()] and [max()] raise nothing but [ValueError]. *)
Lemma np_min_raises (m : matrix) (e : exn) : np_min m = Raise e -> e = ValueError.
Proof. unfold np_min. destruct (ravel m); congruence. Qed.

Lemma np_max_raises (m : matrix) (e : exn) : np_max m = Raise e -> e = ValueError.
Proof. unfold np_max. destruct (ravel m); congruence. Qed.

(** With at least one pixel and a file that is absent or decodes, the
    load returns; the base matrix then has the shape of the sensor and
    nothing else changes but the log. *)
Lemma _load_image_returns (path : string) (self : SimulatedSensor) :
  0 < rows self -> 0 < cols self -> loadable path = true ->
  exists m,
    _load_image path self = (Return tt, set_base (log_load self path) m)
    /\ has_shape (rows self) (cols self) m = true.
Proof.
  intros Hr Hc Hl. unfold _load_image. unfold loadable in Hl.
  destruct (Image_open path) as [img|e].
  - simpl.
    pose proof (ravel_asarray_nonempty (resize img (cols self) (rows self))
                  _ _ Hr Hc) as Hne.
    unfold np_min, np_max.
    destruct (ravel (asarray (resize img (cols self) (rows self))
                       (rows self) (cols self))) as [|x xs]; [congruence|].
    eexists. split; [reflexivity|].
    rewrite has_shape_map_matrix.
    destruct (eqb _ _).
    + unfold np_zeros_like. change (map (map ?f) ?m) with (map_matrix f m).
      rewrite has_shape_map_matrix. apply has_shape_asarray.
    + rewrite has_shape_map_matrix. apply has_shape_asarray.
  - rewrite Hl. eexists. split; [reflexivity|]. apply has_shape_np_full.
Qed.

(** A file that is there and does not decode makes the load raise what
    the decoding raised, before the base matrix is touched. *)
Lemma _load_image_fails (path : string) (self : SimulatedSensor) :
  loadable path = false ->
  exists e,
    Image_open path = Raise e /\ is_FileNotFoundError e = false
    /\ _load_image path self = (Raise e, log_load self path).
Proof.
  unfold loadable, _load_image. destruct (Image_open path) as [img|e];
    [discriminate|].
  intros He. exists e. now rewrite He.
Qed.

(** When the file is absent the load returns the flat plate at the
    midpoint, whatever the shape. *)
Lemma _load_image_absent (path : string) (self : SimulatedSensor) :
  Image_open path = Raise FileNotFoundError ->
  _load_image path self =
  (Return tt,
   set_base (log_load self path)
     (np_full (rows self) (cols self)
        (to_f32 (f64_div (f64_add (temp_min self) (temp_max self)) (of_Z 2))))).
Proof. intros H. unfold _load_image. now rewrite H. Qed.

(** Whatever the outcome, a load touches only [base] and the log, and the
    base matrix keeps the shape of the sensor. *)
Lemma _load_image_frame (path : string) (self self' : SimulatedSensor)
    (r : outcome unit) :
  _load_image path self = (r, self') ->
  exists m,
    self' = set_base (log_load self path) m
    /\ (r = Return tt \/ has_shape (rows self) (cols self) (base self) = true ->
        has_shape (rows self) (cols self) m = true).
Proof.
  unfold _load_image. intros H.
  assert (Hsame : exists m,
            log_load self path = set_base (log_load self path) m
            /\ (Raise ValueError = Return tt
                \/ has_shape (rows self) (cols self) (base self) = true ->
                has_shape (rows self) (cols self) m = true)).
  { exists (base self). split; [now destruct self|]. now intros [?|?]. }
  destruct (Image_open path) as [img|e].
  - destruct (np_min _) as [amin|e] eqn:Hmin.
    + destruct (np_max _) as [amax|e] eqn:Hmax.
      * injection H as _ <-. eexists. split; [reflexivity|]. intros _.
        rewrite has_shape_map_matrix. destruct (eqb _ _).
        -- unfold np_zeros_like. change (map (map ?f) ?m) with (map_matrix f m).
           rewrite has_shape_map_matrix. apply has_shape_asarray.
        -- rewrite has_shape_map_matrix. apply has_shape_asarray.
      * apply np_max_raises in Hmax. subst e. cbn in H.
        injection H as <- <-. exact Hsame.
    + apply np_min_raises in Hmin. subst e. cbn in H.
      injection H as <- <-. exact Hsame.
  - destruct (is_FileNotFoundError e).
    + injection H as _ <-. eexists. split; [reflexivity|]. intros _.
      apply has_shape_np_full.
    + injection H as <- <-. exists (base self). split; [now destruct self|].
      now intros [?|?].
Qed.

(** C10.  When the image file exists and all its pixels have the same
    gray level, the loaded base matrix holds one value [w] in every cell,
    and [w] is the minimum temperature (in single precision; a zero may
    differ from it by its sign only): it compares with any number as
    [temp_min] does, so it is the midpoint only where [temp_min] is.  The
    flat plate at the midpoint is what a load yields when the file is
    absent. *)
Theorem constant_image_loads_temp_min (self : SimulatedSensor)
    (path : string) (img : image) (b : Byte.byte) :
  Image_open path = Return img ->
  (forall i j, i < rows self -> j < cols self ->
     resize img (cols self) (rows self) i j = b) ->
  0 < rows self -> 0 < cols self ->
  is_finite (to_f32 (temp_min self)) = true ->
  is_finite (to_f32 (f64_sub (temp_max self) (temp_min self))) = true ->
  let midpoint :=
    to_f32 (f64_div (f64_add (temp_min self) (temp_max self)) (of_Z 2)) in
  exists self' w,
    _load_image path self = (Return tt, self')
    /\ (forall i j, i < rows self -> j < cols self ->
        pixel (base self') i j = Some w)
    /\ eqb w (to_f32 (temp_min self)) = true
    /\ eqb w midpoint = eqb (to_f32 (temp_min self)) midpoint
    /\ (forall path', Image_open path' = Raise FileNotFoundError ->
        _load_image path' self =
          (Return tt,
           set_base (log_load self path')
             (np_full (rows self) (cols self) midpoint))).
Proof.
  intros Hopen Hpx Hr Hc Hmin Hspan midpoint.
  destruct (f32_mul_zero _ Hspan) as [s Hs].
  exists (set_base (log_load self path)
            (np_full (rows self) (cols self)
               (f32_add (to_f32 (temp_min self)) (S754_zero s)))).
  exists (f32_add (to_f32 (temp_min self)) (S754_zero s)).
  split; [|split; [|split; [|split]]].
  - unfold _load_image. rewrite Hopen. simpl.
    rewrite (asarray_constant _ _ _ b Hpx).
    rewrite np_min_np_full, np_max_np_full by assumption.
    rewrite eqb_refl_finite by apply gray_level_finite.
    unfold np_zeros_like, np_full, map_matrix.
    rewrite !map_repeat. fold zero. rewrite Hs. reflexivity.
  - intros i j Hi Hj. simpl. now apply pixel_np_full.
  - unfold eqb, SFeqb. rewrite f32_add_zero by assumption.
    apply eqb_refl_finite, Hmin.
  - unfold eqb, SFeqb. now rewrite f32_add_zero by assumption.
  - intros path' Habs. now apply _load_image_absent.
Qed.

(** *** Configuration *)

Lemma valid_foot_cases (X : string) :
  str_in X VALID_FEET = true -> X = "izquierdo" \/ X = "derecho".
Proof.
  unfold str_in, VALID_FEET. simpl. rewrite !orb_true_iff.
  intros [H|[H|H]]; try discriminate; apply String.eqb_eq in H; auto.
Qed.

Lemma valid_mode_cases (X : string) :
  str_in X VALID_SIMULATION_MODES = true ->
  X = "baja_diferencia" \/ X = "alta_diferencia".
Proof.
  unfold str_in, VALID_SIMULATION_MODES. simpl. rewrite !orb_true_iff.
  intros [H|[H|H]]; try discriminate; apply String.eqb_eq in H; auto.
Qed.

Lemma mode_part_frame (m : option string) (self : SimulatedSensor) :
  let self' := snd (mode_part m self) in
  rows self' = rows self /\ cols self' = cols self
  /\ temp_min self' = temp_min self /\ temp_max self' = temp_max self
  /\ noise_std self' = noise_std self /\ t self' = t self
  /\ image_path self' = image_path self /\ foot self' = foot self
  /\ base self' = base self /\ load_log self' = load_log self.
Proof.
  unfold mode_part. destruct m as [m|]; [|now repeat split].
  destruct (truthy (Some m) && _); [|now repeat split].
  destruct (negb _); now repeat split.
Qed.

Lemma mode_part_invalid (bad : string) (self : SimulatedSensor) :
  str_in bad VALID_SIMULATION_MODES = false ->
  mode_part (Some bad) self = (false, self).
Proof.
  intros H. unfold mode_part. fold VALID_SIMULATION_MODES.
  now rewrite H, andb_false_r.
Qed.

Lemma mode_part_valid (m : string) (self : SimulatedSensor) :
  str_in m VALID_SIMULATION_MODES = true ->
  simulation_mode (snd (mode_part (Some m) self)) = m
  /\ fst (mode_part (Some m) self) = negb (simulation_mode self =? m).
Proof.
  intros H. unfold mode_part. fold VALID_SIMULATION_MODES. rewrite H.
  assert (Ht : truthy (Some m) = true)
    by (destruct (valid_mode_cases m H) as [-> | ->]; reflexivity).
  rewrite Ht. cbn [andb].
  destruct (simulation_mode self =? m) eqn:Hm; cbn [negb fst snd].
  - now apply String.eqb_eq in Hm.
  - now split.
Qed.

(** [set_config] without a mode, read off its second [if]. *)
Lemma set_config_foot_none (self : SimulatedSensor) :
  set_config None None self = (Return false, self).
Proof. reflexivity. Qed.

Lemma set_config_foot_invalid (bad : string) (self : SimulatedSensor) :
  str_in bad VALID_FEET = false ->
  set_config None (Some bad) self = (Return false, self).
Proof.
  intros H. unfold set_config. fold VALID_FEET.
  now rewrite H, andb_false_r.
Qed.

Lemma set_config_foot_same (self : SimulatedSensor) :
  set_config None (Some (foot self)) self = (Return false, self).
Proof.
  unfold set_config. rewrite String.eqb_refl.
  now destruct (truthy _ && _).
Qed.

(** The return value of [set_config] combines the two parts. *)
Lemma set_config_parts (m f : option string) (self : SimulatedSensor) :
  set_config m f self =
  let (r, self') := set_config None f (snd (mode_part m self)) in
  (match r with
   | Return c => Return (fst (mode_part m self) || c)
   | Raise e => Raise e
   end, self').
Proof.
  assert (Hgen : forall c s0,
    (let '(changed, self0) := (c, s0) in
     match f with
     | Some f0 =>
         if truthy f && str_in f0 ["izquierdo"; "derecho"]
         then
           if negb (foot self0 =? f0)
           then
             let self1 := set_foot self0 f0 in
             let changed0 := true in
             let path := image_map f0 in
             if negb (path =? image_path self1)
             then
               let self2 := set_image_path self1 path in
               match _load_image path self2 with
               | (Return _, self3) => (Return changed0, self3)
               | (Raise e, self3) => (Raise e, self3)
               end
             else (Return changed0, self1)
           else (Return changed, self0)
         else (Return changed, self0)
     | None => (Return changed, self0)
     end) =
    (let (r, self') := set_config None f s0 in
     (match r with
      | Return c2 => Return (c || c2)
      | Raise e => Raise e
      end, self'))).
  { intros c s0. unfold set_config. cbn iota beta.
    destruct f as [f0|]; [|now rewrite orb_false_r].
    destruct (truthy (Some f0) && _); [|now rewrite orb_false_r].
    destruct (negb (foot s0 =? f0)); [|now rewrite orb_false_r].
    cbn zeta. destruct (negb (image_map f0 =? _)); [|now rewrite orb_true_r].
    destruct (_load_image _ _) as [[[]|e] s3]; [now rewrite orb_true_r|reflexivity]. }
  unfold set_config at 1, mode_part.
  destruct m as [m0|]; [|apply (Hgen false self)].
  destruct (truthy (Some m0) && _); [|apply (Hgen false self)].
  destruct (negb (simulation_mode self =? m0)).
  - apply (Hgen true (set_simulation_mode self m0)).
  - apply (Hgen false self).
Qed.

Lemma truthy_valid_foot (X : string) :
  str_in X VALID_FEET = true -> truthy (Some X) = true.
Proof. intros H. destruct (valid_foot_cases X H) as [-> | ->]; reflexivity. Qed.

(** [set_config] with a new foot, read off its second [if]. *)
Lemma set_config_foot_new (X : string) (self : SimulatedSensor) :
  str_in X VALID_FEET = true ->
  (foot self =? X) = false ->
  set_config None (Some X) self =
  if image_map X =? image_path self then (Return true, set_foot self X)
  else
    match _load_image (image_map X)
            (set_image_path (set_foot self X) (image_map X)) with
    | (Return _, self') => (Return true, self')
    | (Raise e, self') => (Raise e, self')
    end.
Proof.
  intros Hv Hf. unfold set_config. fold VALID_FEET.
  rewrite Hv, (truthy_valid_foot X Hv), Hf. cbn [andb negb].
  cbn [image_path set_foot].
  now destruct (image_map X =? image_path self).
Qed.

(** The outcome and the matrix of a load depend on the shape, on the
    temperature range and, when it fails, on the matrix in place. *)
Lemma _load_image_base (path : string) (s1 s2 : SimulatedSensor) :
  rows s1 = rows s2 -> cols s1 = cols s2 ->
  temp_min s1 = temp_min s2 -> temp_max s1 = temp_max s2 ->
  base s1 = base s2 ->
  fst (_load_image path s1) = fst (_load_image path s2)
  /\ base (snd (_load_image path s1)) = base (snd (_load_image path s2)).
Proof.
  intros Hr Hc Hmin Hmax Hb. unfold _load_image.
  cbn [rows cols temp_min temp_max log_load]. rewrite Hr, Hc, Hmin, Hmax.
  destruct (Image_open path) as [img|e];
    [|destruct (is_FileNotFoundError e); now split].
  destruct (np_min _) as [amin|e];
    [|destruct (is_FileNotFoundError e); now split].
  destruct (np_max _) as [amax|e];
    [|destruct (is_FileNotFoundError e)]; now split.
Qed.

Lemma load_log_load (path : string) (self : SimulatedSensor) :
  load_log (snd (_load_image path self)) = path :: load_log self
  /\ foot (snd (_load_image path self)) = foot self
  /\ image_path (snd (_load_image path self)) = image_path self
  /\ simulation_mode (snd (_load_image path self)) = simulation_mode self.
Proof.
  destruct (_load_image path self) as [r self'] eqn:H.
  apply _load_image_frame in H as [m [-> _]]. now repeat split.
Qed.

(** A foot different from the current one, for any mode argument. *)
Lemma set_config_new_foot_parts (self : SimulatedSensor) (m : option string)
    (X : string) :
  str_in X VALID_FEET = true ->
  (foot self =? X) = false ->
  let s1 := snd (mode_part m self) in
  set_config m (Some X) self =
  if image_map X =? image_path self then (Return true, set_foot s1 X)
  else
    match _load_image (image_map X)
            (set_image_path (set_foot s1 X) (image_map X)) with
    | (Return _, self') => (Return true, self')
    | (Raise e, self') => (Raise e, self')
    end.
Proof.
  intros Hv Hf s1. rewrite set_config_parts. fold s1.
  destruct (mode_part_frame m self)
    as (_ & _ & _ & _ & _ & _ & Hpath & Hfoot & _). fold s1 in Hpath, Hfoot.
  rewrite (set_config_foot_new X s1 Hv) by now rewrite Hfoot.
  rewrite Hpath. destruct (image_map X =? image_path self).
  - now rewrite orb_true_r.
  - now destruct (_load_image _ _) as [[[]|e] s3]; [rewrite orb_true_r|].
Qed.

Lemma mode_part_settled (m : option string) (self s : SimulatedSensor) :
  simulation_mode s = simulation_mode (snd (mode_part m self)) ->
  mode_part m s = (false, s).
Proof.
  unfold mode_part. destruct m as [m|]; [|reflexivity].
  destruct (truthy (Some m) && _); [|reflexivity].
  destruct (simulation_mode self =? m) eqn:Hm; cbn [negb snd]; intros Hs.
  - apply String.eqb_eq in Hm. rewrite Hs, Hm, String.eqb_refl. reflexivity.
  - cbn [simulation_mode set_simulation_mode] in Hs.
    rewrite Hs, String.eqb_refl. reflexivity.
Qed.

Lemma set_config_settled (m : option string) (X : string)
    (self s : SimulatedSensor) :
  simulation_mode s = simulation_mode (snd (mode_part m self)) ->
  foot s = X ->
  set_config m (Some X) s = (Return false, s).
Proof.
  intros Hm Hf. rewrite set_config_parts.
  rewrite (mode_part_settled m self s Hm). cbn [fst snd].
  subst X. now rewrite set_config_foot_same.
Qed.

Lemma image_map_differs (X Y : string) :
  str_in X VALID_FEET = true -> str_in Y VALID_FEET = true ->
  (Y =? X) = false -> (image_map X =? image_map Y) = false.
Proof.
  intros HX HY Hne.
  destruct (valid_foot_cases X HX) as [-> | ->],
           (valid_foot_cases Y HY) as [-> | ->]; trivial; discriminate.
Qed.

(** C3, as the code has it.  A valid foot that differs from the current
    one becomes the foot of the sensor, and the image is loaded again
    exactly when the file mapped to that foot is not the one in place.
    The call returns [True] when no load takes place, and when the load
    succeeds: the sensor has at least one pixel and the file is absent or
    decodes; when the file is there and does not decode, the call raises
    what the decoding raised and the base matrix stays.  A second call
    with the same arguments changes nothing, so the two calls load once
    when the files differ and never otherwise.  The files always differ
    when the file in place is the one mapped to the current foot. *)
Theorem set_config_new_foot (self : SimulatedSensor) (m : option string)
    (X : string) :
  str_in X VALID_FEET = true ->
  (foot self =? X) = false ->
  let first := set_config m (Some X) self in
  let second := set_config m (Some X) (snd first) in
  let once := if image_map X =? image_path self then 0 else 1 in
  foot (snd first) = X
  /\ image_path (snd first) = image_map X
  /\ (forall f, X = foot_name f -> image_map X = spec_image f)
  /\ reloads self (snd first) = once
  /\ (0 < rows self -> 0 < cols self -> loadable (image_map X) = true ->
      fst first = Return true)
  /\ ((image_map X =? image_path self) = false ->
      loadable (image_map X) = false ->
      exists e, Image_open (image_map X) = Raise e
                /\ is_FileNotFoundError e = false
                /\ fst first = Raise e /\ base (snd first) = base self)
  /\ ((image_map X =? image_path self) = true ->
      fst first = Return true /\ base (snd first) = base self)
  /\ ((image_map X =? image_path self) = false ->
      load_log (snd first) = image_map X :: load_log self
      /\ base (snd first) = base (snd (_load_image (image_map X) self)))
  /\ second = (Return false, snd first)
  /\ reloads self (snd second) = once
  /\ (str_in (foot self) VALID_FEET = true ->
      image_path self = image_map (foot self) -> once = 1).
Proof.
  intros Hv Hf first second once.
  pose proof (set_config_new_foot_parts self m X Hv Hf) as Hfirst.
  fold first in Hfirst. cbn zeta in Hfirst.
  destruct (mode_part_frame m self)
    as (Hrows & Hcols & Hmin & Hmax & _ & _ & Hpath & Hfoot & Hbase & Hlog).
  set (s1 := snd (mode_part m self)) in *.
  assert (Hsecond : simulation_mode (snd first) = simulation_mode s1
                    /\ foot (snd first) = X).
  { rewrite Hfirst. destruct (image_map X =? image_path self); [now split|].
    destruct (load_log_load (image_map X)
                (set_image_path (set_foot s1 X) (image_map X)))
      as (_ & Hf' & _ & Hm').
    destruct (_load_image _ _) as [[[]|e] s3]; now split. }
  destruct Hsecond as [Hmode2 Hfoot2].
  assert (H2 : second = (Return false, snd first))
    by (apply (set_config_settled m X self); assumption).
  split; [exact Hfoot2|]. split; [|split; [|split; [|split; [|split; [|split;
    [|split; [|split; [exact H2|split]]]]]]]].
  - rewrite Hfirst. destruct (image_map X =? image_path self) eqn:Hp.
    + cbn [snd image_path set_foot]. rewrite Hpath.
      symmetry. now apply String.eqb_eq.
    + destruct (load_log_load (image_map X)
                  (set_image_path (set_foot s1 X) (image_map X)))
        as (_ & _ & Hp' & _).
      destruct (_load_image _ _) as [[[]|e] s3]; exact Hp'.
  - intros f ->. now destruct f.
  - unfold reloads, once. rewrite Hfirst.
    destruct (image_map X =? image_path self).
    + cbn [snd load_log set_foot]. rewrite Hlog. lia.
    + destruct (load_log_load (image_map X)
                  (set_image_path (set_foot s1 X) (image_map X)))
        as (Hl & _).
      cbn [load_log set_image_path set_foot] in Hl. rewrite Hlog in Hl.
      destruct (_load_image _ _) as [[[]|e] s3]; cbn [snd] in *;
        rewrite Hl; cbn [length]; lia.
  - intros Hr Hc Hl. rewrite Hfirst.
    destruct (image_map X =? image_path self); [reflexivity|].
    destruct (_load_image_returns (image_map X)
                (set_image_path (set_foot s1 X) (image_map X)))
      as [mx [Hload _]].
    + cbn [rows set_image_path set_foot]. now rewrite Hrows.
    + cbn [cols set_image_path set_foot]. now rewrite Hcols.
    + exact Hl.
    + now rewrite Hload.
  - intros Hp Hl. rewrite Hfirst, Hp.
    destruct (_load_image_fails (image_map X)
                (set_image_path (set_foot s1 X) (image_map X)) Hl)
      as (e & Hopen & He & Hload).
    exists e. rewrite Hload. cbn [fst snd base log_load set_image_path set_foot].
    now repeat split.
  - intros Hp. rewrite Hfirst, Hp. split; [reflexivity|].
    cbn [snd base set_foot]. exact Hbase.
  - intros Hp. rewrite Hfirst, Hp.
    destruct (load_log_load (image_map X)
                (set_image_path (set_foot s1 X) (image_map X))) as (Hl & _).
    cbn [load_log set_image_path set_foot] in Hl. rewrite Hlog in Hl.
    destruct (_load_image_base (image_map X)
                (set_image_path (set_foot s1 X) (image_map X)) self)
      as [_ Hb]; trivial.
    destruct (_load_image _ _) as [[[]|e] s3]; cbn [snd] in *; now split.
  - rewrite H2. cbn [snd]. unfold reloads, once. rewrite Hfirst.
    destruct (image_map X =? image_path self).
    + cbn [snd load_log set_foot]. rewrite Hlog. lia.
    + destruct (load_log_load (image_map X)
                  (set_image_path (set_foot s1 X) (image_map X)))
        as (Hl & _).
      cbn [load_log set_image_path set_foot] in Hl. rewrite Hlog in Hl.
      destruct (_load_image _ _) as [[[]|e] s3]; cbn [snd] in *;
        rewrite Hl; cbn [length]; lia.
  - intros Hcur Hsync. unfold once. rewrite Hsync.
    now rewrite (image_map_differs X (foot self) Hv Hcur Hf).
Qed.

Lemma set_config_current (self : SimulatedSensor) (with_mode with_foot : bool) :
  set_config
    (if with_mode then Some (simulation_mode self) else None)
    (if with_foot then Some (foot self) else None)
    self = (Return false, self).
Proof.
  rewrite set_config_parts.
  assert (Hm : mode_part (if with_mode then Some (simulation_mode self) else None)
                 self = (false, self)).
  { destruct with_mode; [|reflexivity]. unfold mode_part.
    rewrite String.eqb_refl. now destruct (truthy _ && _). }
  rewrite Hm. cbn [fst snd].
  destruct with_foot; [now rewrite set_config_foot_same|reflexivity].
Qed.

(** C4.  Applying again the mode of the sensor, its foot, or both, returns
    [False] and leaves the sensor as it is, its log of loads included; a
    repetition of the call does the same. *)
Theorem set_config_same (self : SimulatedSensor) (with_mode with_foot : bool) :
  let again :=
    set_config
      (if with_mode then Some (simulation_mode self) else None)
      (if with_foot then Some (foot self) else None) in
  again self = (Return false, self)
  /\ reloads self (snd (again self)) = 0
  /\ again (snd (again self)) = (Return false, self).
Proof.
  cbn zeta. rewrite set_config_current. cbn [snd].
  split; [reflexivity|]. split; [|apply set_config_current].
  unfold reloads. lia.
Qed.

(** *** Well-formed sensors

    The constructor builds them, [set_config] and [get_frame] keep them. *)

Lemma __init___well_formed (path : string) (r c : nat)
    (tmin tmax std : float) (self : SimulatedSensor) :
  __init__ path r c tmin tmax std = Return self ->
  scale_ok std = true ->
  well_formed self = true /\ rows self = r /\ cols self = c.
Proof.
  unfold __init__. intros H Hstd.
  destruct (_load_image path _) as [[[]|e] self'] eqn:Hload; [|discriminate].
  injection H as <-.
  apply _load_image_frame in Hload as [m [-> Hshape]].
  unfold well_formed. cbn in *. rewrite Hstd, Hshape by now left.
  now repeat split.
Qed.

Lemma set_config_well_formed (m f : option string) (self : SimulatedSensor) :
  well_formed self = true ->
  well_formed (snd (set_config m f self)) = true.
Proof.
  intros Hwf. rewrite set_config_parts.
  destruct (mode_part_frame m self)
    as (Hrows & Hcols & _ & _ & Hstd & _ & _ & _ & Hbase & _).
  set (s1 := snd (mode_part m self)) in *.
  assert (Hwf1 : well_formed s1 = true)
    by (unfold well_formed in *; now rewrite Hrows, Hcols, Hstd, Hbase).
  clearbody s1. clear Hrows Hcols Hstd Hbase Hwf.
  unfold set_config. cbn iota beta.
  destruct f as [f0|]; [|exact Hwf1].
  destruct (truthy (Some f0) && _); [|exact Hwf1].
  destruct (negb (foot s1 =? f0)); [|exact Hwf1].
  cbn zeta. destruct (negb (image_map f0 =? _)); [|exact Hwf1].
  destruct (_load_image _ _) as [r s3] eqn:Hload.
  apply _load_image_frame in Hload as [mx [-> Hshape]].
  apply andb_true_iff in Hwf1 as [Hs Hn].
  assert (Hs3 : well_formed
                  (set_base
                     (log_load (set_image_path (set_foot s1 f0) (image_map f0))
                        (image_map f0)) mx) = true).
  { unfold well_formed. cbn in *. rewrite Hn, Hshape by now right.
    reflexivity. }
  now destruct r.
Qed.

Lemma get_frame_well_formed (self : SimulatedSensor) (g : rng) :
  well_formed self = true ->
  well_formed (snd (fst (get_frame self g))) = true.
Proof. intros Hwf. now rewrite (get_frame_returns self g Hwf). Qed.

(** *** What the handler relies on *)

Lemma new_sensor_ok (path : string) (self : SimulatedSensor) :
  new_sensor path = Return self ->
  0 < rows self /\ 0 < cols self /\ well_formed self = true
  /\ simulation_mode self = "baja_diferencia" /\ foot self = "izquierdo"
  /\ image_path self = path.
Proof.
  unfold new_sensor, __init__.
  match goal with
  | |- context [_load_image path ?s0] =>
      destruct (_load_image path s0) as [[[]|e] s1] eqn:Hload;
      [|discriminate]
  end.
  intros [= <-]. apply _load_image_frame in Hload as [m [-> Hshape]].
  cbn in *. repeat split; try lia.
  unfold well_formed. cbn. now rewrite Hshape by now left.
Qed.

Lemma set_config_mode_ok (m : string) (self : SimulatedSensor) :
  sensor_ok self -> str_in m VALID_SIMULATION_MODES = true ->
  set_config (Some m) None self =
    (Return (negb (simulation_mode self =? m)), snd (mode_part (Some m) self))
  /\ sensor_ok (snd (mode_part (Some m) self))
  /\ simulation_mode (snd (mode_part (Some m) self)) = m
  /\ foot (snd (mode_part (Some m) self)) = foot self.
Proof.
  intros (Hr & Hc & Hwf & Hm & Hf & Hp) Hv.
  destruct (mode_part_valid m self Hv) as [Hmode Hchanged].
  destruct (mode_part_frame (Some m) self)
    as (Hrows & Hcols & _ & _ & Hstd & _ & Hpath & Hfoot & Hbase & _).
  split; [|split; [|split]]; trivial.
  - rewrite set_config_parts, set_config_foot_none.
    now rewrite Hchanged, orb_false_r.
  - unfold sensor_ok, well_formed in *.
    rewrite Hrows, Hcols, Hstd, Hbase, Hpath, Hfoot, Hmode. now repeat split.
Qed.

(** A valid foot on a sensor in order: the sensor stays in order whether
    the load succeeds or not; the call returns unless a file that is
    there does not decode. *)
Lemma set_config_foot_ok (f : string) (self : SimulatedSensor) :
  sensor_ok self -> str_in f VALID_FEET = true ->
  let r := fst (set_config None (Some f) self) in
  let self' := snd (set_config None (Some f) self) in
  sensor_ok self'
  /\ foot self' = f
  /\ simulation_mode self' = simulation_mode self
  /\ (loadable (image_map f) = true \/ (foot self =? f) = true ->
      r = Return (negb (foot self =? f)))
  /\ (loadable (image_map f) = false -> (foot self =? f) = false ->
      exists e, Image_open (image_map f) = Raise e
                /\ is_FileNotFoundError e = false /\ r = Raise e).
Proof.
  intros (Hr & Hc & Hwf & Hm & Hf & Hp) Hv. cbn zeta.
  destruct (foot self =? f) eqn:Hsame.
  - apply String.eqb_eq in Hsame. subst f.
    rewrite set_config_foot_same. cbn [fst snd].
    split; [now repeat split|]. split; [reflexivity|]. split; [reflexivity|].
    split; [reflexivity|discriminate].
  - rewrite (set_config_foot_new f self Hv Hsame).
    rewrite Hp, (image_map_differs f (foot self) Hv Hf Hsame).
    destruct (loadable (image_map f)) eqn:Hl.
    + destruct (_load_image_returns (image_map f)
                  (set_image_path (set_foot self f) (image_map f)))
        as [m [Hload Hshape]]; trivial.
      rewrite Hload. cbn [fst snd].
      cbn in Hshape. unfold sensor_ok, well_formed in *. cbn.
      apply andb_true_iff in Hwf as [_ Hstd]. rewrite Hshape, Hstd.
      split; [now repeat split|]. split; [reflexivity|].
      split; [reflexivity|]. split; [reflexivity|discriminate].
    + destruct (_load_image_fails (image_map f)
                  (set_image_path (set_foot self f) (image_map f)) Hl)
        as (e & Hopen & He & Hload).
      rewrite Hload. cbn [fst snd].
      unfold sensor_ok, well_formed in *. cbn.
      split; [now repeat split|]. split; [reflexivity|].
      split; [reflexivity|]. split.
      * intros [?|?]; discriminate.
      * intros _ _. now exists e.
Qed.

End SensorFacts.

(** ** The handler *)

(** Projections of updated sessions. *)
Ltac session_simpl :=
  cbn [fst snd sensor current_simulation_mode current_foot running gen sent
       sender receiver stage set_sensor set_current_simulation_mode
       set_current_foot set_running set_gen push_sent set_sender set_receiver
       set_stage] in *.

(** The clauses of [control_ok] after an update of the session. *)
Ltac control_tac :=
  unfold control_ok; session_simpl; repeat split; intros;
  try discriminate; try congruence; auto;
  try match goal with
      | H : ?P -> true = false, H' : ?P |- _ => discriminate (H H')
      end.

Section HandlerFacts.
Context {E : Env}.

Lemma valid_enum_in (v : json) (valid : list string) (s : string) :
  valid_enum v valid = Some s -> v = JStr s /\ str_in s valid = true.
Proof.
  destruct v; try discriminate. simpl.
  destruct (str_in s0 valid) eqn:H; [|discriminate].
  intros [= <-]. now split.
Qed.

Lemma requested_valid (key : string) (valid : list string)
    (d : list (string * json)) (s : string) :
  requested key valid d = Some s -> str_in s valid = true.
Proof.
  unfold requested. destruct (dict_get key d); [|discriminate].
  intros H. now apply valid_enum_in in H.
Qed.

Lemma apply_mode_ok (s : string) (st : session) :
  config_ok st -> str_in s VALID_SIMULATION_MODES = true ->
  fst (set_config (Some s) None (sensor st))
    = Return (negb (simulation_mode (sensor st) =? s))
  /\ config_ok (apply_mode s st)
  /\ current_simulation_mode (apply_mode s st) = s
  /\ current_foot (apply_mode s st) = current_foot st.
Proof.
  intros (Hs & Hm & Hf) Hv.
  destruct (set_config_mode_ok s (sensor st) Hs Hv) as (Hset & Hok & Hm' & Hf').
  unfold apply_mode, config_ok. rewrite Hset. session_simpl.
  split; [reflexivity|]. split; [|now split].
  split; [exact Hok|]. split; congruence.
Qed.

Lemma apply_foot_ok (f : string) (st : session) :
  config_ok st -> str_in f VALID_FEET = true ->
  (loadable (image_map f) = true \/ (foot (sensor st) =? f) = true ->
   fst (set_config None (Some f) (sensor st))
   = Return (negb (foot (sensor st) =? f)))
  /\ config_ok (apply_foot f st)
  /\ current_foot (apply_foot f st) = f
  /\ current_simulation_mode (apply_foot f st) = current_simulation_mode st.
Proof.
  intros (Hs & Hm & Hf) Hv.
  destruct (set_config_foot_ok f (sensor st) Hs Hv)
    as (Hok & Hf' & Hm' & Hret & _).
  unfold apply_foot, config_ok. session_simpl.
  split; [exact Hret|]. split; [|now split].
  split; [exact Hok|]. split; congruence.
Qed.

Lemma apply_request_ok (rm rf : option string) (st : session) :
  config_ok st ->
  (forall s, rm = Some s -> str_in s VALID_SIMULATION_MODES = true) ->
  (forall f, rf = Some f -> str_in f VALID_FEET = true) ->
  config_ok (apply_request rm rf st)
  /\ current_simulation_mode (apply_request rm rf st)
     = match rm with Some s => s | None => current_simulation_mode st end
  /\ current_foot (apply_request rm rf st)
     = match rf with Some f => f | None => current_foot st end.
Proof.
  intros Hok Hm Hf. unfold apply_request.
  destruct rm as [s|].
  - destruct (apply_mode_ok s st Hok (Hm s eq_refl)) as (_ & Hok1 & Hm1 & Hf1).
    destruct rf as [f|]; [|split; [exact Hok1|split; assumption]].
    destruct (apply_foot_ok f _ Hok1 (Hf f eq_refl)) as (_ & Hok2 & Hf2 & Hm2).
    split; [exact Hok2|]. split; congruence.
  - destruct rf as [f|]; [|split; [exact Hok|split; reflexivity]].
    destruct (apply_foot_ok f _ Hok (Hf f eq_refl)) as (_ & Hok2 & Hf2 & Hm2).
    split; [exact Hok2|]. split; assumption.
Qed.

(** The control fields are out of reach of the configuration. *)
Lemma apply_request_control (rm rf : option string) (st : session) :
  running (apply_request rm rf st) = running st
  /\ sender (apply_request rm rf st) = sender st
  /\ receiver (apply_request rm rf st) = receiver st
  /\ stage (apply_request rm rf st) = stage st
  /\ gen (apply_request rm rf st) = gen st
  /\ sent (apply_request rm rf st) = sent st.
Proof. destruct rm, rf; now repeat split. Qed.

Lemma mode_block {A} (s : string) (x : A) (st : session) :
  config_ok st -> str_in s VALID_SIMULATION_MODES = true ->
  (modify (fun st => set_current_simulation_mode st s) ;;
   sensor_set_config (Some s) None ;;
   ret x) st = (Return x, apply_mode s st).
Proof.
  intros Hok Hv. destruct (apply_mode_ok s st Hok Hv) as (Hret & _).
  unfold bind, modify, sensor_set_config, ret, apply_mode. session_simpl.
  destruct (set_config (Some s) None (sensor st)) as [r self'].
  cbn [fst] in Hret. subst r. reflexivity.
Qed.

Lemma foot_block {A} (f : string) (x : A) (st : session) :
  (modify (fun st => set_current_foot st f) ;;
   sensor_set_config None (Some f) ;;
   ret x) st
  = (after_load (fst (set_config None (Some f) (sensor st))) x,
     apply_foot f st).
Proof.
  unfold bind, modify, sensor_set_config, ret, apply_foot. session_simpl.
  now destruct (set_config None (Some f) (sensor st)) as [[c|e] self'].
Qed.

(** The two keys of a received object, one after the other. *)
Lemma receive_mode_spec (d : list (string * json)) (c : bool) (st : session) :
  config_ok st ->
  let rm := requested "simulation_mode" VALID_SIMULATION_MODES d in
  receive_mode d c st
  = if prints (rejected "simulation_mode" VALID_SIMULATION_MODES d)
    then (Return (is_some rm || c), apply_request rm None st)
    else (Raise UnicodeEncodeError, st).
Proof.
  intros Hok rm. unfold receive_mode, rejected, prints.
  unfold requested in rm.
  destruct (dict_get "simulation_mode" d) as [vm|]; [|reflexivity].
  destruct (valid_enum vm VALID_SIMULATION_MODES) as [sm|] eqn:Hvm; subst rm.
  - apply valid_enum_in in Hvm as [_ Hv].
    now rewrite (mode_block sm true st Hok Hv).
  - unfold print, bind. now destruct (printable vm).
Qed.

Lemma receive_foot_spec (d : list (string * json)) (c : bool) (st : session) :
  let rf := requested "foot" VALID_FEET d in
  receive_foot d c st
  = match rf with
    | Some f =>
        (after_load (fst (set_config None (Some f) (sensor st))) true,
         apply_foot f st)
    | None =>
        if prints (rejected "foot" VALID_FEET d) then (Return c, st)
        else (Raise UnicodeEncodeError, st)
    end.
Proof.
  intros rf. unfold receive_foot, rejected, prints.
  unfold requested in rf.
  destruct (dict_get "foot" d) as [vf|]; [|reflexivity].
  destruct (valid_enum vf VALID_FEET) as [sf|] eqn:Hvf; subst rf.
  - apply foot_block.
  - unfold print, bind. now destruct (printable vf).
Qed.

Lemma initial_mode_spec (d : list (string * json)) (st : session) :
  config_ok st ->
  let rm := requested "simulation_mode" VALID_SIMULATION_MODES d in
  initial_mode d st = (Return tt, apply_request rm None st).
Proof.
  intros Hok rm. unfold initial_mode. unfold requested in rm.
  destruct (dict_get "simulation_mode" d) as [vm|]; [|reflexivity].
  destruct (valid_enum vm VALID_SIMULATION_MODES) as [sm|] eqn:Hvm; subst rm;
    [|reflexivity].
  apply valid_enum_in in Hvm as [_ Hv].
  now rewrite (mode_block sm tt st Hok Hv).
Qed.

Lemma initial_foot_spec (d : list (string * json)) (st : session) :
  let rf := requested "foot" VALID_FEET d in
  initial_foot d st
  = match rf with
    | Some f =>
        (after_load (fst (set_config None (Some f) (sensor st))) tt,
         apply_foot f st)
    | None => (Return tt, st)
    end.
Proof.
  intros rf. unfold initial_foot. unfold requested in rf.
  destruct (dict_get "foot" d) as [vf|]; [|reflexivity].
  destruct (valid_enum vf VALID_FEET) as [sf|] eqn:Hvf; subst rf;
    [|reflexivity].
  apply foot_block.
Qed.

Lemma apply_request_split (rm rf : option string) (st : session) :
  apply_request rm rf st
  = match rf with
    | Some f => apply_foot f (apply_request rm None st)
    | None => apply_request rm None st
    end.
Proof. now destruct rm, rf. Qed.

(** With a loadable file [set_config] returns on the sensor of a session
    in order. *)
Lemma loads_returns (rm rf : option string) (st : session) (f : string) :
  config_ok st ->
  (forall s, rm = Some s -> str_in s VALID_SIMULATION_MODES = true) ->
  rf = Some f -> str_in f VALID_FEET = true -> loads rf = true ->
  exists c,
    fst (set_config None (Some f) (sensor (apply_request rm None st)))
    = Return c.
Proof.
  intros Hok Hrm -> Hv Hl. cbn [loads] in Hl.
  destruct (apply_request_ok rm None st Hok Hrm) as (Hok1 & _); [discriminate|].
  destruct (apply_foot_ok f _ Hok1 Hv) as (Hret & _).
  eexists. apply Hret. now left.
Qed.

(** A decoded object is applied field by field when the rejected values
    can be printed and the image of the requested foot can be loaded. *)
Lemma receive_message_dict (m : message) (d : list (string * json))
    (st : session) :
  config_ok st -> json_loads m = Return (JDict d) ->
  let rm := requested "simulation_mode" VALID_SIMULATION_MODES d in
  let rf := requested "foot" VALID_FEET d in
  prints (rejected "simulation_mode" VALID_SIMULATION_MODES d) = true ->
  prints (rejected "foot" VALID_FEET d) = true ->
  loads rf = true ->
  receive_message m st
  = (Return (is_some rm || is_some rf), apply_request rm rf st).
Proof.
  intros Hok Hdec rm rf Hpm Hpf Hl.
  assert (Hrm : forall s, rm = Some s -> str_in s VALID_SIMULATION_MODES = true)
    by (intros s; apply requested_valid).
  assert (Hrf : forall f, rf = Some f -> str_in f VALID_FEET = true)
    by (intros f; apply requested_valid).
  unfold receive_message, try_except, decode, library.
  unfold bind at 1. rewrite Hdec. unfold bind at 1.
  rewrite (receive_mode_spec d false st Hok), Hpm. fold rm.
  rewrite receive_foot_spec. fold rf. rewrite Hpf.
  rewrite (apply_request_split rm rf). rewrite orb_false_r.
  destruct rf as [f|] eqn:Hf; [|now rewrite orb_false_r].
  destruct (loads_returns rm (Some f) st f Hok Hrm eq_refl (Hrf f eq_refl) Hl)
    as [c Hc].
  rewrite Hc. cbn [after_load]. now rewrite orb_true_r.
Qed.

(** A rejected mode that cannot be printed ends the handling of the
    message before the key ["foot"] is looked at. *)
Lemma receive_message_unprintable_mode (m : message)
    (d : list (string * json)) (st : session) :
  config_ok st -> json_loads m = Return (JDict d) ->
  prints (rejected "simulation_mode" VALID_SIMULATION_MODES d) = false ->
  receive_message m st = (Raise UnicodeEncodeError, st).
Proof.
  intros Hok Hdec Hpm.
  unfold receive_message, try_except, decode, library.
  unfold bind at 1. rewrite Hdec. unfold bind at 1.
  now rewrite (receive_mode_spec d false st Hok), Hpm.
Qed.

(** A rejected foot that cannot be printed ends the handling after the
    mode has been applied. *)
Lemma receive_message_unprintable_foot (m : message)
    (d : list (string * json)) (st : session) :
  config_ok st -> json_loads m = Return (JDict d) ->
  let rm := requested "simulation_mode" VALID_SIMULATION_MODES d in
  prints (rejected "simulation_mode" VALID_SIMULATION_MODES d) = true ->
  prints (rejected "foot" VALID_FEET d) = false ->
  receive_message m st = (Raise UnicodeEncodeError, apply_request rm None st).
Proof.
  intros Hok Hdec rm Hpm Hpf.
  assert (Hnone : requested "foot" VALID_FEET d = None).
  { unfold prints, rejected in Hpf. unfold requested.
    destruct (dict_get "foot" d) as [vf|]; [|reflexivity].
    now destruct (valid_enum vf VALID_FEET). }
  unfold receive_message, try_except, decode, library.
  unfold bind at 1. rewrite Hdec. unfold bind at 1.
  rewrite (receive_mode_spec d false st Hok), Hpm. fold rm.
  now rewrite receive_foot_spec, Hnone, Hpf.
Qed.

(** What the decoder raises other than [JSONDecodeError] leaves the inner
    [try] block. *)
Lemma receive_message_undecodable (m : message) (e : exn) (st : session) :
  json_loads m = Raise e -> is_JSONDecodeError e = false ->
  receive_message m st = (Raise e, st).
Proof.
  intros Hdec He. unfold receive_message, try_except, decode, library.
  unfold bind at 1. rewrite Hdec. cbn [dispatch]. now rewrite He.
Qed.

Lemma receive_message_no_object (m : message) (st : session) :
  no_config (Return m) -> receive_message m st = (Return false, st).
Proof.
  intros H. unfold receive_message, try_except, decode, library, bind.
  inversion H as [|m' Hdec|m' v Hdec Hv]; subst; rewrite Hdec.
  - reflexivity.
  - unfold ret at 1. destruct v; try reflexivity. now elim (Hv d).
Qed.

(** Whatever the message and whatever is raised on the way, the session
    after the inner [try] block is the one before with valid values
    applied. *)
Lemma receive_message_any (m : message) (st : session) :
  config_ok st ->
  exists r rm rf,
    receive_message m st = (r, apply_request rm rf st)
    /\ (forall s, rm = Some s -> str_in s VALID_SIMULATION_MODES = true)
    /\ (forall f, rf = Some f -> str_in f VALID_FEET = true).
Proof.
  intros Hok.
  assert (Hnone : forall r : outcome bool, exists r' rm rf,
            (r, st) = (r', apply_request rm rf st)
            /\ (forall s, rm = Some s -> str_in s VALID_SIMULATION_MODES = true)
            /\ (forall f, rf = Some f -> str_in f VALID_FEET = true)).
  { intros r. exists r, None, None. split; [reflexivity|]. split; discriminate. }
  unfold receive_message, try_except, decode, library.
  unfold bind at 1. destruct (json_loads m) as [v|e].
  - destruct v; try apply Hnone. unfold bind at 1.
    rewrite (receive_mode_spec d false st Hok).
    set (rm := requested "simulation_mode" VALID_SIMULATION_MODES d).
    assert (Hrm : forall s, rm = Some s
                            -> str_in s VALID_SIMULATION_MODES = true)
      by (intros s; apply requested_valid).
    destruct (prints (rejected "simulation_mode" VALID_SIMULATION_MODES d));
      [|apply Hnone].
    rewrite receive_foot_spec.
    set (rf := requested "foot" VALID_FEET d).
    assert (Hrf : forall f, rf = Some f -> str_in f VALID_FEET = true)
      by (intros f; apply requested_valid).
    destruct rf as [f|] eqn:Hf.
    + destruct (after_load _ _) as [c|e];
        [|cbn [dispatch]; destruct (is_JSONDecodeError e)];
        eexists _, rm, (Some f);
        rewrite (apply_request_split rm (Some f));
        (split; [reflexivity|now split]).
    + destruct (prints (rejected "foot" VALID_FEET d));
        eexists _, rm, None; (split; [reflexivity|now split]).
  - cbn [dispatch]. destruct (is_JSONDecodeError e); apply Hnone.
Qed.

(** The initial object is applied field by field; the handshake returns
    when the image of the requested foot can be loaded. *)
Lemma handshake_dict (m : message) (d : list (string * json)) (st : session) :
  config_ok st -> json_loads m = Return (JDict d) ->
  let rm := requested "simulation_mode" VALID_SIMULATION_MODES d in
  let rf := requested "foot" VALID_FEET d in
  exists r,
    handshake (Return m) st = (r, apply_request rm rf st)
    /\ (loads rf = true -> r = Return tt).
Proof.
  intros Hok Hdec rm rf.
  assert (Hrm : forall s, rm = Some s -> str_in s VALID_SIMULATION_MODES = true)
    by (intros s; apply requested_valid).
  assert (Hrf : forall f, rf = Some f -> str_in f VALID_FEET = true)
    by (intros f; apply requested_valid).
  unfold handshake, try_except, await, decode, library. unfold bind at 1.
  unfold bind at 1. rewrite Hdec. unfold bind at 1.
  rewrite (initial_mode_spec d st Hok). fold rm.
  rewrite initial_foot_spec. fold rf.
  rewrite (apply_request_split rm rf).
  destruct rf as [f|] eqn:Hf; [|now exists (Return tt)].
  destruct (loads (Some f)) eqn:Hl.
  - destruct (loads_returns rm (Some f) st f Hok Hrm eq_refl (Hrf f eq_refl) Hl)
      as [c Hc].
    rewrite Hc. now exists (Return tt).
  - destruct (after_load _ _) as [[]|e];
      [exists (Return tt); split; [reflexivity|discriminate]|].
    cbn [dispatch]. destruct (is_JSONDecodeError e);
      [exists (Return tt); split; [reflexivity|discriminate]|].
    cbn [dispatch]. unfold raise at 1. cbn [dispatch].
    destruct (is_TimeoutError e);
      eexists; (split; [reflexivity|discriminate]).
Qed.

Lemma handshake_no_config (r : outcome message) (st : session) :
  no_config r -> handshake r st = (Return tt, st).
Proof.
  intros H. unfold handshake, try_except, await, decode, library.
  inversion H as [|m Hdec|m v Hdec Hv]; subst.
  - reflexivity.
  - unfold bind at 1. unfold bind at 1. now rewrite Hdec.
  - unfold bind at 1. unfold bind at 1. rewrite Hdec.
    destruct v; try reflexivity. now elim (Hv d).
Qed.

Lemma handshake_raise (e : exn) (st : session) :
  is_TimeoutError e = false -> handshake (Raise e) st = (Raise e, st).
Proof.
  intros He. unfold handshake, try_except, await, bind. cbn [dispatch].
  now rewrite He.
Qed.

(** What the decoder raises other than [JSONDecodeError] leaves the
    handshake, unless it is a timeout. *)
Lemma handshake_undecodable (m : message) (e : exn) (st : session) :
  json_loads m = Raise e ->
  is_JSONDecodeError e = false -> is_TimeoutError e = false ->
  handshake (Return m) st = (Raise e, st).
Proof.
  intros Hdec He Ht. unfold handshake, try_except, await, decode, library.
  unfold bind at 1. unfold bind at 1. rewrite Hdec.
  cbn [dispatch]. rewrite He. cbn [dispatch]. unfold raise at 1.
  cbn [dispatch]. now rewrite Ht.
Qed.

(** Whatever is delivered and whatever is raised on the way, the session
    after the handshake is the one before with valid values applied. *)
Lemma handshake_any (r0 : outcome message) (st : session) :
  config_ok st ->
  exists r rm rf,
    handshake r0 st = (r, apply_request rm rf st)
    /\ (forall s, rm = Some s -> str_in s VALID_SIMULATION_MODES = true)
    /\ (forall f, rf = Some f -> str_in f VALID_FEET = true).
Proof.
  intros Hok.
  assert (Hnone : forall r : outcome unit, exists r' rm rf,
            (r, st) = (r', apply_request rm rf st)
            /\ (forall s, rm = Some s -> str_in s VALID_SIMULATION_MODES = true)
            /\ (forall f, rf = Some f -> str_in f VALID_FEET = true)).
  { intros r. exists r, None, None. split; [reflexivity|]. split; discriminate. }
  destruct r0 as [m|e].
  - destruct (json_loads m) as [v|e] eqn:Hdec.
    + destruct v;
        try (rewrite (handshake_no_config (Return m) st);
             [apply Hnone|eapply not_object; [exact Hdec|discriminate]]).
      destruct (handshake_dict m d st Hok Hdec) as (r & -> & _).
      exists r, (requested "simulation_mode" VALID_SIMULATION_MODES d),
        (requested "foot" VALID_FEET d).
      split; [reflexivity|]. split; intros x; apply requested_valid.
    + unfold handshake, try_except, await, decode, library.
      unfold bind at 1. unfold bind at 1. rewrite Hdec.
      cbn [dispatch]. destruct (is_JSONDecodeError e); [apply Hnone|].
      cbn [dispatch]. unfold raise at 1. cbn [dispatch].
      destruct (is_TimeoutError e); apply Hnone.
  - unfold handshake, try_except, await, bind. cbn [dispatch].
    destruct (is_TimeoutError e); apply Hnone.
Qed.

(** Every message is a handshake without configuration, decodes to an
    object, or makes the decoder raise something else than
    [JSONDecodeError]. *)
Lemma message_cases (m : message) :
  no_config (Return m)
  \/ (exists d, json_loads m = Return (JDict d))
  \/ (exists e, json_loads m = Raise e /\ is_JSONDecodeError e = false).
Proof.
  destruct (json_loads m) as [v|e] eqn:Hdec.
  - destruct v; try (left; eapply not_object; [exact Hdec|discriminate]).
    right. left. now exists d.
  - destruct e; try (right; right; eexists; split; [reflexivity|reflexivity]).
    left. now apply not_json.
Qed.

Lemma receive_iteration_timeout (st : session) :
  receive_iteration (Raise TimeoutError) st = (Return NextIteration, st).
Proof. reflexivity. Qed.

Lemma receive_iteration_failure (e : exn) (st : session) :
  is_TimeoutError e = false ->
  receive_iteration (Raise e) st = (Return BreakLoop, set_running st false).
Proof. intros He. destruct e; try discriminate; reflexivity. Qed.

(** An iteration of the receiver on a message: what leaves the inner
    [try] block is caught by the clauses of the outer one. *)
Lemma receive_iteration_message (m : message) (st st' : session)
    (r : outcome bool) :
  receive_message m st = (r, st') ->
  receive_iteration (Return m) st
  = match r with
    | Return _ => (Return NextIteration, st')
    | Raise e =>
        if is_TimeoutError e then (Return NextIteration, st')
        else (Return BreakLoop, set_running st' false)
    end.
Proof.
  intros H. unfold receive_iteration, try_except, await.
  unfold bind at 1. unfold bind at 1. rewrite H.
  destruct r as [c|e]; [reflexivity|]. destruct e; reflexivity.
Qed.

Lemma send_end_returns (t0 now : float) (st : session) :
  send_end t0 (Return tt) now st
  = (Return NextIteration,
     set_sender st (SenderSleeping (wait (f64_sub now t0)))).
Proof. reflexivity. Qed.

Lemma send_end_failure (t0 now : float) (e : exn) (st : session) :
  send_end t0 (Raise e) now st = (Return BreakLoop, set_running st false).
Proof. destruct e; reflexivity. Qed.

(** The first part of a tick on a session in order: the frame is
    computed, the payload is handed to the transport and the coroutine
    waits for the send. *)
Lemma send_begin_returns (now now' : float) (st : session) :
  config_ok st ->
  exists frame,
    get_frame (sensor st) (gen st)
    = (Return frame,
       set_t (sensor st) (f64_add (t (sensor st)) (decimal 5 100)),
       snd (draw_matrix zero (noise_std (sensor st)) (rows (sensor st))
              (cols (sensor st)) (gen st)))
    /\ has_shape (rows (sensor st)) (cols (sensor st)) frame = true
    /\ send_begin now now' st
       = (Return NextIteration,
          set_sender
            (push_sent
               (set_gen
                  (set_sensor st
                     (set_t (sensor st)
                        (f64_add (t (sensor st)) (decimal 5 100))))
                  (snd (draw_matrix zero (noise_std (sensor st))
                          (rows (sensor st)) (cols (sensor st)) (gen st))))
               (payload st now' frame))
            (SenderSending now)).
Proof.
  intros ((_ & _ & Hwf & _) & _).
  pose proof (get_frame_returns (sensor st) (gen st) Hwf) as Hget.
  cbn zeta in Hget.
  eexists. split; [exact Hget|]. split.
  - apply andb_true_iff in Hwf as [Hs _].
    apply has_shape_map2_matrix; [apply has_shape_map2_matrix|].
    + now rewrite has_shape_map_matrix.
    + rewrite has_shape_map_matrix. apply has_shape_draw_matrix.
    + now apply offset_shape.
  - unfold send_begin, try_except, sensor_get_frame.
    unfold bind at 1. rewrite Hget. reflexivity.
Qed.

(** *** The invariant of a session *)

Lemma sensor_ok_set_t (self : SimulatedSensor) (v : float) :
  sensor_ok self -> sensor_ok (set_t self v).
Proof. trivial. Qed.

Lemma settle_ok (st : session) : session_ok st -> session_ok (settle st).
Proof.
  intros [Hc Hk]. unfold settle.
  destruct (sender st) eqn:Hs; try (now split).
  destruct (receiver st) eqn:Hr; now split.
Qed.

Lemma settle_running (st : session) :
  control_ok st -> running (settle st) = running st.
Proof.
  intros (Hs & _). unfold settle.
  destruct (sender st) eqn:Hsd; trivial.
  destruct (receiver st); trivial. session_simpl.
  symmetry. now apply Hs.
Qed.

Lemma sender_wakes_ok (now now' : float) (st : session) :
  session_ok st -> stage st = Streaming ->
  session_ok (sender_wakes now now' st)
  /\ running (sender_wakes now now' st) = running st.
Proof.
  intros [Hc (Hs & Hr & Hcl & Hh)] Hst. unfold sender_wakes.
  destruct (running st) eqn:Hrun.
  - destruct (send_begin_returns now now' st Hc) as (frame & _ & _ & Hsend).
    rewrite Hsend. split; [|exact Hrun]. split.
    + destruct Hc as (Hok & Hm & Hf). split; [|now split].
      now apply sensor_ok_set_t.
    + control_tac.
  - split; [|exact Hrun]. split; [exact Hc|].
    control_tac.
Qed.

Lemma send_completes_ok (t0 : float) (r : outcome unit) (now : float)
    (st : session) :
  session_ok st -> stage st = Streaming ->
  session_ok (send_completes t0 r now st).
Proof.
  intros [Hc (Hs & Hr & Hcl & Hh)] Hst. unfold send_completes.
  destruct r as [[]|e].
  - rewrite send_end_returns. split; [exact Hc|].
    control_tac.
  - rewrite send_end_failure. split; [exact Hc|].
    control_tac.
Qed.

Lemma receiver_test_ok (st : session) :
  session_ok st -> stage st = Streaming ->
  session_ok (receiver_test st)
  /\ running (receiver_test st) = running st.
Proof.
  intros [Hc (Hs & Hr & Hcl & Hh)] Hst. unfold receiver_test.
  destruct (running st) eqn:Hrun; (split; [|exact Hrun]);
    (split; [exact Hc|]); control_tac.
Qed.

(** A received message leaves the session in order, and the flag
    [running] as it was, whatever the inner [try] block returned or
    raised. *)
Lemma receive_message_ok (m : message) (st : session) :
  session_ok st -> stage st = Streaming ->
  exists r st',
    receive_message m st = (r, st')
    /\ session_ok st' /\ stage st' = Streaming
    /\ running st' = running st /\ sender st' = sender st
    /\ receiver st' = receiver st /\ sent st' = sent st.
Proof.
  intros [Hc Hk] Hst.
  destruct (receive_message_any m st Hc) as (r & rm & rf & Hrecv & Hrm & Hrf).
  destruct (apply_request_control rm rf st)
    as (Hrun & Hsd & Hrc & Hsg & _ & Hsent).
  destruct (apply_request_ok rm rf st Hc Hrm Hrf) as (Hc' & _).
  exists r, (apply_request rm rf st). split; [exact Hrecv|].
  split; [|repeat split; congruence].
  split; [exact Hc'|]. unfold control_ok.
  rewrite Hrun, Hsd, Hrc, Hsg. exact Hk.
Qed.

Lemma recv_completes_ok (r : outcome message) (st : session) :
  session_ok st -> stage st = Streaming ->
  session_ok (recv_completes r st).
Proof.
  intros Hok Hst. unfold recv_completes.
  assert (Hdown : forall x, session_ok x -> stage x = Streaming ->
            session_ok (set_receiver (set_running x false) ReceiverDone)).
  { intros x [Hc (Hs & Hr & Hcl & Hh)] Hx. split; [exact Hc|]. control_tac. }
  destruct r as [m|e].
  - destruct (receive_message_ok m st Hok Hst)
      as (r & st' & Hrecv & Hok' & Hst' & _).
    rewrite (receive_iteration_message m st st' r Hrecv).
    destruct r as [c|e]; [now apply receiver_test_ok|].
    destruct (is_TimeoutError e); [now apply receiver_test_ok|].
    now apply Hdown.
  - destruct (is_TimeoutError e) eqn:He.
    + destruct e; try discriminate. rewrite receive_iteration_timeout.
      now apply receiver_test_ok.
    + rewrite (receive_iteration_failure e st He). now apply Hdown.
Qed.

Lemma handshake_step_ok (r : outcome message) (st : session) :
  session_ok st -> stage st = Handshake ->
  session_ok
    (match handshake r st with
     | (Return _, st') => set_stage st' Streaming
     | (Raise _, st') => set_stage (set_running st' false) Closed
     end).
Proof.
  intros [Hc (Hs & Hr & Hcl & Hh)] Hst.
  destruct (handshake_any r st Hc) as (r' & rm & rf & -> & Hrm & Hrf).
  destruct (apply_request_control rm rf st) as (Hrun & Hsd & Hrc & _).
  destruct (apply_request_ok rm rf st Hc Hrm Hrf) as (Hc' & _).
  destruct r' as [[]|e]; (split; [exact Hc'|]).
  - rewrite <- Hrun, <- Hsd, <- Hrc in *. control_tac.
  - control_tac.
Qed.

(** Every step keeps the session in order. *)
Lemma step_ok (ev : event) (st : session) :
  session_ok st -> session_ok (step ev st).
Proof.
  intros Hok. unfold step.
  destruct (stage st) eqn:Hst; trivial.
  - destruct ev; trivial. now apply handshake_step_ok.
  - destruct ev; trivial.
    + destruct (sender st); trivial;
        now apply settle_ok, sender_wakes_ok.
    + destruct (sender st); trivial.
      now apply settle_ok, send_completes_ok.
    + destruct (receiver st); trivial.
      now apply settle_ok, receiver_test_ok.
    + destruct (receiver st); trivial.
      now apply settle_ok, recv_completes_ok.
Qed.

Lemma run_ok (evs : list event) (st : session) :
  session_ok st -> session_ok (run evs st).
Proof.
  revert st. induction evs as [|ev evs IH]; intros st Hok; [exact Hok|].
  apply IH, step_ok, Hok.
Qed.

Lemma connect_ok (g0 : rng) (st : session) :
  connect g0 = Return st ->
  session_ok st /\ stage st = Handshake /\ running st = true
  /\ current_simulation_mode st = "baja_diferencia"
  /\ current_foot st = "izquierdo"
  /\ sender st = SenderReady /\ receiver st = ReceiverReady
  /\ sent st = [] /\ gen st = g0.
Proof.
  unfold connect.
  destruct (new_sensor "pie_izquierdo.png") as [self|e] eqn:Hnew;
    [|discriminate].
  destruct (new_sensor_ok _ _ Hnew) as (Hr & Hc & Hwf & Hm & Hf & Hp).
  pose proof (set_config_current self true true) as Hset.
  cbn iota in Hset. rewrite Hm, Hf in Hset. rewrite Hset.
  intros [= <-]. session_simpl.
  split; [|now repeat split].
  split.
  - split; [|split; session_simpl; assumption].
    session_simpl. unfold sensor_ok. rewrite Hm, Hf, Hp. now repeat split.
  - control_tac.
Qed.

Lemma settle_fields (st : session) :
  sender (settle st) = sender st /\ receiver (settle st) = receiver st
  /\ sent (settle st) = sent st /\ sensor (settle st) = sensor st
  /\ current_simulation_mode (settle st) = current_simulation_mode st
  /\ current_foot (settle st) = current_foot st.
Proof.
  unfold settle.
  destruct (sender st) eqn:Hs, (receiver st) eqn:Hr; session_simpl;
    rewrite ?Hs, ?Hr; now repeat split.
Qed.

(** *** The cadence of the sender *)

Lemma py_max_zero_sign (x : float) :
  is_nan (py_max zero x) = false /\ signbit (py_max zero x) = false
  /\ ltb (py_max zero x) zero = false.
Proof.
  unfold py_max, ltb, SFltb, zero.
  destruct x as [s|s| |s m e]; try (now repeat split);
    destruct s; now repeat split.
Qed.

(** Three ticks: 0.1 s, 0.25 s and 0.3 s of work. *)
Example wait_examples :
  wait (decimal 1 10) = decimal 15 100
  /\ wait (decimal 25 100) = zero
  /\ wait (decimal 3 10) = zero.
Proof. repeat split; vm_compute; reflexivity. Qed.

(** C8.  The period is a quarter of a second, the wait computed at the
    end of a tick is [max(0, period - elapsed)], and it is never negative:
    it is the difference when the difference is positive and zero
    otherwise.  The sender sleeps for that time after a send. *)
Theorem wait_clamped (elapsed : float) :
  INTERVAL = S754_finite false 4503599627370496 (-54)
  /\ wait elapsed = py_max zero (f64_sub INTERVAL elapsed)
  /\ (ltb zero (f64_sub INTERVAL elapsed) = true ->
      wait elapsed = f64_sub INTERVAL elapsed)
  /\ (ltb zero (f64_sub INTERVAL elapsed) = false -> wait elapsed = zero)
  /\ ltb (wait elapsed) zero = false
  /\ is_nan (wait elapsed) = false
  /\ signbit (wait elapsed) = false
  /\ (forall (st : session) (t0 now : float),
      stage st = Streaming -> sender st = SenderSending t0 ->
      f64_sub now t0 = elapsed ->
      sender (step (SendCompletes (Return tt) now) st)
      = SenderSleeping (wait elapsed)).
Proof.
  destruct (py_max_zero_sign (f64_sub INTERVAL elapsed)) as (Hnan & Hsign & Hlt).
  split; [reflexivity|]. split; [reflexivity|].
  split; [|split; [|split; [|split; [|split]]]]; trivial.
  - unfold wait, py_max. now intros ->.
  - unfold wait, py_max. now intros ->.
  - intros st t0 now Hst Hsd <-. unfold step. rewrite Hst, Hsd.
    rewrite (proj1 (settle_fields _)). reflexivity.
Qed.

(** *** Configuration messages *)

(** X16.  In [set_config] an unknown mode (or foot) has the effect of
    no mode (or foot) at all: nothing changes and [False] is returned
    when the other field is absent or unknown as well, and a valid value
    in the other field is applied. *)
Theorem set_config_ignores_invalid (bad_mode bad_foot : string)
    (self : SimulatedSensor) :
  str_in bad_mode VALID_SIMULATION_MODES = false ->
  str_in bad_foot VALID_FEET = false ->
  (forall f, set_config (Some bad_mode) f self = set_config None f self)
  /\ (forall m', set_config m' (Some bad_foot) self = set_config m' None self)
  /\ set_config (Some bad_mode) (Some bad_foot) self = (Return false, self)
  /\ (forall f, str_in f VALID_FEET = true ->
      foot (snd (set_config (Some bad_mode) (Some f) self)) = f
      /\ simulation_mode (snd (set_config (Some bad_mode) (Some f) self))
         = simulation_mode self)
  /\ (forall s, str_in s VALID_SIMULATION_MODES = true ->
      set_config (Some s) (Some bad_foot) self
      = (Return (negb (simulation_mode self =? s)),
         if simulation_mode self =? s then self
         else set_simulation_mode self s)).
Proof.
  intros Hbm Hbf.
  assert (Hmode : forall f, set_config (Some bad_mode) f self
                            = set_config None f self).
  { intros f. rewrite (set_config_parts (Some bad_mode)).
    rewrite (mode_part_invalid bad_mode self Hbm). cbn [fst snd orb].
    destruct (set_config None f self) as [[c|e] s']; reflexivity. }
  assert (Hfoot : forall m', set_config m' (Some bad_foot) self
                             = set_config m' None self).
  { intros m'. rewrite (set_config_parts m' (Some bad_foot)).
    rewrite (set_config_parts m' None).
    rewrite (set_config_foot_invalid bad_foot _ Hbf).
    now rewrite set_config_foot_none. }
  split; [exact Hmode|]. split; [exact Hfoot|].
  split; [now rewrite Hmode, (Hfoot None)|]. split.
  - intros f Hf. rewrite Hmode.
    destruct (foot self =? f) eqn:Hsame.
    + apply String.eqb_eq in Hsame. subst f.
      now rewrite set_config_foot_same.
    + rewrite (set_config_foot_new f self Hf Hsame).
      destruct (image_map f =? image_path self); [now split|].
      destruct (load_log_load (image_map f)
                  (set_image_path (set_foot self f) (image_map f)))
        as (_ & Hf' & _ & Hm').
      destruct (_load_image _ _) as [[[]|e] s3]; now split.
  - intros s0 Hs. rewrite Hfoot, set_config_parts, set_config_foot_none.
    destruct (mode_part_valid s0 self Hs) as [_ Hc]. rewrite Hc, orb_false_r.
    f_equal. unfold mode_part. fold VALID_SIMULATION_MODES. rewrite Hs.
    assert (Ht : truthy (Some s0) = true)
      by (destruct (valid_mode_cases s0 Hs) as [-> | ->]; reflexivity).
    rewrite Ht. cbn [andb]. now destruct (simulation_mode self =? s0).
Qed.

Lemma rejected_invalid (key : string) (valid : list string)
    (d : list (string * json)) (v : json) :
  dict_get key d = Some v -> valid_enum v valid = None ->
  rejected key valid d = Some v /\ requested key valid d = None.
Proof. intros Hk Hv. unfold rejected, requested. now rewrite Hk, Hv. Qed.

(** X17.  In the receiver, in any state that a session reaches, an
    unknown value under a key that the standard output can print leaves
    the configuration of that key as it was, in the handler and in the
    sensor, and the value under the other key is applied as if it had
    come alone; nothing changes when both are unknown.  An unknown mode
    that cannot be printed ends the iteration with [running] down, before
    the other key is looked at. *)
Theorem receiver_ignores_invalid (vm vf : json) (g0 : rng) (st0 : session)
    (evs : list event) (m : message) (d : list (string * json)) :
  valid_enum vm VALID_SIMULATION_MODES = None ->
  valid_enum vf VALID_FEET = None ->
  connect g0 = Return st0 ->
  json_loads m = Return (JDict d) ->
  let st := run evs st0 in
  let rm := requested "simulation_mode" VALID_SIMULATION_MODES d in
  let rf := requested "foot" VALID_FEET d in
  (dict_get "simulation_mode" d = Some vm -> printable vm = true ->
   prints (rejected "foot" VALID_FEET d) = true -> loads rf = true ->
   receive_message m st = (Return (is_some rf), apply_request None rf st)
   /\ current_simulation_mode (apply_request None rf st)
      = current_simulation_mode st
   /\ simulation_mode (sensor (apply_request None rf st))
      = simulation_mode (sensor st)
   /\ (forall f, rf = Some f ->
       current_foot (apply_request None rf st) = f
       /\ foot (sensor (apply_request None rf st)) = f))
  /\ (dict_get "foot" d = Some vf -> printable vf = true ->
      prints (rejected "simulation_mode" VALID_SIMULATION_MODES d) = true ->
      receive_message m st = (Return (is_some rm), apply_request rm None st)
      /\ current_foot (apply_request rm None st) = current_foot st
      /\ foot (sensor (apply_request rm None st)) = foot (sensor st)
      /\ reloads (sensor st) (sensor (apply_request rm None st)) = 0
      /\ (forall s, rm = Some s ->
          current_simulation_mode (apply_request rm None st) = s
          /\ simulation_mode (sensor (apply_request rm None st)) = s))
  /\ (dict_get "simulation_mode" d = Some vm -> dict_get "foot" d = Some vf ->
      printable vm = true -> printable vf = true ->
      receive_message m st = (Return false, st))
  /\ (dict_get "simulation_mode" d = Some vm -> printable vm = false ->
      receive_message m st = (Raise UnicodeEncodeError, st)
      /\ receive_iteration (Return m) st
         = (Return BreakLoop, set_running st false)).
Proof.
  intros Hvm Hvf Hcon Hdec st rm rf.
  assert (Hok : config_ok st).
  { destruct (connect_ok g0 st0 Hcon) as (Hok0 & _).
    now destruct (run_ok evs st0 Hok0). }
  pose proof (receive_message_dict m d st Hok Hdec) as Hrecv.
  cbn zeta in Hrecv. fold rm in Hrecv. fold rf in Hrecv.
  assert (Hrm_valid : forall s, rm = Some s ->
            str_in s VALID_SIMULATION_MODES = true)
    by (intros s; apply requested_valid).
  assert (Hrf_valid : forall f, rf = Some f -> str_in f VALID_FEET = true)
    by (intros f; apply requested_valid).
  split; [|split; [|split]].
  - intros Hkey Hp Hpf Hl.
    destruct (rejected_invalid _ _ d vm Hkey Hvm) as [Hrej Hnone].
    fold rm in Hnone. rewrite Hrej in Hrecv. specialize (Hrecv Hp Hpf Hl).
    rewrite Hnone in Hrecv. cbn [is_some orb] in Hrecv.
    split; [exact Hrecv|].
    destruct (apply_request_ok None rf st Hok) as ((_ & Hm' & Hf') & Hcm & Hcf);
      [discriminate|exact Hrf_valid|].
    destruct Hok as (_ & Hm0 & _).
    split; [exact Hcm|]. split; [congruence|].
    intros f Hrf. rewrite Hrf in *. split; [exact Hcf|congruence].
  - intros Hkey Hp Hpm.
    destruct (rejected_invalid _ _ d vf Hkey Hvf) as [Hrej Hnone].
    fold rf in Hnone. rewrite Hrej in Hrecv.
    rewrite Hnone in Hrecv. specialize (Hrecv Hpm Hp eq_refl).
    rewrite orb_false_r in Hrecv.
    split; [exact Hrecv|].
    destruct (apply_request_ok rm None st Hok) as ((_ & Hm' & Hf') & Hcm & Hcf);
      [exact Hrm_valid|discriminate|].
    pose proof Hok as (Hsok & _ & Hf0).
    split; [exact Hcf|]. split; [congruence|]. split.
    + unfold apply_request, reloads. destruct rm as [s0|]; [|simpl; lia].
      unfold apply_mode. session_simpl.
      destruct (set_config_mode_ok s0 (sensor st) Hsok (Hrm_valid s0 eq_refl))
        as (Hset & _). rewrite Hset. cbn [snd].
      destruct (mode_part_frame (Some s0) (sensor st))
        as (_ & _ & _ & _ & _ & _ & _ & _ & _ & Hlog).
      rewrite Hlog. lia.
    + intros s0 Hrm. rewrite Hrm in *. split; [exact Hcm|congruence].
  - intros Hkm Hkf Hpm Hpf.
    destruct (rejected_invalid _ _ d vm Hkm Hvm) as [Hrejm Hnm].
    destruct (rejected_invalid _ _ d vf Hkf Hvf) as [Hrejf Hnf].
    fold rm in Hnm. fold rf in Hnf.
    rewrite Hrejm, Hrejf, Hnm, Hnf in Hrecv. now apply Hrecv.
  - intros Hkey Hp.
    destruct (rejected_invalid _ _ d vm Hkey Hvm) as [Hrej _].
    assert (Hraise : receive_message m st = (Raise UnicodeEncodeError, st)).
    { apply (receive_message_unprintable_mode m d st Hok Hdec).
      now rewrite Hrej. }
    split; [exact Hraise|].
    now rewrite (receive_iteration_message m st st _ Hraise).
Qed.

(** *** The handshake *)

(** X18.  A session starts with the low difference and the left foot.
    When no message arrives within the second, or the decoder raises
    [JSONDecodeError], or the message is JSON but not an object, the
    handshake changes nothing and the session goes on to stream with
    [running] up.  When the message is an object and the image of the
    requested foot can be loaded, the valid values under
    ["simulation_mode"] and ["foot"] become the configuration of the
    handler and of the sensor before any frame is sent; a key that is
    absent or carries an unknown value keeps its default.  When the
    decoder raises something else, the session is closed with [running]
    down. *)
Theorem handshake_outcomes (g0 : rng) (st : session) :
  connect g0 = Return st ->
  current_simulation_mode st = mode_name LowDiff
  /\ current_foot st = foot_name Left
  /\ simulation_mode (sensor st) = mode_name LowDiff
  /\ foot (sensor st) = foot_name Left
  /\ running st = true
  /\ (forall r, no_config r ->
      step (InitialMessage r) st = set_stage st Streaming)
  /\ (forall m d, json_loads m = Return (JDict d) ->
      let rm := requested "simulation_mode" VALID_SIMULATION_MODES d in
      let rf := requested "foot" VALID_FEET d in
      let st' := step (InitialMessage (Return m)) st in
      loads rf = true ->
      st' = set_stage (apply_request rm rf st) Streaming
      /\ stage st' = Streaming /\ running st' = true /\ sent st' = []
      /\ current_simulation_mode st'
         = match rm with Some s => s | None => mode_name LowDiff end
      /\ current_foot st'
         = match rf with Some f => f | None => foot_name Left end
      /\ simulation_mode (sensor st') = current_simulation_mode st'
      /\ foot (sensor st') = current_foot st')
  /\ (forall m e, json_loads m = Raise e ->
      is_JSONDecodeError e = false -> is_TimeoutError e = false ->
      step (InitialMessage (Return m)) st
      = set_stage (set_running st false) Closed).
Proof.
  intros Hcon.
  destruct (connect_ok g0 st Hcon)
    as ([Hc Hk] & Hst & Hrun & Hm & Hf & _ & _ & Hsent & _).
  pose proof Hc as (_ & Hsm & Hsf).
  split; [exact Hm|]. split; [exact Hf|].
  split; [now rewrite Hsm|]. split; [now rewrite Hsf|].
  split; [exact Hrun|]. split; [|split].
  - intros r Hno. unfold step. rewrite Hst.
    now rewrite (handshake_no_config r st Hno).
  - intros m d Hdec rm rf st' Hl.
    assert (Hst' : st' = set_stage (apply_request rm rf st) Streaming).
    { unfold st', step. rewrite Hst.
      destruct (handshake_dict m d st Hc Hdec) as (r & -> & Hret).
      now rewrite (Hret Hl). }
    destruct (apply_request_control rm rf st)
      as (Hrun' & _ & _ & _ & _ & Hsent').
    destruct (apply_request_ok rm rf st Hc) as ((_ & Hsm' & Hsf') & Hcm & Hcf).
    { intros s0. apply requested_valid. }
    { intros f0. apply requested_valid. }
    rewrite Hst'. session_simpl.
    split; [reflexivity|]. split; [reflexivity|].
    split; [congruence|]. split; [congruence|].
    split; [now rewrite Hcm, Hm|]. split; [now rewrite Hcf, Hf|].
    now split.
  - intros m e Hdec He Ht. unfold step. rewrite Hst.
    now rewrite (handshake_undecodable m e st Hdec He Ht).
Qed.

(** *** Frames *)

(** C9.  In a session that streams, a tick of the sender hands to the
    transport one message that carries the configuration of the handler,
    which is that of the sensor, the second reading of the clock, the
    numbers of rows and columns of the sensor, and under ["data"] the
    frame that [get_frame] returns, row after row: [rows * cols]
    numbers. *)
Theorem frame_message (g0 : rng) (st0 : session) (evs : list event)
    (now now' : float) :
  connect g0 = Return st0 ->
  let st := run evs st0 in
  stage st = Streaming ->
  running st = true ->
  at_loop_test (sender st) = true ->
  exists frame self' g',
    get_frame (sensor st) (gen st) = (Return frame, self', g')
    /\ sent (step (SenderWakes now now') st)
       = JDict
           [("simulation_mode", JStr (current_simulation_mode st));
            ("foot", JStr (current_foot st));
            ("timestamp", JFloat now');
            ("rows", JInt (Z.of_nat (rows (sensor st))));
            ("cols", JInt (Z.of_nat (cols (sensor st))));
            ("data", JList (map JFloat (ravel (map_matrix to_f64 frame))))]
         :: sent st
    /\ has_shape (rows (sensor st)) (cols (sensor st)) frame = true
    /\ length (ravel (map_matrix to_f64 frame))
       = rows (sensor st) * cols (sensor st)
    /\ current_simulation_mode st = simulation_mode (sensor st)
    /\ current_foot st = foot (sensor st)
    /\ str_in (current_simulation_mode st) VALID_SIMULATION_MODES = true
    /\ str_in (current_foot st) VALID_FEET = true.
Proof.
  intros Hcon st Hst Hrun Hpc.
  destruct (connect_ok g0 st0 Hcon) as (Hok0 & _).
  pose proof (run_ok evs st0 Hok0) as [Hc Hk]. fold st in Hc, Hk.
  destruct (send_begin_returns now now' st Hc) as (frame & Hget & Hshape & Hsend).
  exists frame. eexists _, _. split; [exact Hget|].
  destruct Hc as ((_ & _ & _ & Hvm & Hvf & _) & Hsm & Hsf).
  split; [|split; [exact Hshape|split; [|split; [|split; [|split]]]]];
    try congruence.
  - unfold step. rewrite Hst.
    assert (Hwake : sent (settle (sender_wakes now now' st))
                    = payload st now' frame :: sent st).
    { rewrite (proj1 (proj2 (proj2 (settle_fields _)))).
      unfold sender_wakes. rewrite Hrun, Hsend. reflexivity. }
    destruct (sender st); try discriminate; exact Hwake.
  - apply length_ravel. now rewrite has_shape_map_matrix.
Qed.

(** *** The stop signal *)

Lemma step_closed (ev : event) (st : session) :
  stage st = Closed -> step ev st = st.
Proof. intros H. unfold step. now rewrite H. Qed.

(** A step leaves [running] as it is, unless it delivers a failure of the
    transport or the handling of the message that it delivers fails; both
    lower it. *)
Lemma step_running (ev : event) (st : session) :
  session_ok st ->
  running (step ev st) = running st
  \/ (running (step ev st) = false
      /\ (transport_failure ev = true \/ handling_fails ev st = true)).
Proof.
  intros Hok. pose proof Hok as [Hc Hk]. unfold step.
  destruct (stage st) eqn:Hst; [| |now left].
  - destruct ev as [r| | | |]; try now left.
    destruct r as [m|e].
    + unfold handling_fails.
      destruct (handshake_any (Return m) st Hc) as (r & rm & rf & -> & _).
      cbn [fst]. destruct r as [[]|e].
      * left. session_simpl. apply apply_request_control.
      * right. now split; [|right].
    + destruct (is_TimeoutError e) eqn:He.
      * left. destruct e; try discriminate. reflexivity.
      * right. rewrite (handshake_raise e st He). cbn [transport_failure].
        rewrite He. now split; [|left].
  - destruct ev as [r|now now'|r now| |r]; try now left.
    + destruct (sender_wakes_ok now now' st Hok Hst) as [[_ Hk'] Hrun].
      destruct (sender st); try (now left);
        left; now rewrite (settle_running _ Hk').
    + destruct (sender st) as [|t0| |]; try now left.
      pose proof (send_completes_ok t0 r now st Hok Hst) as [_ Hk'].
      rewrite (settle_running _ Hk'). unfold send_completes.
      destruct r as [[]|e].
      * left. now rewrite send_end_returns.
      * right. rewrite send_end_failure. now split; [|left].
    + destruct (receiver st); try now left.
      destruct (receiver_test_ok st Hok Hst) as [[_ Hk'] Hrun].
      left. now rewrite (settle_running _ Hk').
    + destruct (receiver st); try now left.
      pose proof (recv_completes_ok r st Hok Hst) as [_ Hk'].
      rewrite (settle_running _ Hk'). unfold recv_completes.
      destruct r as [m|e].
      * unfold handling_fails.
        destruct (receive_message_ok m st Hok Hst)
          as (r & st' & Hrecv & Hok' & Hst' & Hrun & _).
        rewrite (receive_iteration_message m st st' r Hrecv), Hrecv.
        cbn [fst].
        destruct (receiver_test_ok st' Hok' Hst') as [_ Hrun'].
        destruct r as [c|e]; [left; congruence|].
        destruct (is_TimeoutError e); [left; congruence|].
        right. now split; [|right].
      * destruct (is_TimeoutError e) eqn:He.
        -- left. destruct e; try discriminate.
           rewrite receive_iteration_timeout.
           now destruct (receiver_test_ok st Hok Hst) as [_ Hrun'].
        -- right. rewrite (receive_iteration_failure e st He).
           cbn [transport_failure]. rewrite He. now split; [|left].
Qed.

Lemma settle_settled (st : session) :
  stage st = Streaming ->
  stage (settle st) = Streaming ->
  sender (settle st) = SenderDone -> receiver (settle st) = ReceiverDone ->
  False.
Proof.
  intros Hst. unfold settle.
  destruct (sender st) eqn:Hs; session_simpl; try congruence.
  destruct (receiver st) eqn:Hr; session_simpl; congruence.
Qed.

Lemma sender_wakes_fields (now now' : float) (st : session) :
  session_ok st ->
  stage (sender_wakes now now' st) = stage st
  /\ receiver (sender_wakes now now' st) = receiver st
  /\ (running st = false ->
      sender (sender_wakes now now' st) = SenderDone
      /\ sent (sender_wakes now now' st) = sent st).
Proof.
  intros [Hc _]. unfold sender_wakes. destruct (running st).
  - destruct (send_begin_returns now now' st Hc) as (frame & _ & _ & Hsend).
    rewrite Hsend. now repeat split.
  - now repeat split.
Qed.

Lemma send_completes_fields (t0 : float) (r : outcome unit) (now : float)
    (st : session) :
  stage (send_completes t0 r now st) = stage st
  /\ receiver (send_completes t0 r now st) = receiver st
  /\ sent (send_completes t0 r now st) = sent st
  /\ (sender (send_completes t0 r now st) = SenderDone
      \/ exists d, sender (send_completes t0 r now st) = SenderSleeping d).
Proof.
  unfold send_completes. destruct r as [[]|e].
  - rewrite send_end_returns. repeat split. right. now eexists.
  - rewrite send_end_failure. repeat split. now left.
Qed.

Lemma receiver_test_fields (st : session) :
  stage (receiver_test st) = stage st
  /\ sender (receiver_test st) = sender st
  /\ sent (receiver_test st) = sent st
  /\ (running st = false -> receiver (receiver_test st) = ReceiverDone).
Proof. unfold receiver_test. destruct (running st); now repeat split. Qed.

Lemma recv_completes_fields (r : outcome message) (st : session) :
  session_ok st -> stage st = Streaming ->
  stage (recv_completes r st) = Streaming
  /\ sender (recv_completes r st) = sender st
  /\ sent (recv_completes r st) = sent st
  /\ (running st = false -> receiver (recv_completes r st) = ReceiverDone).
Proof.
  intros Hok Hst. unfold recv_completes. destruct r as [m|e].
  - destruct (receive_message_ok m st Hok Hst)
      as (r & st' & Hrecv & Hok' & Hst' & Hrun & Hsd & _ & Hsent).
    rewrite (receive_iteration_message m st st' r Hrecv).
    destruct (receiver_test_fields st') as (H1 & H2 & H3 & H4).
    assert (Hgo : stage (receiver_test st') = Streaming
              /\ sender (receiver_test st') = sender st
              /\ sent (receiver_test st') = sent st
              /\ (running st = false ->
                  receiver (receiver_test st') = ReceiverDone)).
    { repeat split; try congruence. intros Hr. apply H4. congruence. }
    destruct r as [c|e]; [exact Hgo|].
    destruct (is_TimeoutError e); [exact Hgo|].
    session_simpl. now repeat split.
  - destruct (is_TimeoutError e) eqn:He.
    + destruct e; try discriminate. rewrite receive_iteration_timeout.
      destruct (receiver_test_fields st) as (H1 & H2 & H3 & H4).
      repeat split; try congruence. exact H4.
    + rewrite (receive_iteration_failure e st He). now repeat split.
Qed.

Lemma settled_settle (st : session) :
  stage st = Streaming -> settled (settle st).
Proof.
  intros Hst. split.
  - intros H. exfalso. revert H. unfold settle.
    destruct (sender st), (receiver st); session_simpl; congruence.
  - now apply settle_settled.
Qed.

Lemma step_settled (ev : event) (st : session) :
  session_ok st -> settled st -> settled (step ev st).
Proof.
  intros Hok [Hh Hs]. pose proof Hok as [Hc Hk]. unfold step.
  destruct (stage st) eqn:Hst; [| |split; intros; congruence].
  - destruct (Hh eq_refl) as [Hsd Hrc].
    destruct ev as [r| | | |]; try (split; [intros _; now split|congruence]).
    assert (Hpc : forall st', sender st' = sender st ->
              receiver st' = receiver st ->
              settled (set_stage st' Streaming)
              /\ settled (set_stage (set_running st' false) Closed)).
    { intros st' H1 H2. split; (split; session_simpl; [discriminate|]);
        intros; congruence. }
    destruct (handshake_any r st Hc) as (r' & rm & rf & -> & _).
    destruct r' as [[]|e]; apply Hpc; apply apply_request_control.
  - assert (Hsame : settled st)
      by (split; [congruence|intros _; now apply Hs]).
    destruct ev as [r|now now'|r now| |r]; trivial.
    + destruct (sender_wakes_fields now now' st Hok) as (Hstage & _).
      destruct (sender st); trivial; apply settled_settle; congruence.
    + destruct (sender st) as [|t0| |]; trivial. apply settled_settle.
      destruct (send_completes_fields t0 r now st) as (Hstage & _). congruence.
    + destruct (receiver st); trivial. apply settled_settle.
      destruct (receiver_test_fields st) as (Hstage & _). congruence.
    + destruct (receiver st); trivial. apply settled_settle.
      now destruct (recv_completes_fields r st Hok Hst) as (Hstage & _).
Qed.

(** The state that a run from the start of a session reaches. *)
Lemma reachable_ok (g0 : rng) (st0 : session) (evs : list event) :
  connect g0 = Return st0 ->
  session_ok (run evs st0) /\ settled (run evs st0).
Proof.
  intros Hcon.
  destruct (connect_ok g0 st0 Hcon) as (Hok & Hst & _ & _ & _ & Hsd & Hrc & _).
  assert (Hset : settled st0) by (split; [now split|congruence]).
  clear Hcon Hst Hsd Hrc. revert st0 Hok Hset.
  induction evs as [|ev evs IH]; intros st0 Hok Hset; [now split|].
  apply IH; [now apply step_ok|now apply step_settled].
Qed.

Lemma settle_cases (st : session) :
  stage st = Streaming ->
  (finished (settle st) /\ sent (settle st) = sent st)
  \/ (settle st = st
      /\ (sender st = SenderDone -> receiver st = ReceiverDone -> False)).
Proof.
  intros Hst. unfold settle.
  destruct (sender st) eqn:Hs; try (right; split; [reflexivity|discriminate]).
  destruct (receiver st) eqn:Hr;
    try (right; split; [reflexivity|discriminate]).
  left. unfold finished. session_simpl. now repeat split.
Qed.

(** With [running] down, the sender leaves its loop when its pending
    send and its sleep are over. *)
Lemma stopped_send_completes (r : outcome unit) (now : float) (st : session) :
  stage st = Streaming ->
  let st' := step (SendCompletes r now) st in
  sent st' = sent st
  /\ (finished st'
      \/ (stage st' = Streaming /\ receiver st' = receiver st
          /\ forall t0, sender st' <> SenderSending t0)).
Proof.
  intros Hst st'. unfold st', step. rewrite Hst.
  destruct (sender st) as [|t0|d|] eqn:Hsd;
    try (split; [reflexivity|right; repeat split; trivial; congruence]).
  destruct (send_completes_fields t0 r now st) as (H1 & H2 & H3 & H4).
  destruct (settle_cases (send_completes t0 r now st)) as [[Hf Hs]|[-> _]];
    [congruence| |].
  - split; [congruence|now left].
  - split; [exact H3|]. right. split; [congruence|]. split; [exact H2|].
    intros t1. destruct H4 as [-> | [d ->]]; discriminate.
Qed.

Lemma stopped_sender_wakes (now now' : float) (st : session) :
  session_ok st -> stage st = Streaming -> running st = false ->
  (forall t0, sender st <> SenderSending t0) ->
  let st' := step (SenderWakes now now') st in
  sent st' = sent st
  /\ (finished st'
      \/ (stage st' = Streaming /\ sender st' = SenderDone
          /\ receiver st' = receiver st)).
Proof.
  intros Hok Hst Hrun Hpc st'. unfold st', step. rewrite Hst.
  destruct (sender_wakes_fields now now' st Hok) as (H1 & H2 & H3).
  destruct (H3 Hrun) as [H4 H5].
  assert (Hgo : sent (settle (sender_wakes now now' st)) = sent st
            /\ (finished (settle (sender_wakes now now' st))
                \/ (stage (settle (sender_wakes now now' st)) = Streaming
                    /\ sender (settle (sender_wakes now now' st)) = SenderDone
                    /\ receiver (settle (sender_wakes now now' st))
                       = receiver st))).
  { destruct (settle_cases (sender_wakes now now' st)) as [[Hf Hs]|[-> _]];
      [congruence| |].
    - split; [congruence|now left].
    - split; [exact H5|]. right. split; [congruence|]. now split. }
  destruct (sender st) as [|t0|d|] eqn:Hsd; trivial.
  - now elim (Hpc t0).
  - split; [reflexivity|]. right. now repeat split.
Qed.

Lemma stopped_receiver_starts (st : session) :
  settled st -> stage st = Streaming -> running st = false ->
  sender st = SenderDone ->
  let st' := step ReceiverStarts st in
  sent st' = sent st
  /\ (finished st'
      \/ (stage st' = Streaming /\ sender st' = SenderDone
          /\ receiver st' = ReceiverWaiting)).
Proof.
  intros [_ Hset] Hst Hrun Hsd st'. unfold st', step. rewrite Hst.
  destruct (receiver st) eqn:Hrc.
  - destruct (receiver_test_fields st) as (H1 & H2 & H3 & H4).
    specialize (H4 Hrun).
    destruct (settle_cases (receiver_test st)) as [[Hf Hs]|[_ Hno]];
      [congruence| |].
    + split; [congruence|now left].
    + exfalso. apply Hno; congruence.
  - split; [reflexivity|]. right. now repeat split.
  - now elim (Hset Hst Hsd).
Qed.

Lemma stopped_recv_completes (r : outcome message) (st : session) :
  session_ok st -> stage st = Streaming -> running st = false ->
  sender st = SenderDone -> receiver st = ReceiverWaiting ->
  let st' := step (RecvCompletes r) st in
  sent st' = sent st /\ finished st'.
Proof.
  intros Hok Hst Hrun Hsd Hrc st'. unfold st', step. rewrite Hst, Hrc.
  destruct (recv_completes_fields r st Hok Hst) as (H1 & H2 & H3 & H4).
  specialize (H4 Hrun).
  destruct (settle_cases (recv_completes r st)) as [[Hf Hs]|[_ Hno]];
    [exact H1| |].
  - split; [congruence|exact Hf].
  - exfalso. apply Hno; congruence.
Qed.

Lemma finished_step (ev : event) (st : session) :
  finished st -> step ev st = st.
Proof. intros [H _]. now apply step_closed. Qed.

(** Once [running] is down, the completion of what the two coroutines
    wait for ends the session, and no frame is produced on the way. *)
Lemma stopped_drains (st : session) (r : outcome unit) (now now1 now2 : float)
    (r' : outcome message) :
  session_ok st -> settled st -> stage st = Streaming -> running st = false ->
  let st' :=
    run [SendCompletes r now; SenderWakes now1 now2; ReceiverStarts;
         RecvCompletes r'] st in
  finished st' /\ sent st' = sent st.
Proof.
  intros Hok Hset Hst Hrun. cbn [run fold_left].
  assert (Hdown : forall ev x, session_ok x -> running x = false ->
            running (step ev x) = false).
  { intros ev x Hx Hr. destruct (step_running ev x Hx) as [H|[H _]]; congruence. }
  (* the pending send *)
  destruct (stopped_send_completes r now st Hst) as [Hs1 H1].
  pose proof (step_ok (SendCompletes r now) st Hok) as Hok1.
  pose proof (step_settled (SendCompletes r now) st Hok Hset) as Hset1.
  pose proof (Hdown (SendCompletes r now) st Hok Hrun) as Hrun1.
  set (st1 := step (SendCompletes r now) st) in *.
  destruct H1 as [Hf|(Hst1 & _ & Hpc1)].
  { rewrite !(finished_step _ st1 Hf). now split. }
  (* the loop test of the sender *)
  destruct (stopped_sender_wakes now1 now2 st1 Hok1 Hst1 Hrun1 Hpc1) as [Hs2 H2].
  pose proof (step_ok (SenderWakes now1 now2) st1 Hok1) as Hok2.
  pose proof (step_settled (SenderWakes now1 now2) st1 Hok1 Hset1) as Hset2.
  pose proof (Hdown (SenderWakes now1 now2) st1 Hok1 Hrun1) as Hrun2.
  set (st2 := step (SenderWakes now1 now2) st1) in *.
  destruct H2 as [Hf|(Hst2 & Hsd2 & _)].
  { rewrite !(finished_step _ st2 Hf). split; [exact Hf|congruence]. }
  (* the loop test of the receiver *)
  destruct (stopped_receiver_starts st2 Hset2 Hst2 Hrun2 Hsd2) as [Hs3 H3].
  pose proof (step_ok ReceiverStarts st2 Hok2) as Hok3.
  pose proof (Hdown ReceiverStarts st2 Hok2 Hrun2) as Hrun3.
  set (st3 := step ReceiverStarts st2) in *.
  destruct H3 as [Hf|(Hst3 & Hsd3 & Hrc3)].
  { rewrite !(finished_step _ st3 Hf). split; [exact Hf|congruence]. }
  (* the pending receive *)
  destruct (stopped_recv_completes r' st3 Hok3 Hst3 Hrun3 Hsd3 Hrc3) as [Hs4 Hf].
  split; [exact Hf|congruence].
Qed.

Lemma settle_running_down (st : session) :
  running st = false -> running (settle st) = false.
Proof.
  intros H. unfold settle. destruct (sender st); trivial.
  now destruct (receiver st).
Qed.

Lemma poll_timeout_noop (st : session) :
  stage st = Streaming -> receiver st = ReceiverWaiting -> running st = true ->
  step (RecvCompletes (Raise TimeoutError)) st = st.
Proof.
  intros Hst Hrc Hrun. unfold step. rewrite Hst, Hrc.
  unfold recv_completes. rewrite receive_iteration_timeout.
  unfold receiver_test. rewrite Hrun.
  assert (Hsame : set_receiver st ReceiverWaiting = st)
    by (destruct st; cbn in *; now subst).
  rewrite Hsame. unfold settle. rewrite Hrc. now destruct (sender st).
Qed.

(** X19.  In a session started by [connect]: a poll of the receiver that
    times out changes nothing, the receiver polls again; [running] falls
    only when the transport fails, that is when a receive raises
    something other than a timeout or a send raises, or when the handling
    of a delivered message fails; a failure of the transport seen by
    either loop does lower it, and so does a message whose handling
    raises something other than a timeout; once down it stays down, and
    the completion of what the two loops wait for makes both leave and
    finishes the session without another frame. *)
Theorem stop_signal (g0 : rng) (st0 : session) (evs : list event) :
  connect g0 = Return st0 ->
  let st := run evs st0 in
  (stage st = Streaming -> receiver st = ReceiverWaiting ->
   running st = true ->
   step (RecvCompletes (Raise TimeoutError)) st = st)
  /\ (forall ev, running st = true -> running (step ev st) = false ->
      transport_failure ev = true \/ handling_fails ev st = true)
  /\ (stage st = Streaming -> receiver st = ReceiverWaiting ->
      forall e, is_TimeoutError e = false ->
      running (step (RecvCompletes (Raise e)) st) = false)
  /\ (stage st = Streaming -> receiver st = ReceiverWaiting ->
      forall m e, fst (receive_message m st) = Raise e ->
      is_TimeoutError e = false ->
      running (step (RecvCompletes (Return m)) st) = false)
  /\ (stage st = Streaming ->
      forall t0 e now, sender st = SenderSending t0 ->
      running (step (SendCompletes (Raise e) now) st) = false)
  /\ (running st = false -> forall ev, running (step ev st) = false)
  /\ (stage st = Streaming -> running st = false ->
      forall r now now1 now2 r',
      let st' :=
        run [SendCompletes r now; SenderWakes now1 now2; ReceiverStarts;
             RecvCompletes r'] st in
      finished st' /\ sent st' = sent st).
Proof.
  intros Hcon st.
  destruct (reachable_ok g0 st0 evs Hcon) as [Hok Hset]. fold st in Hok, Hset.
  split; [apply poll_timeout_noop|].
  split; [|split; [|split; [|split; [|split]]]].
  - intros ev Hup Hdown.
    destruct (step_running ev st Hok) as [H|[_ H]]; [congruence|exact H].
  - intros Hst Hrc e He. unfold step. rewrite Hst, Hrc.
    apply settle_running_down. unfold recv_completes.
    now rewrite (receive_iteration_failure e st He).
  - intros Hst Hrc m e Hraise He. unfold step. rewrite Hst, Hrc.
    apply settle_running_down. unfold recv_completes.
    destruct (receive_message m st) as [r st'] eqn:Hrecv.
    cbn [fst] in Hraise. subst r.
    now rewrite (receive_iteration_message m st st' _ Hrecv), He.
  - intros Hst t0 e now Hsd. unfold step. rewrite Hst, Hsd.
    apply settle_running_down. unfold send_completes.
    now rewrite send_end_failure.
  - intros Hdown ev.
    destruct (step_running ev st Hok) as [H|[H _]]; congruence.
  - intros Hst Hdown r now now1 now2 r'.
    now apply stopped_drains.
Qed.

End HandlerFacts.

(** ** The statements at work on the example environment *)

Lemma offset_map_exact_witness :
  let self := Example.left_sensor in
  simulation_mode self = mode_name LowDiff
  /\ foot self = foot_name Left
  /\ has_shape (rows self) (cols self) (base self) = true
  /\ 1 < rows self /\ 2 < cols self
  /\ pixel (_calculate_temperature_offset self) 1 2
     = Some (spec_offset LowDiff Left).
Proof.
  cbn zeta.
  assert (H1 : simulation_mode Example.left_sensor = mode_name LowDiff)
    by reflexivity.
  assert (H2 : foot Example.left_sensor = foot_name Left) by reflexivity.
  assert (H3 : has_shape (rows Example.left_sensor) (cols Example.left_sensor)
                 (base Example.left_sensor) = true)
    by (vm_compute; reflexivity).
  assert (H4 : 1 < rows Example.left_sensor) by (vm_compute; lia).
  assert (H5 : 2 < cols Example.left_sensor) by (vm_compute; lia).
  repeat (split; [assumption|]).
  exact (proj2 (offset_map_exact Example.left_sensor LowDiff Left 1 2
                  H1 H2 H3 H4 H5)).
Defined.

(** The cell in the last row and column of the example sensor:
    [38 + 0.3 * 0.05 + 0.15 - 0.3], in double precision. *)
Lemma get_frame_spec_witness :
  let self := Example.left_sensor in
  has_shape (rows self) (cols self) (base self) = true
  /\ scale_ok (noise_std self) = true
  /\ exists frame,
       fst (fst (get_frame (E := Example.env) self 0)) = Return frame
       /\ length (ravel frame) = 6
       /\ pixel (base self) 1 2 = Some (f32_of_Z 38)
       /\ pixel frame 1 2 = Some (S754_finite false 5329024995735634 (-47)).
Proof.
  cbn zeta.
  assert (H : has_shape (rows Example.left_sensor) (cols Example.left_sensor)
                (base Example.left_sensor) = true)
    by (vm_compute; reflexivity).
  assert (Hn : scale_ok (noise_std Example.left_sensor) = true)
    by (vm_compute; reflexivity).
  split; [exact H|]. split; [exact Hn|].
  destruct (get_frame_spec (E := Example.env) Example.left_sensor 0 H)
    as (_ & _ & Hret & _).
  destruct (Hret Hn) as (frame & Hget & _ & Hlen & Hpix).
  destruct (Hpix 1 2) as (b & Hb & Hp); [vm_compute; lia|vm_compute; lia|].
  exists frame. rewrite Hget.
  split; [reflexivity|]. split; [exact Hlen|].
  split; [vm_compute; reflexivity|].
  rewrite Hp. vm_compute in Hb. injection Hb as <-.
  vm_compute. reflexivity.
Defined.

(** A sensor built with a negative noise level: [get_frame] raises. *)
Lemma get_frame_negative_noise :
  let self :=
    Example.built
      (__init__ (E := Example.env) "pie_izquierdo.png" 2 3 (of_Z 28)
         (of_Z 38) (SFopp (decimal 15 100))) in
  __init__ (E := Example.env) "pie_izquierdo.png" 2 3 (of_Z 28) (of_Z 38)
    (SFopp (decimal 15 100)) = Return self
  /\ has_shape (rows self) (cols self) (base self) = true
  /\ fst (fst (get_frame (E := Example.env) self 0)) = Raise ValueError
  /\ t (snd (fst (get_frame (E := Example.env) self 0))) = decimal 5 100.
Proof. cbn zeta. repeat split; vm_compute; reflexivity. Qed.

Lemma set_config_new_foot_witness :
  let self := Example.left_sensor in
  str_in "derecho" VALID_FEET = true
  /\ (foot self =? "derecho") = false
  /\ reloads self
       (snd (set_config (E := Example.env) None (Some "derecho") self)) = 1.
Proof.
  cbn zeta.
  assert (H1 : str_in "derecho" VALID_FEET = true) by reflexivity.
  assert (H2 : (foot Example.left_sensor =? "derecho") = false) by reflexivity.
  split; [exact H1|]. split; [exact H2|].
  destruct (set_config_new_foot (E := Example.env) Example.left_sensor None
              "derecho" H1 H2) as (_ & _ & _ & Hre & _).
  rewrite Hre. reflexivity.
Defined.

(** The foot changes and nothing is loaded: the sensor built on the image
    of the right foot already has the file of that foot in place. *)
Lemma foot_change_without_reload :
  exists self,
    Example.small "pie_derecho.png" = Return self
    /\ str_in "derecho" VALID_FEET = true
    /\ (foot self =? "derecho") = false
    /\ set_config (E := Example.env) None (Some "derecho") self
       = (Return true, set_foot self "derecho")
    /\ reloads self (set_foot self "derecho") = 0
    /\ base (set_foot self "derecho") = base self
    /\ reloads self
         (snd (set_config (E := Example.env) None (Some "derecho")
                 (set_foot self "derecho"))) = 0.
Proof.
  exists Example.right_image_sensor. vm_compute. repeat split.
Qed.

Lemma frame_message_witness :
  let st := run [InitialMessage (Return Example.msg_right)] Example.session0 in
  connect (E := Example.env) 0 = Return Example.session0
  /\ stage st = Streaming
  /\ running st = true
  /\ at_loop_test (sender st) = true
  /\ exists data,
       sent (step (SenderWakes (of_Z 100) (of_Z 101)) st)
       = [JDict [("simulation_mode", JStr "baja_diferencia");
                 ("foot", JStr "derecho");
                 ("timestamp", JFloat (of_Z 101));
                 ("rows", JInt 32); ("cols", JInt 24);
                 ("data", JList (map JFloat data))]]
       /\ length data = 768.
Proof.
  cbn zeta.
  assert (H : connect (E := Example.env) 0 = Return Example.session0)
    by (vm_compute; reflexivity).
  assert (H1 : stage (run [InitialMessage (Return Example.msg_right)]
                        Example.session0) = Streaming)
    by (vm_compute; reflexivity).
  assert (H2 : running (run [InitialMessage (Return Example.msg_right)]
                          Example.session0) = true)
    by (vm_compute; reflexivity).
  assert (H3 : at_loop_test
                 (sender (run [InitialMessage (Return Example.msg_right)]
                            Example.session0)) = true)
    by (vm_compute; reflexivity).
  repeat (split; [assumption|]).
  destruct (frame_message (E := Example.env) 0 Example.session0
              [InitialMessage (Return Example.msg_right)]
              (of_Z 100) (of_Z 101) H H1 H2 H3)
    as (frame & self' & g' & _ & Hsent & _ & Hlen & _).
  exists (ravel (map_matrix to_f64 frame)).
  split; [exact Hsent|exact Hlen].
Defined.

Lemma constant_image_loads_temp_min_witness :
  let self := Example.left_sensor in
  Image_open (Env := Example.env) "pie_derecho.png"
    = Return (fun _ _ => Example.gray 128)
  /\ 0 < rows self /\ 0 < cols self
  /\ is_finite (to_f32 (temp_min self)) = true
  /\ is_finite (to_f32 (f64_sub (temp_max self) (temp_min self))) = true
  /\ exists self',
       _load_image (E := Example.env) "pie_derecho.png" self
       = (Return tt, self')
       /\ pixel (base self') 1 2 = Some (to_f32 (of_Z 28))
       /\ eqb (to_f32 (of_Z 28)) (to_f32 (of_Z 33)) = false.
Proof.
  cbn zeta.
  assert (H1 : Image_open (Env := Example.env) "pie_derecho.png"
               = Return (fun _ _ => Example.gray 128)) by reflexivity.
  assert (H2 : 0 < rows Example.left_sensor) by (vm_compute; lia).
  assert (H3 : 0 < cols Example.left_sensor) by (vm_compute; lia).
  assert (H4 : is_finite (to_f32 (temp_min Example.left_sensor)) = true)
    by (vm_compute; reflexivity).
  assert (H5 : is_finite
                 (to_f32 (f64_sub (temp_max Example.left_sensor)
                            (temp_min Example.left_sensor))) = true)
    by (vm_compute; reflexivity).
  repeat (split; [assumption|]).
  destruct (constant_image_loads_temp_min (E := Example.env)
              Example.left_sensor "pie_derecho.png"
              (fun _ _ => Example.gray 128) (Example.gray 128) H1
              (fun i j _ _ => eq_refl) H2 H3 H4 H5)
    as (self' & w & Hload & Hpx & _).
  exists self'. split; [exact Hload|]. split; [|vm_compute; reflexivity].
  pose proof Hload as Hval. vm_compute in Hval.
  injection Hval as <-. vm_compute. reflexivity.
Defined.

(** * Further properties *)

(** ** The constructor and [set_config] *)

Section MoreSensorFacts.
Context {E : Env}.

Lemma ravel_asarray_empty (px : nat -> nat -> Byte.byte) (r c : nat) :
  r = 0 \/ c = 0 -> ravel (asarray px r c) = [].
Proof.
  intros H. apply length_zero_iff_nil.
  rewrite (length_ravel r c) by apply has_shape_asarray.
  destruct H as [-> | ->]; lia.
Qed.

(** X1.  The constructor raises in two cases only: when the file is
    there and cannot be decoded, it raises what the decoding raised, and
    when the file decodes and the sensor has no pixel, it raises
    [ValueError].  The sensor that it returns has the arguments as its
    attributes, the phase at zero, the low difference and the left foot,
    a matrix of [rows] by [cols] values and one load in its log. *)
Theorem __init___outcome (path : string) (r c : nat) (tmin tmax std : float) :
  match __init__ path r c tmin tmax std with
  | Return self =>
      rows self = r /\ cols self = c
      /\ temp_min self = tmin /\ temp_max self = tmax /\ noise_std self = std
      /\ t self = zero /\ image_path self = path
      /\ simulation_mode self = "baja_diferencia" /\ foot self = "izquierdo"
      /\ has_shape r c (base self) = true
      /\ load_log self = [path]
      /\ (Image_open path = Raise FileNotFoundError
          \/ ((exists img, Image_open path = Return img) /\ 0 < r /\ 0 < c))
  | Raise e =>
      (Image_open path = Raise e /\ is_FileNotFoundError e = false)
      \/ (e = ValueError /\ (exists img, Image_open path = Return img)
          /\ (r = 0 \/ c = 0))
  end.
Proof.
  unfold __init__, _load_image. cbn [rows cols log_load temp_min temp_max].
  destruct (Image_open path) as [img|e] eqn:Hopen.
  - destruct (Nat.eq_dec r 0) as [Hr|Hr]; [|destruct (Nat.eq_dec c 0) as [Hc|Hc]].
    + unfold np_min. rewrite ravel_asarray_empty by now left.
      cbn. right. split; [reflexivity|]. split; [now exists img|now left].
    + unfold np_min. rewrite ravel_asarray_empty by now right.
      cbn. right. split; [reflexivity|]. split; [now exists img|now right].
    + pose proof (ravel_asarray_nonempty (resize img c r) r c) as Hne.
      unfold np_min, np_max.
      destruct (ravel (asarray (resize img c r) r c)) as [|x xs];
        [exfalso; apply Hne; trivial; lia|].
      cbn. repeat split; try lia.
      * rewrite has_shape_map_matrix. destruct (eqb _ _).
        -- unfold np_zeros_like.
           change (map (map ?f) ?m) with (map_matrix f m).
           rewrite has_shape_map_matrix. apply has_shape_asarray.
        -- rewrite has_shape_map_matrix. apply has_shape_asarray.
      * right. split; [now exists img|lia].
  - destruct (is_FileNotFoundError e) eqn:He.
    + destruct e; try discriminate.
      cbn. repeat split; try (now left). apply has_shape_np_full.
    + now left.
Qed.

(** The second [if] of [set_config] does nothing, or the foot is a valid
    one that differs from the current foot. *)
Lemma foot_part_cases (f : option string) (self : SimulatedSensor) :
  set_config None f self = (Return false, self)
  \/ exists X, f = Some X /\ str_in X VALID_FEET = true
               /\ (foot self =? X) = false.
Proof.
  destruct f as [X|]; [|now left].
  destruct (str_in X VALID_FEET) eqn:Hv.
  - destruct (foot self =? X) eqn:Hf.
    + left. apply String.eqb_eq in Hf. subst X. apply set_config_foot_same.
    + right. now exists X.
  - left. now apply set_config_foot_invalid.
Qed.

Lemma mode_part_cases (m : option string) (self : SimulatedSensor) :
  mode_part m self = (false, self)
  \/ exists s, m = Some s /\ str_in s VALID_SIMULATION_MODES = true
               /\ (simulation_mode self =? s) = false
               /\ mode_part m self = (true, set_simulation_mode self s).
Proof.
  unfold mode_part. destruct m as [s0|]; [|now left].
  fold VALID_SIMULATION_MODES.
  destruct (str_in s0 VALID_SIMULATION_MODES) eqn:Hv;
    [|left; now rewrite andb_false_r].
  assert (Ht : truthy (Some s0) = true)
    by (destruct (valid_mode_cases s0 Hv) as [-> | ->]; reflexivity).
  rewrite Ht. cbn [andb].
  destruct (simulation_mode self =? s0) eqn:Hs; [now left|].
  right. now exists s0.
Qed.

(** The sensor after the second [if], for a valid foot that differs from
    the current one. *)
Lemma foot_part_new (X : string) (self : SimulatedSensor) :
  str_in X VALID_FEET = true -> (foot self =? X) = false ->
  let self' := snd (set_config None (Some X) self) in
  rows self' = rows self /\ cols self' = cols self
  /\ temp_min self' = temp_min self /\ temp_max self' = temp_max self
  /\ noise_std self' = noise_std self /\ t self' = t self
  /\ simulation_mode self' = simulation_mode self
  /\ foot self' = X
  /\ image_path self' = image_map X
  /\ (has_shape (rows self) (cols self) (base self) = true ->
      has_shape (rows self) (cols self) (base self') = true)
  /\ load_log self'
     = (if image_map X =? image_path self then load_log self
        else image_map X :: load_log self)
  /\ (fst (set_config None (Some X) self) = Return true
      \/ exists e, fst (set_config None (Some X) self) = Raise e).
Proof.
  intros Hv Hf. cbn zeta. rewrite (set_config_foot_new X self Hv Hf).
  destruct (image_map X =? image_path self) eqn:Hp.
  - apply String.eqb_eq in Hp. cbn. repeat split; auto.
  - destruct (_load_image (image_map X)
                (set_image_path (set_foot self X) (image_map X)))
      as [r s3] eqn:Hload.
    apply _load_image_frame in Hload as [mx [-> Hshape]].
    assert (Hgoal : forall o : outcome bool,
              (o = Return true \/ exists e, o = Raise e) ->
              let self' := set_base
                             (log_load
                                (set_image_path (set_foot self X) (image_map X))
                                (image_map X)) mx in
              rows self' = rows self /\ cols self' = cols self
              /\ temp_min self' = temp_min self /\ temp_max self' = temp_max self
              /\ noise_std self' = noise_std self /\ t self' = t self
              /\ simulation_mode self' = simulation_mode self
              /\ foot self' = X
              /\ image_path self' = image_map X
              /\ (has_shape (rows self) (cols self) (base self) = true ->
                  has_shape (rows self) (cols self) (base self') = true)
              /\ load_log self' = image_map X :: load_log self
              /\ (o = Return true \/ exists e, o = Raise e)).
    { intros o Ho. cbn. repeat split; auto. }
    destruct r as [[]|e]; cbn [fst snd]; apply Hgoal;
      [now left|right; now exists e].
Qed.

(** X2.  [set_config] never changes the numbers of rows and columns, the
    temperature range, the noise level or the phase, and it keeps the
    shape of the base matrix.  The mode after the call is the one before
    or the valid name that was given, and so is the foot; at most one
    image is loaded, the one of the new foot; the file in place is the one
    before or the one mapped to the foot. *)
Theorem set_config_keeps (m f : option string) (self : SimulatedSensor) :
  let self' := snd (set_config m f self) in
  rows self' = rows self /\ cols self' = cols self
  /\ temp_min self' = temp_min self /\ temp_max self' = temp_max self
  /\ noise_std self' = noise_std self /\ t self' = t self
  /\ (has_shape (rows self) (cols self) (base self) = true ->
      has_shape (rows self) (cols self) (base self') = true)
  /\ (simulation_mode self' = simulation_mode self
      \/ (m = Some (simulation_mode self')
          /\ str_in (simulation_mode self') VALID_SIMULATION_MODES = true))
  /\ (foot self' = foot self
      \/ (f = Some (foot self') /\ str_in (foot self') VALID_FEET = true))
  /\ (load_log self' = load_log self
      \/ load_log self' = image_map (foot self') :: load_log self)
  /\ (image_path self' = image_path self
      \/ image_path self' = image_map (foot self')).
Proof.
  cbn zeta.
  assert (Hsnd : snd (set_config m f self)
                 = snd (set_config None f (snd (mode_part m self)))).
  { rewrite set_config_parts.
    now destruct (set_config None f (snd (mode_part m self))). }
  rewrite Hsnd.
  destruct (mode_part_frame m self)
    as (Hr & Hc & Hmin & Hmax & Hstd & Ht & Hpath & Hfoot & Hbase & Hlog).
  assert (Hmode : simulation_mode (snd (mode_part m self)) = simulation_mode self
                  \/ (m = Some (simulation_mode (snd (mode_part m self)))
                      /\ str_in (simulation_mode (snd (mode_part m self)))
                           VALID_SIMULATION_MODES = true)).
  { destruct (mode_part_cases m self) as [->|(s0 & -> & Hv & _ & ->)];
      [now left|right; now split]. }
  set (s1 := snd (mode_part m self)) in *.
  destruct (foot_part_cases f s1) as [Hno|(X & -> & Hv & Hne)].
  - rewrite Hno. cbn [snd]. rewrite Hr, Hc, Hmin, Hmax, Hstd, Ht, Hbase.
    repeat split; trivial; try (now left).
  - destruct (foot_part_new X s1 Hv Hne)
      as (H1 & H2 & H3 & H4 & H5 & H6 & H7 & H8 & H9 & H10 & H11 & _).
    rewrite H1, H2, H3, H4, H5, H6, H7, H8, H9, H11.
    rewrite Hr, Hc, Hmin, Hmax, Hstd, Ht, Hlog, Hpath.
    repeat split; trivial.
    + intros Hs. rewrite Hr, Hc, Hbase in H10. now apply H10.
    + right. now split.
    + destruct (image_map X =? image_path self); [now left|now right].
    + now right.
Qed.

(** X3.  When [set_config] returns, its result says whether the mode or
    the foot of the sensor is now another one. *)
Theorem set_config_result (m f : option string) (self : SimulatedSensor)
    (changed : bool) :
  fst (set_config m f self) = Return changed ->
  let self' := snd (set_config m f self) in
  changed
  = negb ((simulation_mode self' =? simulation_mode self)
          && (foot self' =? foot self)).
Proof.
  cbn zeta. rewrite set_config_parts.
  destruct (mode_part_frame m self)
    as (_ & _ & _ & _ & _ & _ & _ & Hfoot & _).
  assert (Hmode : fst (mode_part m self)
                  = negb (simulation_mode (snd (mode_part m self))
                          =? simulation_mode self)).
  { destruct (mode_part_cases m self) as [->|(s0 & -> & _ & Hne & ->)].
    - cbn. now rewrite String.eqb_refl.
    - cbn. now rewrite String.eqb_sym, Hne. }
  set (s1 := snd (mode_part m self)) in *.
  destruct (foot_part_cases f s1) as [Hno|(X & -> & Hv & Hne)].
  - rewrite Hno. cbn [fst snd]. intros [= <-].
    rewrite Hfoot, String.eqb_refl, orb_false_r, andb_true_r. exact Hmode.
  - destruct (foot_part_new X s1 Hv Hne)
      as (_ & _ & _ & _ & _ & _ & H7 & H8 & _ & _ & _ & Hret).
    destruct (set_config None (Some X) s1) as [r s2]. cbn [fst snd] in *.
    rewrite H7, H8, <- Hfoot, (String.eqb_sym X), Hne, andb_false_r.
    destruct Hret as [-> | [e ->]]; [|discriminate].
    intros [= <-]. now rewrite orb_true_r.
Qed.

(** X4.  Whatever the arguments and the sensor, the same call made again
    returns [False] and leaves the sensor as the first call left it: no
    image is loaded twice. *)
Theorem set_config_twice (m f : option string) (self : SimulatedSensor) :
  set_config m f (snd (set_config m f self))
  = (Return false, snd (set_config m f self)).
Proof.
  assert (Hsnd : snd (set_config m f self)
                 = snd (set_config None f (snd (mode_part m self)))).
  { rewrite set_config_parts.
    now destruct (set_config None f (snd (mode_part m self))). }
  rewrite Hsnd. set (s1 := snd (mode_part m self)).
  destruct (foot_part_cases f s1) as [Hno|(X & -> & Hv & Hne)].
  - rewrite Hno. cbn [snd]. rewrite set_config_parts.
    rewrite (mode_part_settled m self s1 eq_refl). cbn [fst snd].
    now rewrite Hno.
  - destruct (foot_part_new X s1 Hv Hne)
      as (_ & _ & _ & _ & _ & _ & H7 & H8 & _).
    now apply (set_config_settled m X self).
Qed.

(** *** The two fields are independent *)

Lemma set_config_mode_only (m : option string) (self : SimulatedSensor) :
  set_config m None self = (Return (fst (mode_part m self)), snd (mode_part m self)).
Proof.
  rewrite set_config_parts, set_config_foot_none. now rewrite orb_false_r.
Qed.

Lemma _load_image_mode (path v : string) (self : SimulatedSensor) :
  _load_image path (set_simulation_mode self v)
  = (fst (_load_image path self),
     set_simulation_mode (snd (_load_image path self)) v).
Proof.
  unfold _load_image. cbn [rows cols temp_min temp_max log_load
                             set_simulation_mode].
  destruct (Image_open path) as [img|e];
    [|now destruct (is_FileNotFoundError e)].
  destruct (np_min _) as [amin|e];
    [|now destruct (is_FileNotFoundError e)].
  destruct (np_max _) as [amax|e];
    [|destruct (is_FileNotFoundError e)]; reflexivity.
Qed.

Lemma foot_part_mode (f : option string) (v : string) (self : SimulatedSensor) :
  set_config None f (set_simulation_mode self v)
  = (fst (set_config None f self),
     set_simulation_mode (snd (set_config None f self)) v).
Proof.
  unfold set_config. cbn iota beta.
  destruct f as [X|]; [|reflexivity].
  destruct (truthy (Some X) && _); [|reflexivity].
  cbn [foot set_simulation_mode].
  destruct (negb (foot self =? X)); [|reflexivity].
  cbn zeta. cbn [image_path set_foot set_simulation_mode].
  destruct (negb (image_map X =? image_path self)); [|reflexivity].
  change (set_image_path (set_foot (set_simulation_mode self v) X) (image_map X))
    with (set_simulation_mode
            (set_image_path (set_foot self X) (image_map X)) v).
  rewrite _load_image_mode.
  now destruct (_load_image _ _) as [[[]|e] s3].
Qed.

Lemma mode_part_same_mode (m : option string) (s1 s2 : SimulatedSensor) :
  simulation_mode s2 = simulation_mode s1 ->
  (mode_part m s1 = (false, s1) -> mode_part m s2 = (false, s2))
  /\ (forall v, mode_part m s1 = (true, set_simulation_mode s1 v) ->
      mode_part m s2 = (true, set_simulation_mode s2 v)).
Proof.
  intros Hs. unfold mode_part. rewrite Hs.
  destruct m as [s0|]; [|split; [reflexivity|discriminate]].
  destruct (truthy (Some s0) && _); [|split; [reflexivity|discriminate]].
  destruct (negb (simulation_mode s1 =? s0)).
  - split; [discriminate|]. intros v [= Hv].
    assert (Hm : simulation_mode (set_simulation_mode s1 s0)
                 = simulation_mode (set_simulation_mode s1 v)) by now rewrite Hv.
    cbn in Hm. now subst v.
  - split; [reflexivity|discriminate].
Qed.

(** X6.  Giving the mode and the foot in one call of [set_config] leaves
    the sensor that two calls leave, one field each, in either order, and
    the result of the one call is the disjunction of the results of the
    two. *)
Theorem set_config_fields_independent (m f : option string)
    (self : SimulatedSensor) :
  snd (set_config m f self)
  = snd (set_config None f (snd (set_config m None self)))
  /\ snd (set_config m f self)
     = snd (set_config m None (snd (set_config None f self)))
  /\ (forall c, fst (set_config m f self) = Return c ->
      exists c1 c2,
        fst (set_config m None self) = Return c1
        /\ fst (set_config None f (snd (set_config m None self))) = Return c2
        /\ c = c1 || c2).
Proof.
  rewrite (set_config_mode_only m self). cbn [fst snd].
  assert (Hsnd : snd (set_config m f self)
                 = snd (set_config None f (snd (mode_part m self)))).
  { rewrite set_config_parts.
    now destruct (set_config None f (snd (mode_part m self))). }
  split; [exact Hsnd|]. split.
  - rewrite Hsnd, set_config_mode_only. cbn [snd].
    assert (Hmode : simulation_mode (snd (set_config None f self))
                    = simulation_mode self).
    { destruct (foot_part_cases f self) as [->|(X & -> & Hv & Hne)];
        [reflexivity|].
      now destruct (foot_part_new X self Hv Hne)
        as (_ & _ & _ & _ & _ & _ & H7 & _). }
    destruct (mode_part_same_mode m self _ Hmode) as [Hsame Hnew].
    destruct (mode_part_cases m self) as [Hno|(s0 & _ & _ & _ & Hch)].
    + rewrite (Hsame Hno), Hno. reflexivity.
    + rewrite (Hnew s0 Hch), Hch. cbn [snd]. now rewrite foot_part_mode.
  - intros c. rewrite set_config_parts.
    destruct (set_config None f (snd (mode_part m self))) as [[c2|e] s2];
      [|discriminate].
    intros [= <-]. now exists (fst (mode_part m self)), c2.
Qed.

(** *** Any sequence of calls *)

(** The outcome and, when it returns, the matrix of a load depend on the
    shape and on the temperature range only; when it raises, the matrix
    stays. *)
Lemma _load_image_again (path : string) (s1 s2 : SimulatedSensor) :
  rows s1 = rows s2 -> cols s1 = cols s2 ->
  temp_min s1 = temp_min s2 -> temp_max s1 = temp_max s2 ->
  fst (_load_image path s1) = fst (_load_image path s2)
  /\ (fst (_load_image path s1) = Return tt ->
      base (snd (_load_image path s1)) = base (snd (_load_image path s2)))
  /\ (forall e, fst (_load_image path s1) = Raise e ->
      base (snd (_load_image path s1)) = base s1
      /\ base (snd (_load_image path s2)) = base s2).
Proof.
  intros Hr Hc Hmin Hmax. unfold _load_image.
  cbn [rows cols temp_min temp_max log_load]. rewrite Hr, Hc, Hmin, Hmax.
  assert (Hexc : forall e,
    let r1 :=
      if is_FileNotFoundError e then
        (Return tt,
         set_base (log_load s1 path)
           (np_full (rows s2) (cols s2)
              (to_f32 (f64_div (f64_add (temp_min s2) (temp_max s2))
                         (of_Z 2)))))
      else (Raise e, log_load s1 path) in
    let r2 :=
      if is_FileNotFoundError e then
        (Return tt,
         set_base (log_load s2 path)
           (np_full (rows s2) (cols s2)
              (to_f32 (f64_div (f64_add (temp_min s2) (temp_max s2))
                         (of_Z 2)))))
      else (Raise e, log_load s2 path) in
    fst r1 = fst r2
    /\ (fst r1 = Return tt -> base (snd r1) = base (snd r2))
    /\ (forall e', fst r1 = Raise e' ->
        base (snd r1) = base s1 /\ base (snd r2) = base s2)).
  { intros e. cbn zeta. destruct (is_FileNotFoundError e).
    - split; [reflexivity|split; [reflexivity|discriminate]].
    - split; [reflexivity|split; [discriminate|now split]]. }
  destruct (Image_open path) as [img|e]; [|apply Hexc].
  destruct (np_min _) as [amin|e]; [|apply Hexc].
  destruct (np_max _) as [amax|e]; [|apply Hexc].
  split; [reflexivity|split; [reflexivity|discriminate]].
Qed.

Lemma load_coherent (path : string) (self : SimulatedSensor) :
  base (snd (_load_image path (snd (_load_image path self))))
  = base (snd (_load_image path self)).
Proof.
  destruct (_load_image path self) as [r s'] eqn:Hload.
  pose proof Hload as Hfr. apply _load_image_frame in Hfr as [mx [Hs' _]].
  assert (Hsame : rows self = rows s' /\ cols self = cols s'
                  /\ temp_min self = temp_min s' /\ temp_max self = temp_max s')
    by (subst s'; now repeat split).
  destruct Hsame as (Hr & Hc & Hmin & Hmax).
  destruct (_load_image_again path self s' Hr Hc Hmin Hmax) as (Hfst & Hret & Hraise).
  rewrite Hload in Hfst, Hret, Hraise. cbn [fst snd] in *.
  destruct r as [[]|e].
  - symmetry. now apply Hret.
  - now destruct (Hraise e eq_refl).
Qed.

Lemma coherent_ext (s1 s2 : SimulatedSensor) :
  rows s1 = rows s2 -> cols s1 = cols s2 ->
  temp_min s1 = temp_min s2 -> temp_max s1 = temp_max s2 ->
  base s1 = base s2 -> image_path s1 = image_path s2 ->
  coherent s1 -> coherent s2.
Proof.
  unfold coherent. intros Hr Hc Hmin Hmax Hb Hp Hco.
  destruct (_load_image_base (image_path s1) s1 s2 Hr Hc Hmin Hmax Hb)
    as [_ Hbase].
  now rewrite <- Hp, <- Hbase, Hco.
Qed.

Lemma kept_set_config (path : string) (r c : nat) (tmin tmax std : float)
    (m f : option string) (self : SimulatedSensor) :
  kept path r c tmin tmax std self ->
  kept path r c tmin tmax std (snd (set_config m f self)).
Proof.
  intros (Hr & Hc & Hmin & Hmax & Hstd & Hs & Hvm & Hvf & Hco & Hhd & Hp).
  assert (Hsnd : snd (set_config m f self)
                 = snd (set_config None f (snd (mode_part m self)))).
  { rewrite set_config_parts.
    now destruct (set_config None f (snd (mode_part m self))). }
  rewrite Hsnd.
  destruct (mode_part_frame m self)
    as (Hr1 & Hc1 & Hmin1 & Hmax1 & Hstd1 & _ & Hpath1 & Hfoot1 & Hbase1 & Hlog1).
  assert (Hvm1 : str_in (simulation_mode (snd (mode_part m self)))
                   VALID_SIMULATION_MODES = true).
  { destruct (mode_part_cases m self) as [->|(s0 & _ & Hv & _ & ->)];
      [exact Hvm|exact Hv]. }
  assert (Hco1 : coherent (snd (mode_part m self)))
    by (apply (coherent_ext self); auto).
  set (s1 := snd (mode_part m self)) in *.
  destruct (foot_part_cases f s1) as [Hno|(X & -> & Hv & Hne)].
  - rewrite Hno. cbn [snd]. unfold kept.
    rewrite Hr1, Hc1, Hmin1, Hmax1, Hstd1, Hbase1, Hfoot1, Hlog1, Hpath1.
    now repeat split.
  - destruct (foot_part_new X s1 Hv Hne)
      as (H1 & H2 & H3 & H4 & H5 & _ & H7 & H8 & H9 & H10 & H11 & _).
    unfold kept. rewrite H1, H2, H3, H4, H5, H7, H8, H9, H11.
    rewrite Hr1, Hc1, Hmin1, Hmax1, Hstd1.
    split; [exact Hr|]. split; [exact Hc|]. split; [exact Hmin|].
    split; [exact Hmax|]. split; [exact Hstd|].
    split; [rewrite <- Hr, <- Hc, <- Hr1, <- Hc1; apply H10;
            now rewrite Hr1, Hc1, Hbase1, Hr, Hc|].
    split; [exact Hvm1|]. split; [exact Hv|]. split; [|split; [|now right]].
    + rewrite (set_config_foot_new X s1 Hv Hne).
      destruct (image_map X =? image_path s1) eqn:Hpx.
      * apply (coherent_ext s1); auto.
      * assert (Hload : forall r0 s3,
                  _load_image (image_map X)
                    (set_image_path (set_foot s1 X) (image_map X)) = (r0, s3) ->
                  coherent s3).
        { intros r0 s3 Hl. unfold coherent.
          pose proof (load_log_load (image_map X)
                        (set_image_path (set_foot s1 X) (image_map X)))
            as (_ & _ & Hip & _).
          pose proof (load_coherent (image_map X)
                        (set_image_path (set_foot s1 X) (image_map X))) as Hlc.
          rewrite Hl in Hip, Hlc. cbn [snd] in Hip, Hlc.
          cbn [image_path set_image_path] in Hip. now rewrite Hip. }
        destruct (_load_image _ _) as [[[]|e] s3] eqn:Hl;
          now apply (Hload _ _ eq_refl).
    + destruct (image_map X =? image_path s1) eqn:Hpx.
      * rewrite Hlog1, Hhd. f_equal. rewrite <- Hpath1.
        symmetry. now apply String.eqb_eq.
      * reflexivity.
Qed.

Lemma kept_get_frame (path : string) (r c : nat) (tmin tmax std : float)
    (self : SimulatedSensor) (g : rng) :
  kept path r c tmin tmax std self ->
  kept path r c tmin tmax std (snd (fst (get_frame self g))).
Proof.
  intros Hk.
  assert (Hself : snd (fst (get_frame self g))
                  = set_t self (f64_add (t self) (decimal 5 100))).
  { unfold get_frame. now destruct (np_random_normal _ _ _ _) as [[mx|e] g']. }
  rewrite Hself.
  destruct Hk as (Hr & Hc & Hmin & Hmax & Hstd & Hs & Hvm & Hvf & Hco & Hhd & Hp).
  unfold kept. cbn [rows cols temp_min temp_max noise_std base simulation_mode
                     foot load_log image_path set_t].
  repeat split; trivial. now apply (coherent_ext self).
Qed.

Lemma __init___kept (path : string) (r c : nat) (tmin tmax std : float)
    (self0 : SimulatedSensor) :
  __init__ path r c tmin tmax std = Return self0 ->
  kept path r c tmin tmax std self0 /\ t self0 = zero.
Proof.
  intros Hinit. unfold __init__ in Hinit.
  match type of Hinit with
  | context [_load_image path ?s] => set (s0 := s) in *
  end.
  pose proof (load_coherent path s0) as Hco.
  pose proof (load_log_load path s0) as (Hlog & Hfoot & Hip & Hmode).
  destruct (_load_image path s0) as [[[]|e] s'] eqn:Hload; [|discriminate].
  injection Hinit as ->.
  pose proof Hload as Hfr.
  apply _load_image_frame in Hfr as [mx [Hs' Hshape]].
  cbn [snd] in *. unfold kept.
  rewrite Hlog, Hfoot, Hip, Hmode. unfold coherent. rewrite Hip.
  subst self0. cbn in *. repeat split; auto.
Qed.

(** X5.  After the constructor and any sequence of calls of [set_config]
    and [get_frame], whatever each call returned or raised: the shape,
    the temperature range and the noise level are those given to the
    constructor, the base matrix has that shape, the mode and the foot
    are valid names, loading the file in place once more leaves the
    matrix as it is, that file is the last one loaded, and it is the file
    of the constructor or the one mapped to the foot. *)
Theorem calls_keep (path : string) (r c : nat) (tmin tmax std : float)
    (self0 : SimulatedSensor) (cs : list call) (g : rng) :
  __init__ path r c tmin tmax std = Return self0 ->
  let self := fst (do_calls cs (self0, g)) in
  rows self = r /\ cols self = c
  /\ temp_min self = tmin /\ temp_max self = tmax /\ noise_std self = std
  /\ has_shape r c (base self) = true
  /\ str_in (simulation_mode self) VALID_SIMULATION_MODES = true
  /\ str_in (foot self) VALID_FEET = true
  /\ coherent self
  /\ hd_error (load_log self) = Some (image_path self)
  /\ (image_path self = path \/ image_path self = image_map (foot self)).
Proof.
  intros Hinit. cbn zeta.
  destruct (__init___kept path r c tmin tmax std self0 Hinit) as [H0 _].
  clear Hinit. revert self0 g H0.
  induction cs as [|c0 cs IH]; intros self0 g H0; [exact H0|].
  cbn [do_calls fold_left]. destruct c0 as [m f|].
  - apply (IH _ g). cbn [do_call fst snd]. now apply kept_set_config.
  - cbn [do_call fst snd].
    pose proof (kept_get_frame path r c tmin tmax std self0 g H0) as Hk.
    destruct (get_frame self0 g) as [[o s'] g']. now apply (IH s' g').
Qed.

End MoreSensorFacts.

(** ** Sessions *)

Section MoreHandlerFacts.
Context {E : Env}.

Lemma same_data_refl (st : session) : same_data st st.
Proof. now repeat split. Qed.

Lemma same_data_trans (a b c : session) :
  same_data a b -> same_data b c -> same_data a c.
Proof.
  intros (H1 & H2 & H3 & H4 & H5) (K1 & K2 & K3 & K4 & K5).
  repeat split; congruence.
Qed.

Lemma settle_data (st : session) : same_data st (settle st).
Proof.
  unfold settle. destruct (sender st); try apply same_data_refl.
  destruct (receiver st); now repeat split.
Qed.

Lemma receiver_test_data (st : session) : same_data st (receiver_test st).
Proof. unfold receiver_test. destruct (running st); now repeat split. Qed.

(** What a step does to the data of a session in order: nothing, or the
    application of the valid fields of a message, or one tick of the
    sender. *)
Lemma step_data (ev : event) (st : session) :
  session_ok st ->
  same_data st (step ev st)
  \/ (exists m rm rf,
        (ev = InitialMessage (Return m) \/ ev = RecvCompletes (Return m))
        /\ (forall s, rm = Some s -> str_in s VALID_SIMULATION_MODES = true)
        /\ (forall f, rf = Some f -> str_in f VALID_FEET = true)
        /\ same_data (apply_request rm rf st) (step ev st))
  \/ (exists now now' frame,
        ev = SenderWakes now now'
        /\ stage st = Streaming /\ running st = true
        /\ at_loop_test (sender st) = true
        /\ fst (fst (get_frame (sensor st) (gen st))) = Return frame
        /\ has_shape (rows (sensor st)) (cols (sensor st)) frame = true
        /\ same_data (ticked now' frame st) (step ev st)).
Proof.
  intros Hok. pose proof Hok as [Hc Hk]. unfold step.
  destruct (stage st) eqn:Hst; [| |left; apply same_data_refl].
  - destruct ev as [r| | | |]; try (left; apply same_data_refl).
    destruct r as [m|e].
    + right. left.
      destruct (handshake_any (Return m) st Hc)
        as (r & rm & rf & -> & Hrm & Hrf).
      exists m, rm, rf. split; [now left|]. split; [exact Hrm|].
      split; [exact Hrf|]. destruct r as [[]|e]; now repeat split.
    + left. destruct (is_TimeoutError e) eqn:He.
      * destruct e; try discriminate. now repeat split.
      * rewrite (handshake_raise e st He). now repeat split.
  - destruct ev as [r|now now'|r now| |r]; try (left; apply same_data_refl).
    + assert (Hgo : same_data st (settle (sender_wakes now now' st))
                \/ (running st = true
                    /\ exists frame,
                         fst (fst (get_frame (sensor st) (gen st))) = Return frame
                         /\ has_shape (rows (sensor st)) (cols (sensor st)) frame
                            = true
                         /\ same_data (ticked now' frame st)
                              (settle (sender_wakes now now' st)))).
      { unfold sender_wakes. destruct (running st) eqn:Hrun.
        - right. split; [reflexivity|].
          destruct (send_begin_returns now now' st Hc)
            as (frame & Hget & Hshape & Hsend).
          exists frame. rewrite Hget, Hsend. split; [reflexivity|].
          split; [exact Hshape|].
          eapply same_data_trans; [|apply settle_data]. now repeat split.
        - left. eapply same_data_trans; [|apply settle_data]. now repeat split. }
      destruct (sender st) eqn:Hsd; try (left; apply same_data_refl).
      * destruct Hgo as [H|(Hrun & frame & Hget & Hshape & H)]; [now left|].
        right. right. exists now, now', frame.
        split; [reflexivity|]. split; [reflexivity|]. split; [exact Hrun|].
        split; [reflexivity|]. split; [exact Hget|]. now split.
      * destruct Hgo as [H|(Hrun & frame & Hget & Hshape & H)]; [now left|].
        right. right. exists now, now', frame.
        split; [reflexivity|]. split; [reflexivity|]. split; [exact Hrun|].
        split; [reflexivity|]. split; [exact Hget|]. now split.
    + left. destruct (sender st) as [|t0| |]; try apply same_data_refl.
      eapply same_data_trans; [|apply settle_data].
      unfold send_completes. destruct r as [[]|e].
      * rewrite send_end_returns. now repeat split.
      * rewrite send_end_failure. now repeat split.
    + left. destruct (receiver st); try apply same_data_refl.
      eapply same_data_trans; [apply receiver_test_data|apply settle_data].
    + destruct (receiver st); try (left; apply same_data_refl).
      unfold recv_completes. destruct r as [m|e].
      * right. left.
        destruct (receive_message_any m st Hc)
          as (r & rm & rf & Hrecv & Hrm & Hrf).
        exists m, rm, rf. split; [now right|]. split; [exact Hrm|].
        split; [exact Hrf|].
        rewrite (receive_iteration_message m st _ r Hrecv).
        assert (Hgo : same_data (apply_request rm rf st)
                        (settle (receiver_test (apply_request rm rf st))))
          by (eapply same_data_trans;
              [apply receiver_test_data|apply settle_data]).
        destruct r as [c|e]; [exact Hgo|].
        destruct (is_TimeoutError e); [exact Hgo|].
        eapply same_data_trans; [|apply settle_data]. now repeat split.
      * left. destruct (is_TimeoutError e) eqn:He.
        -- destruct e; try discriminate. rewrite receive_iteration_timeout.
           eapply same_data_trans; [apply receiver_test_data|apply settle_data].
        -- rewrite (receive_iteration_failure e st He).
           eapply same_data_trans; [|apply settle_data]. now repeat split.
Qed.

Lemma set_config_t (m f : option string) (self : SimulatedSensor) :
  t (snd (set_config m f self)) = t self.
Proof.
  assert (Hsnd : snd (set_config m f self)
                 = snd (set_config None f (snd (mode_part m self)))).
  { rewrite set_config_parts.
    now destruct (set_config None f (snd (mode_part m self))). }
  rewrite Hsnd.
  destruct (mode_part_frame m self) as (_ & _ & _ & _ & _ & Ht & _).
  destruct (foot_part_cases f (snd (mode_part m self)))
    as [Hno|(X & -> & Hv & Hne)].
  - now rewrite Hno.
  - destruct (foot_part_new X _ Hv Hne) as (_ & _ & _ & _ & _ & H6 & _).
    congruence.
Qed.

Lemma session_data_ext (a b : session) :
  same_data a b -> session_data_ok a -> session_data_ok b.
Proof.
  intros (H1 & _ & _ & _ & H5). unfold session_data_ok. now rewrite H1, H5.
Qed.

Lemma session_data_request (rm rf : option string) (st : session) :
  session_data_ok st -> session_data_ok (apply_request rm rf st).
Proof.
  intros (Hk & Hf & Ht).
  assert (Hmode : forall s x, session_data_ok x -> session_data_ok (apply_mode s x)).
  { intros s x (Hk' & Hf' & Ht'). unfold session_data_ok, apply_mode.
    session_simpl. split; [now apply kept_set_config|]. split; [exact Hf'|].
    now rewrite set_config_t. }
  assert (Hfoot : forall f x, session_data_ok x -> session_data_ok (apply_foot f x)).
  { intros f x (Hk' & Hf' & Ht'). unfold session_data_ok, apply_foot.
    session_simpl. split; [now apply kept_set_config|]. split; [exact Hf'|].
    now rewrite set_config_t. }
  unfold apply_request. destruct rm as [s|], rf as [f|].
  - apply Hfoot, Hmode. now split.
  - apply Hmode. now split.
  - apply Hfoot. now split.
  - now split.
Qed.

Lemma forallb_is_float (l : list float) : forallb is_float (map JFloat l) = true.
Proof. induction l as [|x l IH]; [reflexivity|exact IH]. Qed.

Lemma payload_is_frame (st : session) (now' : float) (frame : matrix) :
  config_ok st ->
  rows (sensor st) = 32 -> cols (sensor st) = 24 ->
  has_shape 32 24 frame = true ->
  is_frame (payload st now' frame) = true.
Proof.
  intros ((_ & _ & _ & Hvm & Hvf & _) & Hm & Hf) Hr Hc Hs.
  unfold payload, is_frame. rewrite Hr, Hc, <- Hm, <- Hf, Hvm, Hvf.
  rewrite length_map, (length_ravel 32 24) by now rewrite has_shape_map_matrix.
  now rewrite forallb_is_float.
Qed.

Lemma session_data_tick (now' : float) (frame : matrix) (st : session) :
  config_ok st ->
  has_shape (rows (sensor st)) (cols (sensor st)) frame = true ->
  session_data_ok st -> session_data_ok (ticked now' frame st).
Proof.
  intros Hc Hs (Hk & Hf & Ht).
  pose proof Hk as (Hr & Hcl & _).
  unfold session_data_ok, ticked. session_simpl. split; [|split].
  - destruct Hk as (H1 & H2 & H3 & H4 & H5 & H6 & H7 & H8 & H9 & H10 & H11).
    unfold kept. cbn [rows cols temp_min temp_max noise_std base
                       simulation_mode foot load_log image_path set_t].
    repeat split; trivial. now apply (coherent_ext (sensor st)).
  - cbn [forallb]. rewrite Hf, andb_true_r.
    apply payload_is_frame; trivial. now rewrite <- Hr, <- Hcl.
  - cbn [t set_t length]. rewrite Ht. reflexivity.
Qed.

Lemma step_session_data (ev : event) (st : session) :
  session_ok st -> session_data_ok st -> session_data_ok (step ev st).
Proof.
  intros Hok Hd.
  destruct (step_data ev st Hok)
    as [H|[(m & rm & rf & _ & _ & _ & H)
          |(now & now' & frame & _ & _ & _ & _ & _ & Hs & H)]].
  - now apply (session_data_ext st).
  - eapply session_data_ext; [exact H|]. now apply session_data_request.
  - eapply session_data_ext; [exact H|].
    apply session_data_tick; trivial. now destruct Hok.
Qed.

Lemma connect_session_data (g0 : rng) (st0 : session) :
  connect g0 = Return st0 -> session_data_ok st0.
Proof.
  intros Hcon. unfold connect in Hcon.
  destruct (new_sensor "pie_izquierdo.png") as [self|e] eqn:Hnew; [|discriminate].
  destruct (__init___kept _ _ _ _ _ _ _ Hnew) as [Hk Ht].
  pose proof (kept_set_config _ _ _ _ _ _ (Some "baja_diferencia")
                (Some "izquierdo") self Hk) as Hk'.
  pose proof (set_config_t (Some "baja_diferencia") (Some "izquierdo") self)
    as Ht'.
  destruct (set_config (Some "baja_diferencia") (Some "izquierdo") self)
    as [[c|e] self']; [|discriminate].
  injection Hcon as <-. unfold session_data_ok. session_simpl.
  cbn [snd] in *. split; [exact Hk'|]. split; [reflexivity|].
  now rewrite Ht', Ht.
Qed.

Lemma reachable_data (g0 : rng) (st0 : session) (evs : list event) :
  connect g0 = Return st0 ->
  session_ok (run evs st0) /\ session_data_ok (run evs st0).
Proof.
  intros Hcon.
  destruct (connect_ok g0 st0 Hcon) as (Hok & _).
  pose proof (connect_session_data g0 st0 Hcon) as Hd.
  clear Hcon. revert st0 Hok Hd.
  induction evs as [|ev evs IH]; intros st0 Hok Hd; [now split|].
  apply IH; [now apply step_ok|now apply step_session_data].
Qed.

(** X7.  In every state that a session reaches the sensor has 32 rows and
    24 columns, the range from 28 to 38 degrees and the noise level 0.15,
    its base matrix has 32 by 24 values and stays as it is when the file
    of the current foot is loaded once more, and the mode and the foot
    that the handler writes in its frames are valid names and those of
    the sensor. *)
Theorem session_invariant (g0 : rng) (st0 : session) (evs : list event) :
  connect g0 = Return st0 ->
  let st := run evs st0 in
  rows (sensor st) = 32 /\ cols (sensor st) = 24
  /\ temp_min (sensor st) = of_Z 28 /\ temp_max (sensor st) = of_Z 38
  /\ noise_std (sensor st) = decimal 15 100
  /\ has_shape 32 24 (base (sensor st)) = true
  /\ simulation_mode (sensor st) = current_simulation_mode st
  /\ foot (sensor st) = current_foot st
  /\ str_in (current_simulation_mode st) VALID_SIMULATION_MODES = true
  /\ str_in (current_foot st) VALID_FEET = true
  /\ image_path (sensor st) = image_map (current_foot st)
  /\ hd_error (load_log (sensor st)) = Some (image_map (current_foot st))
  /\ base (snd (_load_image (image_map (current_foot st)) (sensor st)))
     = base (sensor st).
Proof.
  intros Hcon. cbn zeta.
  destruct (reachable_data g0 st0 evs Hcon)
    as [[((_ & _ & _ & Hvm & Hvf & Hp) & Hm & Hf) _] [Hk _]].
  destruct Hk as (H1 & H2 & H3 & H4 & H5 & H6 & _ & _ & H9 & H10 & _).
  unfold coherent in H9. rewrite <- Hm, <- Hf, <- Hp.
  repeat split; trivial.
Qed.

(** X8.  Every message that a session has sent is a frame: the six keys
    in their order, a valid mode and a valid foot, 32 rows, 24 columns and
    768 numbers. *)
Theorem sent_are_frames (g0 : rng) (st0 : session) (evs : list event) :
  connect g0 = Return st0 ->
  forallb is_frame (sent (run evs st0)) = true.
Proof.
  intros Hcon. now destruct (reachable_data g0 st0 evs Hcon) as [_ [_ [H _]]].
Qed.

(** X9.  The phase of the sensor counts the frames sent: after [n] frames
    it is the sum of [n] terms 0.05, whatever configuration messages
    came in between; loading another image does not reset it. *)
Theorem phase_counts_frames (g0 : rng) (st0 : session) (evs : list event) :
  connect g0 = Return st0 ->
  t (sensor (run evs st0)) = phase_after (length (sent (run evs st0))).
Proof.
  intros Hcon. now destruct (reachable_data g0 st0 evs Hcon) as [_ [_ [_ H]]].
Qed.

(** X10.  Only a tick of the sender sends, and it sends one frame: a step
    leaves the sent messages as they are, unless the session streams,
    [running] is up and the sender is at its loop test, in which case the
    step adds one frame.  Nothing is sent during the handshake, by the
    receiver, after [running] fell or after the session closed. *)
Theorem only_ticks_send (g0 : rng) (st0 : session) (evs : list event)
    (ev : event) :
  connect g0 = Return st0 ->
  let st := run evs st0 in
  sent (step ev st) = sent st
  \/ (exists now now' p,
        ev = SenderWakes now now'
        /\ stage st = Streaming /\ running st = true
        /\ at_loop_test (sender st) = true
        /\ is_frame p = true
        /\ sent (step ev st) = p :: sent st).
Proof.
  intros Hcon. cbn zeta.
  destruct (reachable_data g0 st0 evs Hcon) as [Hok Hd].
  destruct (step_data ev _ Hok)
    as [H|[(m & rm & rf & _ & _ & _ & H)
          |(now & now' & frame & Hev & Hst & Hrun & Hpc & _ & Hs & H)]].
  - left. now destruct H as (_ & _ & _ & _ & <-).
  - left. destruct H as (_ & _ & _ & _ & <-).
    apply apply_request_control.
  - right. exists now, now', (payload (run evs st0) now' frame).
    destruct H as (_ & _ & _ & _ & <-).
    repeat split; trivial.
    destruct Hd as ((Hr & Hc & _) & _). destruct Hok as [Hcf _].
    apply payload_is_frame; trivial. now rewrite <- Hr, <- Hc.
Qed.

Lemma run_closed (evs : list event) (st : session) :
  stage st = Closed -> run evs st = st.
Proof.
  intros H. induction evs as [|ev evs IH]; [reflexivity|].
  cbn [run fold_left]. rewrite (step_closed ev st H). exact IH.
Qed.

(** X11.  When the first receive of a session fails with anything but a
    timeout, the handler finishes at once: [running] falls, the session
    is closed, the two loops never start, and whatever happens afterwards
    changes nothing; no frame is ever sent. *)
Theorem handshake_failure_closes (g0 : rng) (st0 : session) (e : exn)
    (evs : list event) :
  connect g0 = Return st0 ->
  is_TimeoutError e = false ->
  let st := run (InitialMessage (Raise e) :: evs) st0 in
  st = set_stage (set_running st0 false) Closed
  /\ stage st = Closed /\ running st = false
  /\ sender st = SenderReady /\ receiver st = ReceiverReady
  /\ sent st = [].
Proof.
  intros Hcon He. cbn zeta.
  destruct (connect_ok g0 st0 Hcon) as (_ & Hst & _ & _ & _ & Hsd & Hrc & Hsent & _).
  assert (Hstep : step (InitialMessage (Raise e)) st0
                  = set_stage (set_running st0 false) Closed).
  { unfold step. rewrite Hst. now rewrite (handshake_raise e st0 He). }
  cbn [run fold_left]. fold (run evs (step (InitialMessage (Raise e)) st0)).
  rewrite Hstep, run_closed by reflexivity.
  session_simpl. now repeat split.
Qed.

Lemma receive_iteration_returns (r : outcome message) (st : session) :
  exists c st',
    receive_iteration r st = (Return c, st')
    /\ (c = BreakLoop -> running st' = false).
Proof.
  destruct r as [m|e].
  - unfold receive_iteration, try_except, await.
    unfold bind at 1. unfold bind at 1.
    destruct (receive_message m st) as [[c|e] st'].
    + exists NextIteration, st'. split; [reflexivity|discriminate].
    + destruct e; cbn; eexists _, _; (split; [reflexivity|]);
        try discriminate; reflexivity.
  - destruct e; cbn; eexists _, _; (split; [reflexivity|]);
      try discriminate; reflexivity.
Qed.

Lemma send_begin_total (now now' : float) (st : session) :
  exists c st',
    send_begin now now' st = (Return c, st')
    /\ (c = BreakLoop -> running st' = false).
Proof.
  unfold send_begin, try_except.
  unfold bind at 1. unfold sensor_get_frame.
  destruct (get_frame (sensor st) (gen st)) as [[[frame|e] self'] g'].
  - eexists NextIteration, _. split; [reflexivity|discriminate].
  - destruct e; cbn; eexists _, _; (split; [reflexivity|]);
      try discriminate; reflexivity.
Qed.

Lemma send_end_total (t0 : float) (r : outcome unit) (now : float)
    (st : session) :
  exists c st',
    send_end t0 r now st = (Return c, st')
    /\ (c = BreakLoop -> running st' = false).
Proof.
  destruct r as [[]|e].
  - rewrite send_end_returns. eexists _, _. split; [reflexivity|discriminate].
  - rewrite send_end_failure. eexists _, _. now split.
Qed.

(** X12.  The bodies of the two loops never let an exception out: an
    iteration of [receive_messages] and the two halves of an iteration of
    [send_frames] always return, whatever the session, the message or the
    exception that the transport or the sensor raised; and when they
    leave the loop, [running] is down. *)
Theorem loops_never_raise (st : session) :
  (forall r, exists c,
      fst (receive_iteration r st) = Return c
      /\ (c = BreakLoop -> running (snd (receive_iteration r st)) = false))
  /\ (forall now now', exists c,
      fst (send_begin now now' st) = Return c
      /\ (c = BreakLoop -> running (snd (send_begin now now' st)) = false))
  /\ (forall t0 r now, exists c,
      fst (send_end t0 r now st) = Return c
      /\ (c = BreakLoop -> running (snd (send_end t0 r now st)) = false)).
Proof.
  split; [|split].
  - intros r. destruct (receive_iteration_returns r st) as (c & st' & -> & H).
    now exists c.
  - intros now now'.
    destruct (send_begin_total now now' st) as (c & st' & -> & H).
    now exists c.
  - intros t0 r now.
    destruct (send_end_total t0 r now st) as (c & st' & -> & H).
    now exists c.
Qed.

Lemma set_receiver_same (st : session) (v : receiver_pc) :
  receiver st = v -> set_receiver st v = st.
Proof. destruct st; cbn. now intros ->. Qed.

Lemma run_snoc (evs : list event) (ev : event) (st : session) :
  run (evs ++ [ev]) st = step ev (run evs st).
Proof. unfold run. now rewrite fold_left_app. Qed.

(** X13.  A configuration object received while the session streams,
    whose unknown values the standard output can print and whose foot has
    an image that can be loaded, is applied at once, to the handler and to
    the sensor, without a frame being sent and without the phase or the
    random generator being touched; the next frame carries the values
    asked for, and those in place before for a key that is absent or has
    an unknown value. *)
Theorem update_reaches_next_frame (g0 : rng) (st0 : session)
    (evs : list event) (m : message) (d : list (string * json))
    (now now' : float) :
  connect g0 = Return st0 ->
  json_loads m = Return (JDict d) ->
  let st := run evs st0 in
  let rm := requested "simulation_mode" VALID_SIMULATION_MODES d in
  let rf := requested "foot" VALID_FEET d in
  let st1 := step (RecvCompletes (Return m)) st in
  let mode1 := match rm with Some s => s | None => current_simulation_mode st end in
  let foot1 := match rf with Some f => f | None => current_foot st end in
  prints (rejected "simulation_mode" VALID_SIMULATION_MODES d) = true ->
  prints (rejected "foot" VALID_FEET d) = true ->
  loads rf = true ->
  stage st = Streaming -> receiver st = ReceiverWaiting ->
  running st = true -> at_loop_test (sender st) = true ->
  st1 = apply_request rm rf st
  /\ current_simulation_mode st1 = mode1 /\ current_foot st1 = foot1
  /\ simulation_mode (sensor st1) = mode1 /\ foot (sensor st1) = foot1
  /\ sent st1 = sent st /\ gen st1 = gen st
  /\ t (sensor st1) = t (sensor st)
  /\ exists data,
       length data = 768
       /\ sent (step (SenderWakes now now') st1)
          = JDict
              [("simulation_mode", JStr mode1);
               ("foot", JStr foot1);
               ("timestamp", JFloat now');
               ("rows", JInt 32);
               ("cols", JInt 24);
               ("data", JList (map JFloat data))]
            :: sent st.
Proof.
  intros Hcon Hdec st rm rf st1 mode1 foot1 Hpm Hpf Hl Hst Hrc Hrun Hpc.
  destruct (reachable_data g0 st0 evs Hcon) as [Hok Hd]. fold st in Hok, Hd.
  pose proof Hok as [Hc Hk].
  pose proof (receive_message_dict m d st Hc Hdec Hpm Hpf Hl) as Hrecv.
  fold rm rf in Hrecv.
  destruct (apply_request_control rm rf st)
    as (Hrun' & Hsd' & Hrc' & Hst' & Hgen' & Hsent').
  destruct (apply_request_ok rm rf st Hc) as ((_ & Hsm' & Hsf') & Hcm & Hcf).
  { intros s0. apply requested_valid. }
  { intros f0. apply requested_valid. }
  assert (H1 : st1 = apply_request rm rf st).
  { unfold st1, step. rewrite Hst, Hrc. unfold recv_completes.
    rewrite (receive_iteration_message m st _ _ Hrecv).
    unfold receiver_test. rewrite Hrun', Hrun.
    rewrite set_receiver_same by congruence.
    unfold settle. rewrite Hsd'.
    destruct (sender st); try discriminate; reflexivity. }
  assert (Hreach : st1 = run (evs ++ [RecvCompletes (Return m)]) st0)
    by now rewrite run_snoc.
  destruct (reachable_data g0 st0 (evs ++ [RecvCompletes (Return m)]) Hcon)
    as [Hok1 Hd1].
  rewrite <- Hreach in Hok1, Hd1.
  fold mode1 in Hcm. fold foot1 in Hcf.
  split; [exact H1|]. rewrite <- H1 in *.
  split; [exact Hcm|]. split; [exact Hcf|].
  split; [congruence|]. split; [congruence|].
  split; [exact Hsent'|]. split; [exact Hgen'|].
  split.
  { destruct Hd1 as (_ & _ & Ht1). destruct Hd as (_ & _ & Ht).
    now rewrite Ht1, Ht, Hsent'. }
  destruct Hok1 as [Hc1 _].
  destruct (send_begin_returns now now' st1 Hc1) as (frame & _ & Hshape & Hsend).
  destruct Hd1 as ((Hr1 & Hc1' & _) & _).
  rewrite Hr1, Hc1' in Hshape.
  exists (ravel (map_matrix to_f64 frame)). split.
  { rewrite (length_ravel 32 24); [reflexivity|].
    now rewrite has_shape_map_matrix. }
  unfold step. rewrite Hst', Hst.
  assert (Hwake : sent (settle (sender_wakes now now' st1))
                  = payload st1 now' frame :: sent st1).
  { rewrite (proj1 (proj2 (proj2 (settle_fields _)))).
    unfold sender_wakes. rewrite Hrun', Hrun, Hsend. reflexivity. }
  unfold payload in Hwake. rewrite Hr1, Hc1', Hcm, Hcf, Hsent' in Hwake.
  rewrite Hsd'. destruct (sender st); try discriminate; exact Hwake.
Qed.

End MoreHandlerFacts.

(** ** The thermal range of the base matrix *)

Section RangeFacts.
Context {E : Env}.

Lemma same_float_eq (a b : float) : same_float a b = true -> a = b.
Proof.
  destruct a as [s|s| |s m e], b as [s'|s'| |s' m' e']; simpl;
    try discriminate; intros H.
  - apply eqb_prop in H. now subst.
  - apply eqb_prop in H. now subst.
  - reflexivity.
  - apply andb_true_iff in H as [H He]. apply andb_true_iff in H as [Hs Hm].
    apply eqb_prop in Hs. apply Pos.eqb_eq in Hm. apply Z.eqb_eq in He.
    now subst.
Qed.

Lemma in_byte_levels (z : Z) : (0 <= z < 256)%Z -> In z byte_levels.
Proof.
  intros H. unfold byte_levels. apply in_map_iff. exists (Z.to_nat z).
  split; [lia|]. apply in_seq. lia.
Qed.

Lemma all_pairs_spec (P : Z -> Z -> bool) :
  all_pairs P = true ->
  forall a b, (0 <= a < 256)%Z -> (0 <= b < 256)%Z -> P a b = true.
Proof.
  unfold all_pairs. intros H a b Ha Hb.
  rewrite forallb_forall in H. specialize (H a (in_byte_levels a Ha)).
  rewrite forallb_forall in H. apply H, in_byte_levels, Hb.
Qed.

Lemma extremes_exact_all : all_pairs extremes_exact = true.
Proof. vm_compute. reflexivity. Qed.

Lemma differences_exact_all : all_pairs differences_exact = true.
Proof. vm_compute. reflexivity. Qed.

Lemma ends_exact_all : forallb ends_exact byte_levels = true.
Proof. vm_compute. reflexivity. Qed.

Lemma stretch_in_range_all : all_pairs stretch_in_range = true.
Proof. vm_compute. reflexivity. Qed.

Lemma np_minimum_levels (a b : Z) :
  (0 <= a < 256)%Z -> (0 <= b < 256)%Z ->
  np_minimum (f32_of_Z a) (f32_of_Z b) = f32_of_Z (Z.min a b).
Proof.
  intros Ha Hb. pose proof (all_pairs_spec _ extremes_exact_all a b Ha Hb) as H.
  apply andb_true_iff in H as [H _]. now apply same_float_eq.
Qed.

Lemma np_maximum_levels (a b : Z) :
  (0 <= a < 256)%Z -> (0 <= b < 256)%Z ->
  np_maximum (f32_of_Z a) (f32_of_Z b) = f32_of_Z (Z.max a b).
Proof.
  intros Ha Hb. pose proof (all_pairs_spec _ extremes_exact_all a b Ha Hb) as H.
  apply andb_true_iff in H as [_ H]. now apply same_float_eq.
Qed.

Lemma differences_levels (a b : Z) :
  (0 <= b <= a)%Z -> (a < 256)%Z ->
  f32_sub (f32_of_Z a) (to_f32 (to_f64 (f32_of_Z b))) = f32_of_Z (a - b)
  /\ to_f32 (f64_sub (to_f64 (f32_of_Z a)) (to_f64 (f32_of_Z b)))
     = f32_of_Z (a - b)
  /\ eqb (to_f64 (f32_of_Z a)) (to_f64 (f32_of_Z b)) = (a =? b)%Z.
Proof.
  intros Hb Ha.
  pose proof (all_pairs_spec _ differences_exact_all a b) as H.
  unfold differences_exact in H.
  destruct (Z.leb_spec b a) as [_|?]; [|lia].
  specialize (H ltac:(lia) ltac:(lia)).
  apply andb_true_iff in H as [H H3]. apply andb_true_iff in H as [H1 H2].
  split; [now apply same_float_eq|]. split; [now apply same_float_eq|].
  now apply eqb_prop.
Qed.

Lemma ends_levels (k : Z) :
  (0 < k < 256)%Z ->
  f32_div (f32_of_Z 0) (f32_of_Z k) = zero
  /\ f32_div (f32_of_Z k) (f32_of_Z k) = f32_of_Z 1.
Proof.
  intros Hk. pose proof ends_exact_all as H.
  rewrite forallb_forall in H. specialize (H k (in_byte_levels k ltac:(lia))).
  unfold ends_exact in H. destruct (Z.ltb_spec 0 k) as [_|?]; [|lia].
  apply andb_true_iff in H as [H1 H2].
  split; now apply same_float_eq.
Qed.

Lemma stretch_levels (d k : Z) :
  (0 <= d <= k)%Z -> (0 < k < 256)%Z ->
  in_range (f32_of_Z 28) (f32_of_Z 38) (stretch (of_Z 28) (of_Z 38) 0 k d)
  = true.
Proof.
  intros Hd Hk.
  pose proof (all_pairs_spec _ stretch_in_range_all d k) as H.
  unfold stretch_in_range in H.
  destruct (Z.leb_spec d k) as [_|?]; [|lia].
  destruct (Z.ltb_spec 0 k) as [_|?]; [|lia].
  apply H; lia.
Qed.

(** The lowest level of a list is one of its members and a lower bound,
    and the reduction of the code computes it. *)
Lemma fold_min_spec (zs : list Z) (z0 : Z) :
  In (fold_left Z.min zs z0) (z0 :: zs)
  /\ (forall z, In z (z0 :: zs) -> (fold_left Z.min zs z0 <= z)%Z).
Proof.
  revert z0. induction zs as [|a zs IH]; intros z0.
  - simpl. split; [now left|]. intros z [<-|[]]. lia.
  - cbn [fold_left]. destruct (IH (Z.min z0 a)) as [Hin Hle]. split.
    + destruct Hin as [Heq|Hin].
      * rewrite <- Heq. destruct (Z.min_spec z0 a) as [[_ ->]|[_ ->]];
          [now left|right; now left].
      * right. now right.
    + intros z [<-|[<-|Hz]].
      * specialize (Hle (Z.min z0 a) (or_introl eq_refl)). lia.
      * specialize (Hle (Z.min z0 a) (or_introl eq_refl)). lia.
      * apply Hle. now right.
Qed.

Lemma fold_max_spec (zs : list Z) (z0 : Z) :
  In (fold_left Z.max zs z0) (z0 :: zs)
  /\ (forall z, In z (z0 :: zs) -> (z <= fold_left Z.max zs z0)%Z).
Proof.
  revert z0. induction zs as [|a zs IH]; intros z0.
  - simpl. split; [now left|]. intros z [<-|[]]. lia.
  - cbn [fold_left]. destruct (IH (Z.max z0 a)) as [Hin Hle]. split.
    + destruct Hin as [Heq|Hin].
      * rewrite <- Heq. destruct (Z.max_spec z0 a) as [[_ ->]|[_ ->]];
          [right; now left|now left].
      * right. now right.
    + intros z [<-|[<-|Hz]].
      * specialize (Hle (Z.max z0 a) (or_introl eq_refl)). lia.
      * specialize (Hle (Z.max z0 a) (or_introl eq_refl)). lia.
      * apply Hle. now right.
Qed.

Lemma fold_minimum_levels (zs : list Z) (z0 : Z) :
  (forall z, In z (z0 :: zs) -> (0 <= z < 256)%Z) ->
  fold_left np_minimum (map f32_of_Z zs) (f32_of_Z z0)
  = f32_of_Z (fold_left Z.min zs z0).
Proof.
  revert z0. induction zs as [|a zs IH]; intros z0 H; [reflexivity|].
  cbn [map fold_left].
  pose proof (H z0 (or_introl eq_refl)) as H0.
  pose proof (H a (or_intror (or_introl eq_refl))) as Ha.
  rewrite np_minimum_levels by assumption. apply IH.
  intros z [<-|Hz]; [lia|]. apply H. right. now right.
Qed.

Lemma fold_maximum_levels (zs : list Z) (z0 : Z) :
  (forall z, In z (z0 :: zs) -> (0 <= z < 256)%Z) ->
  fold_left np_maximum (map f32_of_Z zs) (f32_of_Z z0)
  = f32_of_Z (fold_left Z.max zs z0).
Proof.
  revert z0. induction zs as [|a zs IH]; intros z0 H; [reflexivity|].
  cbn [map fold_left].
  pose proof (H z0 (or_introl eq_refl)) as H0.
  pose proof (H a (or_intror (or_introl eq_refl))) as Ha.
  rewrite np_maximum_levels by assumption. apply IH.
  intros z [<-|Hz]; [lia|]. apply H. right. now right.
Qed.

Lemma ravel_asarray (px : nat -> nat -> Byte.byte) (r c : nat) :
  ravel (asarray px r c) = map f32_of_Z (gray_levels px r c).
Proof.
  unfold ravel, asarray, gray_levels. rewrite concat_map, map_map.
  f_equal. apply map_ext. intros i. now rewrite map_map.
Qed.

Lemma gray_levels_bounded (px : nat -> nat -> Byte.byte) (r c : nat) (z : Z) :
  In z (gray_levels px r c) -> (0 <= z < 256)%Z.
Proof.
  unfold gray_levels. intros H. apply in_concat in H as [row [Hrow Hz]].
  apply in_map_iff in Hrow as [i [<- _]].
  apply in_map_iff in Hz as [j [<- _]].
  pose proof (Byte.to_N_bounded (px i j)). lia.
Qed.

Lemma gray_levels_member (px : nat -> nat -> Byte.byte) (r c i j : nat) :
  i < r -> j < c -> In (Z.of_N (Byte.to_N (px i j))) (gray_levels px r c).
Proof.
  intros Hi Hj. unfold gray_levels. apply in_concat.
  exists (map (fun j => Z.of_N (Byte.to_N (px i j))) (seq 0 c)). split.
  - apply in_map_iff. exists i. split; [reflexivity|]. apply in_seq. lia.
  - apply in_map_iff. exists j. split; [reflexivity|]. apply in_seq. lia.
Qed.

Lemma length_gray_levels (px : nat -> nat -> Byte.byte) (r c : nat) :
  length (gray_levels px r c) = r * c.
Proof.
  rewrite <- (length_map f32_of_Z), <- ravel_asarray.
  apply length_ravel, has_shape_asarray.
Qed.

(** What the darkest and the brightest levels of an image are, and that
    [min()] and [max()] return them. *)
Lemma extremes_asarray (px : nat -> nat -> Byte.byte) (r c : nat) :
  0 < r -> 0 < c ->
  let levels := gray_levels px r c in
  In (darkest levels) levels /\ In (brightest levels) levels
  /\ (forall g, In g levels -> (darkest levels <= g <= brightest levels)%Z)
  /\ np_min (asarray px r c) = Return (f32_of_Z (darkest levels))
  /\ np_max (asarray px r c) = Return (f32_of_Z (brightest levels)).
Proof.
  intros Hr Hc levels.
  pose proof (length_gray_levels px r c) as Hlen.
  pose proof (gray_levels_bounded px r c) as Hb.
  unfold np_min, np_max. rewrite ravel_asarray.
  fold levels in Hlen, Hb |- *. unfold darkest, brightest.
  destruct levels as [|z0 zs]; [simpl in Hlen; nia|].
  cbn [hd tl map].
  destruct (fold_min_spec zs z0) as [Hmin Hlo].
  destruct (fold_max_spec zs z0) as [Hmax Hhi].
  split; [exact Hmin|]. split; [exact Hmax|].
  split; [intros g Hg; split; [now apply Hlo|now apply Hhi]|].
  split; f_equal; [now apply fold_minimum_levels|now apply fold_maximum_levels].
Qed.

Lemma pixel_asarray (px : nat -> nat -> Byte.byte) (r c i j : nat) :
  i < r -> j < c ->
  pixel (asarray px r c) i j = Some (f32_of_Z (Z.of_N (Byte.to_N (px i j)))).
Proof.
  intros Hi Hj. unfold pixel, asarray.
  rewrite nth_error_map.
  rewrite (nth_error_nth' (seq 0 r) 0) by (rewrite length_seq; exact Hi).
  rewrite seq_nth by exact Hi. cbn [option_map].
  rewrite nth_error_map.
  rewrite (nth_error_nth' (seq 0 c) 0) by (rewrite length_seq; exact Hj).
  rewrite seq_nth by exact Hj. reflexivity.
Qed.

(** The pixels of the base matrix after the load of a file that exists,
    for a sensor with at least one pixel. *)
Lemma _load_image_pixels (path : string) (self : SimulatedSensor)
    (img : image) :
  Image_open path = Return img ->
  0 < rows self -> 0 < cols self ->
  let px := resize img (cols self) (rows self) in
  let levels := gray_levels px (rows self) (cols self) in
  let lo := darkest levels in
  let hi := brightest levels in
  fst (_load_image path self) = Return tt
  /\ forall i j, i < rows self -> j < cols self ->
     pixel (base (snd (_load_image path self))) i j
     = Some (if (hi =? lo)%Z
             then f32_add (to_f32 (temp_min self))
                    (f32_mul (to_f32 (f64_sub (temp_max self) (temp_min self)))
                       zero)
             else stretch (temp_min self) (temp_max self) lo hi
                    (Z.of_N (Byte.to_N (px i j)))).
Proof.
  intros Hopen Hr Hc px levels lo hi.
  destruct (extremes_asarray px _ _ Hr Hc) as (Hlo & Hhi & Hbound & Hmin & Hmax).
  fold levels in Hlo, Hhi, Hbound, Hmin, Hmax. fold lo in Hlo, Hbound, Hmin.
  fold hi in Hhi, Hbound, Hmax.
  pose proof (gray_levels_bounded px _ _ lo Hlo) as Blo.
  pose proof (gray_levels_bounded px _ _ hi Hhi) as Bhi.
  pose proof (Hbound lo Hlo) as Hle.
  destruct (differences_levels hi lo ltac:(lia) ltac:(lia)) as (_ & Hspan & Heq).
  unfold _load_image. rewrite Hopen.
  cbn [rows cols temp_min temp_max log_load].
  fold px. rewrite Hmin, Hmax, Heq, Hspan.
  destruct (hi =? lo)%Z eqn:Hsame; cbn [fst snd base set_base].
  - split; [reflexivity|]. intros i j Hi Hj.
    rewrite pixel_map_matrix. unfold np_zeros_like.
    change (map (map ?f) ?m) with (map_matrix f m).
    rewrite pixel_map_matrix, (pixel_asarray px _ _ i j Hi Hj). reflexivity.
  - split; [reflexivity|]. intros i j Hi Hj.
    rewrite !pixel_map_matrix, (pixel_asarray px _ _ i j Hi Hj).
    cbn [option_map]. unfold stretch. do 4 f_equal.
    pose proof (gray_levels_member px _ _ i j Hi Hj) as Hg.
    fold levels in Hg. pose proof (Hbound _ Hg) as Hgb.
    now destruct (differences_levels (Z.of_N (Byte.to_N (px i j))) lo
                    ltac:(lia) ltac:(lia)) as (-> & _).
Qed.

(** X14.  For a file that exists and a sensor with at least one pixel,
    [_load_image] returns and stretches the gray levels of the resampled
    image over the thermal range: when the image has two different
    levels, a pixel of level [g] receives
    [temp_min + (temp_max - temp_min) * ((g - lo) / (hi - lo))], computed
    in single precision, where [lo] and [hi] are the lowest and the
    highest level; the quotient is 0.0 at the darkest pixels and 1.0 at
    the brightest. *)
Theorem _load_image_stretches (path : string) (self : SimulatedSensor)
    (img : image) :
  Image_open path = Return img ->
  0 < rows self -> 0 < cols self ->
  let px := resize img (cols self) (rows self) in
  let levels := gray_levels px (rows self) (cols self) in
  let lo := darkest levels in
  let hi := brightest levels in
  let self' := snd (_load_image path self) in
  let tmin := to_f32 (temp_min self) in
  let span := to_f32 (f64_sub (temp_max self) (temp_min self)) in
  In lo levels /\ In hi levels
  /\ (forall g, In g levels -> (lo <= g <= hi)%Z)
  /\ fst (_load_image path self) = Return tt
  /\ (lo <> hi ->
      forall i j, i < rows self -> j < cols self ->
      let g := Z.of_N (Byte.to_N (px i j)) in
      pixel (base self') i j
      = Some (stretch (temp_min self) (temp_max self) lo hi g)
      /\ (g = lo ->
          pixel (base self') i j = Some (f32_add tmin (f32_mul span zero)))
      /\ (g = hi ->
          pixel (base self') i j
          = Some (f32_add tmin (f32_mul span (f32_of_Z 1))))).
Proof.
  intros Hopen Hr Hc px levels lo hi self' tmin span.
  destruct (extremes_asarray px _ _ Hr Hc) as (Hlo & Hhi & Hbound & _).
  fold levels in Hlo, Hhi, Hbound. fold lo in Hlo, Hbound.
  fold hi in Hhi, Hbound.
  destruct (_load_image_pixels path self img Hopen Hr Hc) as [Hret Hpix].
  fold px levels lo hi in Hpix.
  split; [exact Hlo|]. split; [exact Hhi|]. split; [exact Hbound|].
  split; [exact Hret|].
  intros Hne i j Hi Hj g.
  assert (Hp : pixel (base self') i j
               = Some (stretch (temp_min self) (temp_max self) lo hi g)).
  { unfold self'. rewrite (Hpix i j Hi Hj).
    destruct (Z.eqb_spec hi lo) as [Heq|_]; [now elim Hne|reflexivity]. }
  pose proof (gray_levels_bounded px _ _ lo Hlo) as Blo.
  pose proof (gray_levels_bounded px _ _ hi Hhi) as Bhi.
  pose proof (Hbound lo Hlo) as Hle.
  destruct (ends_levels (hi - lo) ltac:(lia)) as [H0 H1].
  split; [exact Hp|]. split; intros Hg; rewrite Hp; unfold stretch; rewrite Hg.
  - now rewrite Z.sub_diag, H0.
  - now rewrite H1.
Qed.

(** With the range of the handler every pixel that a load writes is
    between 28 and 38 degrees; a load that raises leaves the matrix in
    place. *)
Lemma _load_image_in_range (path : string) (self : SimulatedSensor) :
  0 < rows self -> 0 < cols self ->
  temp_min self = of_Z 28 -> temp_max self = of_Z 38 ->
  fst (_load_image path self) = Return tt
  \/ ranged (rows self) (cols self) (base self) ->
  ranged (rows self) (cols self) (base (snd (_load_image path self))).
Proof.
  intros Hr Hc Hmin Hmax Hcase i j Hi Hj.
  destruct (Image_open path) as [img|e] eqn:Hopen.
  - destruct (_load_image_pixels path self img Hopen Hr Hc) as [_ Hpix].
    rewrite (Hpix i j Hi Hj), Hmin, Hmax. eexists. split; [reflexivity|].
    set (px := resize img (cols self) (rows self)) in *.
    set (levels := gray_levels px (rows self) (cols self)) in *.
    destruct (extremes_asarray px _ _ Hr Hc) as (Hlo & Hhi & Hbound & _).
    fold levels in Hlo, Hhi, Hbound.
    pose proof (gray_levels_bounded px _ _ _ Hlo) as Blo.
    pose proof (gray_levels_bounded px _ _ _ Hhi) as Bhi.
    pose proof (gray_levels_member px _ _ i j Hi Hj) as Hg.
    fold levels in Hg. pose proof (Hbound _ Hg) as Hgb.
    destruct (Z.eqb_spec (brightest levels) (darkest levels)) as [Heq|Hne].
    + vm_compute. reflexivity.
    + pose proof (stretch_levels
                    (Z.of_N (Byte.to_N (px i j)) - darkest levels)
                    (brightest levels - darkest levels)
                    ltac:(lia) ltac:(lia)) as H.
      unfold stretch in H |- *. now rewrite !Z.sub_0_r in H.
  - destruct (is_FileNotFoundError e) eqn:He.
    + destruct e; try discriminate.
      rewrite (_load_image_absent path self Hopen). cbn [snd base set_base].
      cbn [rows cols temp_min temp_max log_load].
      rewrite pixel_np_full by assumption. rewrite Hmin, Hmax.
      eexists. split; [reflexivity|]. vm_compute. reflexivity.
    + assert (Hload : _load_image path self = (Raise e, log_load self path))
        by (unfold _load_image; now rewrite Hopen, He).
      rewrite Hload in *. cbn [fst snd base log_load] in *.
      destruct Hcase as [Hret|Hbase]; [discriminate|].
      now apply Hbase.
Qed.

Lemma set_config_in_range (m f : option string) (self : SimulatedSensor) :
  0 < rows self -> 0 < cols self ->
  temp_min self = of_Z 28 -> temp_max self = of_Z 38 ->
  ranged (rows self) (cols self) (base self) ->
  ranged (rows self) (cols self) (base (snd (set_config m f self))).
Proof.
  intros Hr Hc Hmin Hmax Hb.
  assert (Hsnd : snd (set_config m f self)
                 = snd (set_config None f (snd (mode_part m self)))).
  { rewrite set_config_parts.
    now destruct (set_config None f (snd (mode_part m self))). }
  rewrite Hsnd.
  destruct (mode_part_frame m self)
    as (Hr1 & Hc1 & Hmin1 & Hmax1 & _ & _ & _ & _ & Hbase1 & _).
  set (s1 := snd (mode_part m self)) in *.
  destruct (foot_part_cases f s1) as [Hno|(X & -> & Hv & Hne)].
  - rewrite Hno. cbn [snd]. now rewrite Hbase1.
  - rewrite (set_config_foot_new X s1 Hv Hne).
    destruct (image_map X =? image_path s1).
    + cbn [snd base set_foot]. now rewrite Hbase1.
    + pose proof (_load_image_in_range (image_map X)
                    (set_image_path (set_foot s1 X) (image_map X))) as Hload.
      cbn [rows cols temp_min temp_max base set_image_path set_foot] in Hload.
      rewrite Hr1, Hc1, Hmin1, Hmax1, Hbase1 in Hload.
      specialize (Hload Hr Hc Hmin Hmax (or_intror Hb)).
      now destruct (_load_image _ _) as [[[]|e] s3].
Qed.

Lemma request_in_range (rm rf : option string) (st : session) :
  session_data_ok st ->
  ranged 32 24 (base (sensor st)) ->
  ranged 32 24 (base (sensor (apply_request rm rf st))).
Proof.
  intros Hd Hb. pose proof (session_data_request rm None st Hd) as Hd1.
  assert (Hone : forall m f x, session_data_ok x ->
            ranged 32 24 (base (sensor x)) ->
            ranged 32 24 (base (snd (set_config m f (sensor x))))).
  { intros m f x ((Hr & Hc & Hmin & Hmax & _) & _) Hx.
    rewrite <- Hr, <- Hc in *. apply set_config_in_range; trivial; lia. }
  assert (Hb1 : ranged 32 24 (base (sensor (apply_request rm None st)))).
  { destruct rm as [s0|]; [|exact Hb]. now apply Hone. }
  rewrite (apply_request_split rm rf). destruct rf as [f0|]; [|exact Hb1].
  now apply Hone.
Qed.

Lemma step_in_range (ev : event) (st : session) :
  session_ok st -> session_data_ok st ->
  ranged 32 24 (base (sensor st)) ->
  ranged 32 24 (base (sensor (step ev st))).
Proof.
  intros Hok Hd Hb.
  destruct (step_data ev st Hok)
    as [H|[(m & rm & rf & _ & _ & _ & H)
          |(now & now' & frame & _ & _ & _ & _ & _ & _ & H)]];
    destruct H as (<- & _); trivial.
  now apply request_in_range.
Qed.

Lemma connect_in_range (g0 : rng) (st0 : session) :
  connect g0 = Return st0 -> ranged 32 24 (base (sensor st0)).
Proof.
  unfold connect.
  destruct (new_sensor "pie_izquierdo.png") as [self|e] eqn:Hnew;
    [|discriminate].
  assert (Hself : ranged 32 24 (base self)).
  { unfold new_sensor, __init__ in Hnew.
    match type of Hnew with
    | context [_load_image ?p ?s0] =>
        pose proof (_load_image_in_range p s0) as Hload;
        destruct (_load_image p s0) as [[[]|e] s1]; [|discriminate]
    end.
    injection Hnew as <-. cbn [fst snd rows cols temp_min temp_max] in Hload.
    apply Hload; try lia; try reflexivity. now left. }
  destruct (__init___kept _ _ _ _ _ _ _ Hnew) as [(Hr & Hc & Hmin & Hmax & _) _].
  pose proof (set_config_in_range (Some "baja_diferencia") (Some "izquierdo")
                self) as Hset.
  rewrite Hr, Hc in Hset.
  specialize (Hset ltac:(lia) ltac:(lia) Hmin Hmax Hself).
  destruct (set_config _ _ self) as [[c|e] self']; [|discriminate].
  now intros [= <-].
Qed.

(** X15.  In every state that a session reaches, each of the 32 by 24
    pixels of the base matrix of the sensor is a temperature between 28
    and 38 degrees, whether the image of the foot is there or not. *)
Theorem session_base_in_range (g0 : rng) (st0 : session) (evs : list event)
    (i j : nat) :
  connect g0 = Return st0 ->
  i < 32 -> j < 24 ->
  exists x,
    pixel (base (sensor (run evs st0))) i j = Some x
    /\ in_range (f32_of_Z 28) (f32_of_Z 38) x = true.
Proof.
  intros Hcon. revert i j.
  change (ranged 32 24 (base (sensor (run evs st0)))).
  destruct (connect_ok g0 st0 Hcon) as (Hok & _).
  pose proof (connect_session_data g0 st0 Hcon) as Hd.
  pose proof (connect_in_range g0 st0 Hcon) as Hb.
  clear Hcon. revert st0 Hok Hd Hb.
  induction evs as [|ev evs IH]; intros st0 Hok Hd Hb; [exact Hb|].
  apply IH;
    [now apply step_ok|now apply step_session_data|now apply step_in_range].
Qed.

End RangeFacts.

(** ** The further properties at work on the example environment *)

Lemma set_config_result_witness :
  let self := Example.left_sensor in
  let self' :=
    snd (set_config (E := Example.env) (Some "alta_diferencia")
           (Some "izquierdo") self) in
  fst (set_config (E := Example.env) (Some "alta_diferencia")
         (Some "izquierdo") self) = Return true
  /\ true = negb ((simulation_mode self' =? simulation_mode self)
                  && (foot self' =? foot self)).
Proof.
  cbn zeta.
  assert (H : fst (set_config (E := Example.env) (Some "alta_diferencia")
                     (Some "izquierdo") Example.left_sensor) = Return true)
    by (vm_compute; reflexivity).
  split; [exact H|].
  exact (set_config_result (E := Example.env) (Some "alta_diferencia")
           (Some "izquierdo") Example.left_sensor true H).
Defined.

Lemma calls_keep_witness :
  let cs :=
    [CallSetConfig None (Some "derecho"); CallGetFrame;
     CallSetConfig (Some "alta_diferencia") (Some "izquierdo")] in
  __init__ (E := Example.env) "pie_derecho.png" 2 3 (of_Z 28) (of_Z 38)
    (decimal 15 100) = Return Example.right_image_sensor
  /\ has_shape 2 3
       (base (fst (do_calls (E := Example.env) cs
                     (Example.right_image_sensor, 0)))) = true.
Proof.
  cbn zeta.
  assert (H : __init__ (E := Example.env) "pie_derecho.png" 2 3 (of_Z 28)
                (of_Z 38) (decimal 15 100) = Return Example.right_image_sensor)
    by (vm_compute; reflexivity).
  split; [exact H|].
  destruct (calls_keep (E := Example.env) "pie_derecho.png" 2 3 (of_Z 28)
              (of_Z 38) (decimal 15 100) Example.right_image_sensor
              [CallSetConfig None (Some "derecho"); CallGetFrame;
               CallSetConfig (Some "alta_diferencia") (Some "izquierdo")]
              0 H)
    as (_ & _ & _ & _ & _ & Hshape & _).
  exact Hshape.
Defined.

Lemma session_invariant_witness :
  let evs :=
    [InitialMessage (Return Example.msg_right);
     SenderWakes (of_Z 100) (of_Z 101)] in
  connect (E := Example.env) 0 = Return Example.session0
  /\ rows (sensor (run evs Example.session0)) = 32
  /\ cols (sensor (run evs Example.session0)) = 24
  /\ foot (sensor (run evs Example.session0))
     = current_foot (run evs Example.session0).
Proof.
  cbn zeta.
  assert (H : connect (E := Example.env) 0 = Return Example.session0)
    by (vm_compute; reflexivity).
  split; [exact H|].
  destruct (session_invariant (E := Example.env) 0 Example.session0
              [InitialMessage (Return Example.msg_right);
               SenderWakes (of_Z 100) (of_Z 101)] H)
    as (Hr & Hc & _ & _ & _ & _ & _ & Hf & _).
  split; [exact Hr|]. split; [exact Hc|exact Hf].
Defined.

Lemma sent_are_frames_witness :
  let evs :=
    [InitialMessage (Raise TimeoutError); SenderWakes (of_Z 100) (of_Z 101)] in
  connect (E := Example.env) 0 = Return Example.session0
  /\ forallb is_frame (sent (run evs Example.session0)) = true.
Proof.
  cbn zeta.
  assert (H : connect (E := Example.env) 0 = Return Example.session0)
    by (vm_compute; reflexivity).
  split; [exact H|].
  exact (sent_are_frames (E := Example.env) 0 Example.session0
           [InitialMessage (Raise TimeoutError);
            SenderWakes (of_Z 100) (of_Z 101)] H).
Defined.

Lemma phase_counts_frames_witness :
  let evs :=
    [InitialMessage (Raise TimeoutError); SenderWakes (of_Z 100) (of_Z 101);
     ReceiverStarts; RecvCompletes (Return Example.msg_right)] in
  connect (E := Example.env) 0 = Return Example.session0
  /\ t (sensor (run evs Example.session0))
     = phase_after (length (sent (run evs Example.session0))).
Proof.
  cbn zeta.
  assert (H : connect (E := Example.env) 0 = Return Example.session0)
    by (vm_compute; reflexivity).
  split; [exact H|].
  exact (phase_counts_frames (E := Example.env) 0 Example.session0
           [InitialMessage (Raise TimeoutError);
            SenderWakes (of_Z 100) (of_Z 101);
            ReceiverStarts; RecvCompletes (Return Example.msg_right)] H).
Defined.

Lemma only_ticks_send_witness :
  let st := run [InitialMessage (Raise TimeoutError)] Example.session0 in
  connect (E := Example.env) 0 = Return Example.session0
  /\ (sent (step (RecvCompletes (Return Example.msg_right)) st) = sent st
      \/ exists now now' p,
           RecvCompletes (Return Example.msg_right) = SenderWakes now now'
           /\ stage st = Streaming /\ running st = true
           /\ at_loop_test (sender st) = true
           /\ is_frame p = true
           /\ sent (step (RecvCompletes (Return Example.msg_right)) st)
              = p :: sent st).
Proof.
  cbn zeta.
  assert (H : connect (E := Example.env) 0 = Return Example.session0)
    by (vm_compute; reflexivity).
  split; [exact H|].
  exact (only_ticks_send (E := Example.env) 0 Example.session0
           [InitialMessage (Raise TimeoutError)]
           (RecvCompletes (Return Example.msg_right)) H).
Defined.

Lemma handshake_failure_closes_witness :
  let evs :=
    [InitialMessage (Raise ConnectionClosed);
     SenderWakes (of_Z 100) (of_Z 101); ReceiverStarts] in
  connect (E := Example.env) 0 = Return Example.session0
  /\ is_TimeoutError ConnectionClosed = false
  /\ stage (run evs Example.session0) = Closed
  /\ sent (run evs Example.session0) = [].
Proof.
  cbn zeta.
  assert (H : connect (E := Example.env) 0 = Return Example.session0)
    by (vm_compute; reflexivity).
  split; [exact H|]. split; [reflexivity|].
  destruct (handshake_failure_closes (E := Example.env) 0 Example.session0
              ConnectionClosed
              [SenderWakes (of_Z 100) (of_Z 101); ReceiverStarts] H eq_refl)
    as (_ & Hst & _ & _ & _ & Hsent).
  split; [exact Hst|exact Hsent].
Defined.

Lemma update_reaches_next_frame_witness :
  let st :=
    run [InitialMessage (Raise TimeoutError); ReceiverStarts]
      Example.session0 in
  let st1 := step (RecvCompletes (Return Example.msg_bad_foot)) st in
  let d :=
    [("simulation_mode", JStr "alta_diferencia"); ("foot", JStr "ambos")] in
  connect (E := Example.env) 0 = Return Example.session0
  /\ json_loads (Env := Example.env) Example.msg_bad_foot = Return (JDict d)
  /\ prints (E := Example.env)
       (rejected "simulation_mode" VALID_SIMULATION_MODES d) = true
  /\ prints (E := Example.env) (rejected "foot" VALID_FEET d) = true
  /\ loads (E := Example.env) (requested "foot" VALID_FEET d) = true
  /\ stage st = Streaming /\ receiver st = ReceiverWaiting
  /\ running st = true /\ at_loop_test (sender st) = true
  /\ simulation_mode (sensor st1) = "alta_diferencia"
  /\ exists data,
       length data = 768
       /\ sent (step (SenderWakes (of_Z 100) (of_Z 101)) st1)
          = [JDict [("simulation_mode", JStr "alta_diferencia");
                    ("foot", JStr "izquierdo");
                    ("timestamp", JFloat (of_Z 101));
                    ("rows", JInt 32); ("cols", JInt 24);
                    ("data", JList (map JFloat data))]].
Proof.
  cbn zeta.
  assert (H : connect (E := Example.env) 0 = Return Example.session0)
    by (vm_compute; reflexivity).
  assert (H0 : json_loads (Env := Example.env) Example.msg_bad_foot
               = Return (JDict [("simulation_mode", JStr "alta_diferencia");
                                ("foot", JStr "ambos")]))
    by reflexivity.
  assert (Hp1 : prints (E := Example.env)
                  (rejected "simulation_mode" VALID_SIMULATION_MODES
                     [("simulation_mode", JStr "alta_diferencia");
                      ("foot", JStr "ambos")]) = true) by reflexivity.
  assert (Hp2 : prints (E := Example.env)
                  (rejected "foot" VALID_FEET
                     [("simulation_mode", JStr "alta_diferencia");
                      ("foot", JStr "ambos")]) = true) by reflexivity.
  assert (Hl : loads (E := Example.env)
                 (requested "foot" VALID_FEET
                    [("simulation_mode", JStr "alta_diferencia");
                     ("foot", JStr "ambos")]) = true) by reflexivity.
  assert (H1 : stage (run [InitialMessage (Raise TimeoutError); ReceiverStarts]
                        Example.session0) = Streaming)
    by (vm_compute; reflexivity).
  assert (H2 : receiver
                 (run [InitialMessage (Raise TimeoutError); ReceiverStarts]
                    Example.session0) = ReceiverWaiting)
    by (vm_compute; reflexivity).
  assert (H3 : running
                 (run [InitialMessage (Raise TimeoutError); ReceiverStarts]
                    Example.session0) = true)
    by (vm_compute; reflexivity).
  assert (H4 : at_loop_test
                 (sender
                    (run [InitialMessage (Raise TimeoutError); ReceiverStarts]
                       Example.session0)) = true)
    by (vm_compute; reflexivity).
  repeat (split; [assumption|]).
  destruct (update_reaches_next_frame (E := Example.env) 0 Example.session0
              [InitialMessage (Raise TimeoutError); ReceiverStarts]
              Example.msg_bad_foot
              [("simulation_mode", JStr "alta_diferencia");
               ("foot", JStr "ambos")]
              (of_Z 100) (of_Z 101) H H0 Hp1 Hp2 Hl H1 H2 H3 H4)
    as (_ & _ & _ & Hmode & _ & _ & _ & _ & data & Hlen & Hsent).
  split; [exact Hmode|].
  exists data. split; [exact Hlen|exact Hsent].
Defined.

Lemma _load_image_stretches_witness :
  let self := Example.left_sensor in
  let img := fun i j => Example.gray (i + j) in
  Image_open (Env := Example.env) "pie_izquierdo.png" = Return img
  /\ 0 < rows self /\ 0 < cols self
  /\ fst (_load_image (E := Example.env) "pie_izquierdo.png" self) = Return tt
  /\ In (darkest
           (gray_levels (resize (Env := Example.env) img (cols self) (rows self))
              (rows self) (cols self)))
        (gray_levels (resize (Env := Example.env) img (cols self) (rows self))
           (rows self) (cols self)).
Proof.
  cbn zeta.
  assert (H1 : Image_open (Env := Example.env) "pie_izquierdo.png"
               = Return (fun i j => Example.gray (i + j))) by reflexivity.
  assert (H2 : 0 < rows Example.left_sensor) by (vm_compute; lia).
  assert (H3 : 0 < cols Example.left_sensor) by (vm_compute; lia).
  repeat (split; [assumption|]).
  destruct (_load_image_stretches (E := Example.env) "pie_izquierdo.png"
              Example.left_sensor (fun i j => Example.gray (i + j)) H1 H2 H3)
    as (Hlo & _ & _ & Hret & _).
  split; [exact Hret|exact Hlo].
Defined.

Lemma session_base_in_range_witness :
  let st := run [InitialMessage (Return Example.msg_right)] Example.session0 in
  connect (E := Example.env) 0 = Return Example.session0
  /\ 31 < 32 /\ 23 < 24
  /\ exists x,
       pixel (base (sensor st)) 31 23 = Some x
       /\ in_range (f32_of_Z 28) (f32_of_Z 38) x = true.
Proof.
  cbn zeta.
  assert (H : connect (E := Example.env) 0 = Return Example.session0)
    by (vm_compute; reflexivity).
  split; [exact H|]. split; [lia|]. split; [lia|].
  apply (session_base_in_range (E := Example.env) 0 Example.session0
           [InitialMessage (Return Example.msg_right)] 31 23 H); lia.
Defined.

Lemma set_config_ignores_invalid_witness :
  let self := Example.left_sensor in
  str_in "turbo" VALID_SIMULATION_MODES = false
  /\ str_in "ambos" VALID_FEET = false
  /\ set_config (E := Example.env) (Some "turbo") (Some "ambos") self
     = (Return false, self)
  /\ foot (snd (set_config (E := Example.env) (Some "turbo") (Some "derecho")
                  self)) = "derecho".
Proof.
  cbn zeta.
  assert (H1 : str_in "turbo" VALID_SIMULATION_MODES = false) by reflexivity.
  assert (H2 : str_in "ambos" VALID_FEET = false) by reflexivity.
  split; [exact H1|]. split; [exact H2|].
  destruct (set_config_ignores_invalid (E := Example.env) "turbo" "ambos"
              Example.left_sensor H1 H2) as (_ & _ & Hboth & Hfoot & _).
  split; [exact Hboth|]. now apply Hfoot.
Defined.

Lemma receiver_ignores_invalid_witness :
  let st := run [InitialMessage (Raise TimeoutError)] Example.session0 in
  let d := [("simulation_mode", JStr "turbo"); ("foot", JStr "derecho")] in
  valid_enum (JStr "turbo") VALID_SIMULATION_MODES = None
  /\ valid_enum (JStr "ambos") VALID_FEET = None
  /\ connect (E := Example.env) 0 = Return Example.session0
  /\ json_loads (Env := Example.env) Example.msg_bad_mode = Return (JDict d)
  /\ dict_get "simulation_mode" d = Some (JStr "turbo")
  /\ printable (Env := Example.env) (JStr "turbo") = true
  /\ prints (E := Example.env) (rejected "foot" VALID_FEET d) = true
  /\ loads (E := Example.env) (requested "foot" VALID_FEET d) = true
  /\ fst (receive_message (E := Example.env) Example.msg_bad_mode st)
     = Return true
  /\ current_simulation_mode
       (snd (receive_message (E := Example.env) Example.msg_bad_mode st))
     = "baja_diferencia"
  /\ current_foot
       (snd (receive_message (E := Example.env) Example.msg_bad_mode st))
     = "derecho".
Proof.
  cbn zeta.
  assert (H1 : valid_enum (JStr "turbo") VALID_SIMULATION_MODES = None)
    by reflexivity.
  assert (H2 : valid_enum (JStr "ambos") VALID_FEET = None) by reflexivity.
  assert (H3 : connect (E := Example.env) 0 = Return Example.session0)
    by (vm_compute; reflexivity).
  assert (H4 : json_loads (Env := Example.env) Example.msg_bad_mode
               = Return (JDict [("simulation_mode", JStr "turbo");
                                ("foot", JStr "derecho")])) by reflexivity.
  assert (H5 : dict_get "simulation_mode"
                 [("simulation_mode", JStr "turbo"); ("foot", JStr "derecho")]
               = Some (JStr "turbo")) by reflexivity.
  assert (H6 : printable (Env := Example.env) (JStr "turbo") = true)
    by reflexivity.
  assert (H7 : prints (E := Example.env)
                 (rejected "foot" VALID_FEET
                    [("simulation_mode", JStr "turbo");
                     ("foot", JStr "derecho")]) = true) by reflexivity.
  assert (H8 : loads (E := Example.env)
                 (requested "foot" VALID_FEET
                    [("simulation_mode", JStr "turbo");
                     ("foot", JStr "derecho")]) = true) by reflexivity.
  repeat (split; [assumption|]).
  destruct (receiver_ignores_invalid (E := Example.env) (JStr "turbo")
              (JStr "ambos") 0 Example.session0
              [InitialMessage (Raise TimeoutError)] Example.msg_bad_mode
              [("simulation_mode", JStr "turbo"); ("foot", JStr "derecho")]
              H1 H2 H3 H4) as (Hmode & _).
  destruct (Hmode H5 H6 H7 H8) as (Hrecv & Hcm & _ & Hf).
  rewrite Hrecv. cbn [fst snd].
  split; [reflexivity|]. split; [rewrite Hcm; vm_compute; reflexivity|].
  now destruct (Hf "derecho" eq_refl).
Defined.

Lemma handshake_outcomes_witness :
  connect (E := Example.env) 0 = Return Example.session0
  /\ step (InitialMessage (Raise TimeoutError)) Example.session0
     = set_stage Example.session0 Streaming
  /\ step (InitialMessage (Return Example.msg_garbage)) Example.session0
     = set_stage Example.session0 Streaming
  /\ current_foot
       (step (InitialMessage (Return Example.msg_right)) Example.session0)
     = "derecho"
  /\ step (InitialMessage (Return Example.msg_binary)) Example.session0
     = set_stage (set_running Example.session0 false) Closed.
Proof.
  assert (H : connect (E := Example.env) 0 = Return Example.session0)
    by (vm_compute; reflexivity).
  split; [exact H|].
  destruct (handshake_outcomes (E := Example.env) 0 Example.session0 H)
    as (_ & _ & _ & _ & _ & Hno & Hdict & Hbad).
  split; [apply Hno, no_message|].
  split; [apply Hno, not_json; reflexivity|].
  split.
  - destruct (Hdict Example.msg_right [("foot", JStr "derecho")] eq_refl
                eq_refl) as (_ & _ & _ & _ & _ & Hfoot & _).
    exact Hfoot.
  - now apply (Hbad Example.msg_binary UnicodeDecodeError).
Defined.

Lemma stop_signal_witness :
  let evs :=
    [InitialMessage (Raise TimeoutError); ReceiverStarts;
     RecvCompletes (Raise ConnectionClosed)] in
  connect (E := Example.env) 0 = Return Example.session0
  /\ running (run evs Example.session0) = false
  /\ finished
       (run [SendCompletes (Return tt) zero; SenderWakes zero zero;
             ReceiverStarts; RecvCompletes (Raise TimeoutError)]
          (run evs Example.session0)).
Proof.
  cbn zeta.
  assert (H : connect (E := Example.env) 0 = Return Example.session0)
    by (vm_compute; reflexivity).
  split; [exact H|]. split; [vm_compute; reflexivity|].
  destruct (stop_signal (E := Example.env) 0 Example.session0
              [InitialMessage (Raise TimeoutError); ReceiverStarts;
               RecvCompletes (Raise ConnectionClosed)] H)
    as (_ & _ & _ & _ & _ & _ & Hdrain).
  apply Hdrain; vm_compute; reflexivity.
Defined.

(** ** Where the handler leaves the specification *)

(** C5.  The receiver on the object
    [{"simulation_mode": "\ud800", "foot": "derecho"}], received while the
    session streams with the left foot: the mode is rejected, the print
    of the rejected value raises [UnicodeEncodeError], and the valid foot
    of the same message is not applied; the catch-all clause of the loop
    lowers [running]. *)
Theorem unprintable_mode_blocks_foot :
  let st :=
    run [InitialMessage (Raise TimeoutError); ReceiverStarts]
      Example.session0 in
  let st' := step (RecvCompletes (Return Example.msg_surrogate)) st in
  json_loads (Env := Example.env) Example.msg_surrogate
  = Return (JDict [("simulation_mode", JStr Example.lone_surrogate);
                   ("foot", JStr "derecho")])
  /\ valid_enum (JStr Example.lone_surrogate) VALID_SIMULATION_MODES = None
  /\ valid_enum (JStr "derecho") VALID_FEET = Some "derecho"
  /\ stage st = Streaming /\ receiver st = ReceiverWaiting
  /\ running st = true
  /\ current_foot st = "izquierdo" /\ foot (sensor st) = "izquierdo"
  /\ fst (receive_message (E := Example.env) Example.msg_surrogate st)
     = Raise UnicodeEncodeError
  /\ current_foot st' = "izquierdo" /\ foot (sensor st') = "izquierdo"
  /\ running st' = false.
Proof. cbn zeta. repeat split; vm_compute; reflexivity. Qed.

(** C6.  The handshake on the binary frame [b'\xff'], a payload that is
    not JSON: the decoder raises [UnicodeDecodeError], which the clause
    for [JSONDecodeError] does not catch; the handler finishes with
    [running] down, the session is closed and no frame is sent, instead
    of going on to stream with the defaults. *)
Theorem undecodable_handshake_closes :
  let st' :=
    step (InitialMessage (Return Example.msg_binary)) Example.session0 in
  connect (E := Example.env) 0 = Return Example.session0
  /\ json_loads (Env := Example.env) Example.msg_binary
     = Raise UnicodeDecodeError
  /\ stage st' = Closed /\ running st' = false
  /\ sent (run [SenderWakes (of_Z 100) (of_Z 101); ReceiverStarts] st') = [].
Proof. cbn zeta. repeat split; vm_compute; reflexivity. Qed.

(** C7.  The binary frame [b'\xff'] received while the session streams:
    the transport delivered a message, neither closed nor failed, and yet
    [running] falls, because the decoder raises [UnicodeDecodeError] and
    the catch-all clause of the receiver takes it. *)
Theorem undecodable_message_stops_session :
  let st :=
    run [InitialMessage (Raise TimeoutError); ReceiverStarts]
      Example.session0 in
  let ev := RecvCompletes (Return Example.msg_binary) in
  stage st = Streaming /\ receiver st = ReceiverWaiting
  /\ running st = true
  /\ transport_failure ev = false
  /\ running (step ev st) = false.
Proof. cbn zeta. repeat split; vm_compute; reflexivity. Qed.
